(** * Character image pipeline: a model of the upload, listing and
      character controllers

    The development follows the JavaScript sources, one module each:
    - [src/services/bunnyStorageService.js]: [BunnyStorageService]
    - [src/services/localStorageService.js]: [LocalStorageService]
    - [src/models/Character.js]: [Character]
    - [src/controllers/characterController.js]: [CharacterController]
    - [src/controllers/adminController.js]: [AdminController]
    - [src/controllers/carasoulController.js]: [CarasoulController]
    - [src/controllers/mediaController.js]: [MediaController]
    - [src/config/bunnyConfig.js]: [Config]
    - [src/middleware/auth.js]: [Auth]
    - [src/middleware/authMiddleware.js]: [AuthMiddleware]
    - [src/controllers/aiController.js], the conversation formatter:
      [AiController]

    Of the platform, [Path] follows [path.posix] of Node.js, [Double] the
    rounding of IEEE 754 doubles, and [Sharp] the resize geometry that the
    documentation of sharp gives.

    JavaScript values are dynamically typed, so request bodies and Mongoose
    documents are finite maps from field names to [Js.value].  A string is
    the sequence of the UTF-8 bytes of the JavaScript string.  Effects
    (clock, random numbers, disk, HTTP, database) are threaded through a
    state monad with exceptions and early [return]; everything the outside
    world decides is read from an [Env] record of oracles. *)

From stdpp Require Import base strings pretty list sorting gmap.
From Stdlib Require Import ZArith Ascii.

Open Scope Z_scope.

(** ** JavaScript values and string primitives *)

Module Js.

#[warnings="-register-all"]
Inductive value :=
| Undefined
| Null
| Bool (b : bool)
| Num (n : Z)
| Str (s : string)
| Arr (l : list value)
| Obj (l : list (string * value)).

(** Truthiness as used by [if (x)], [!x], [a && b] and [a || b].  Numbers
    of this program are integers (timestamps, sizes). *)
Definition truthy (v : value) : bool :=
  match v with
  | Undefined | Null => false
  | Bool b => b
  | Num n => negb (n =? 0)
  | Str s => negb (String.eqb s "")
  | Arr _ | Obj _ => true
  end.

(** [a || b] *)
Definition or (a b : value) : value := if truthy a then a else b.

(** [o.k] on an object used as a record: a missing key reads [undefined]. *)
Definition get (o : gmap string value) (k : string) : value :=
  default Undefined (o !! k).

(** [`${n}`] for an integer [n] with [|n| < 1e21]: plain decimal digits,
    a leading minus sign for negatives. *)
Definition num_to_string (n : Z) : string := pretty n.

(** [s.startsWith(p)] *)
Definition startsWith (s p : string) : bool := String.prefix p s.

(** [s.substring(1)] *)
Definition substring1 (s : string) : string :=
  match s with
  | EmptyString => EmptyString
  | String _ s' => s'
  end.

(** [s.endsWith(p)] *)
Definition endsWith (s p : string) : bool :=
  String.prefix (String.rev p) (String.rev s).

Definition lower_ascii (a : Ascii.ascii) : Ascii.ascii :=
  let n := Ascii.N_of_ascii a in
  if ((65 <=? n) && (n <=? 90))%N then Ascii.ascii_of_N (n + 32) else a.

(** [s.toLowerCase()] on the ASCII letters; the other bytes are kept. *)
Fixpoint toLowerCase (s : string) : string :=
  match s with
  | EmptyString => EmptyString
  | String a s' => String (lower_ascii a) (toLowerCase s')
  end.

Fixpoint split_go (sep : Ascii.ascii) (cur : string) (s : string) : list string :=
  match s with
  | EmptyString => [String.rev cur]
  | String c s' =>
      if Ascii.eqb c sep then String.rev cur :: split_go sep EmptyString s'
      else split_go sep (String c cur) s'
  end.

(** [s.split(sep)] for a one-character separator. *)
Definition split (sep : Ascii.ascii) (s : string) : list string :=
  split_go sep EmptyString s.

(** The white space and line terminators of ECMAScript beyond ASCII, in
    UTF-8: U+00A0; and U+1680, U+2000 to U+200A, U+2028, U+2029, U+202F,
    U+205F, U+3000, U+FEFF. *)
Definition space2 (a b : Ascii.ascii) : bool :=
  ((Ascii.N_of_ascii a =? 194) && (Ascii.N_of_ascii b =? 160))%N.

Definition space3 (a b c : Ascii.ascii) : bool :=
  let a := Ascii.N_of_ascii a in
  let b := Ascii.N_of_ascii b in
  let c := Ascii.N_of_ascii c in
  ((a =? 225) && (b =? 154) && (c =? 128)
   || (a =? 226) && (b =? 128)
      && ((128 <=? c) && (c <=? 138) || (c =? 168) || (c =? 169) || (c =? 175))
   || (a =? 226) && (b =? 129) && (c =? 159)
   || (a =? 227) && (b =? 128) && (c =? 128)
   || (a =? 239) && (b =? 187) && (c =? 191))%N.

(** [s] without the white space it starts with; [backwards] when [s] is
    read from its end, so that the bytes of a character come last first. *)
Fixpoint drop_space (backwards : bool) (s : string) : string :=
  match s with
  | EmptyString => EmptyString
  | String a s1 =>
      if Ascii.is_space a then drop_space backwards s1
      else
        match s1 with
        | EmptyString => s
        | String b s2 =>
            if (if backwards then space2 b a else space2 a b)
            then drop_space backwards s2
            else
              match s2 with
              | EmptyString => s
              | String c s3 =>
                  if (if backwards then space3 c b a else space3 a b c)
                  then drop_space backwards s3
                  else s
              end
        end
  end.

(** [s.trim()] *)
Definition trim (s : string) : string :=
  String.rev (drop_space true (String.rev (drop_space false s))).

(** [`${v}`]: the string conversion of a value.  Array elements are
    joined by commas, [null] and [undefined] elements giving nothing. *)
Fixpoint to_string (v : value) : string :=
  match v with
  | Undefined => "undefined"
  | Null => "null"
  | Bool true => "true"
  | Bool false => "false"
  | Num n => num_to_string n
  | Str s => s
  | Arr l =>
      (fix join (l : list value) : string :=
         match l with
         | [] => EmptyString
         | [x] =>
             match x with
             | Undefined | Null => EmptyString
             | _ => to_string x
             end
         | x :: l' =>
             match x with
             | Undefined | Null => EmptyString
             | _ => to_string x
             end +:+ "," +:+ join l'
         end) l
  | Obj _ => "[object Object]"
  end.

(** [o[k]] on the entries of an object; of two entries with one key the
    later one counts, as in an object literal and in [JSON.parse]. *)
Fixpoint entry (k : string) (l : list (string * value)) : option value :=
  match l with
  | [] => None
  | (k', v) :: l' =>
      match entry k l' with
      | Some x => Some x
      | None => if String.eqb k' k then Some v else None
      end
  end.

Definition assoc (k : string) (l : list (string * value)) : value :=
  default Undefined (entry k l).

(** [v.k] for a key that is no built-in property: a [TypeError] ([None])
    on [null] and [undefined], the stored value on an object, [undefined]
    on every other value. *)
Definition prop (v : value) (k : string) : option value :=
  match v with
  | Undefined | Null => None
  | Obj l => Some (assoc k l)
  | _ => Some Undefined
  end.

(** [v === s] for a string [s] *)
Definition is_string (v : value) (s : string) : bool :=
  match v with
  | Str x => String.eqb x s
  | _ => false
  end.

End Js.

(** ** Data of the program *)

(** A [Buffer] and the content of a file on disk are byte sequences. *)
Definition Buffer := list Byte.byte.

(** One file as multer stages it: only [path] is read by the controllers. *)
Record UploadedFile := { path : string; originalname : string; mimetype : string }.

(** An Express request as the controllers read it.  [files] is what
    [upload.fields] leaves in [req.files]: absent, or an object whose keys
    hold arrays of staged files. *)
Record Request := {
  body : gmap string Js.value;
  files : option (gmap string (list UploadedFile));
  params_id : string;
  protocol : string;
  host : string;
}.

Record Response := { status : Z; json : Js.value }.

(** One entry of a Bunny.net directory listing. *)
Record StorageEntry := { ObjectName : string; IsDirectory : bool }.

(** The object [config/bunnyConfig.js] exports, as the storage service
    reads it.  [storageAccessKey] is unset when the environment variable
    is. *)
Record BunnyConfig := {
  storageAccessKey : option string;
  storageZoneName : string;
  storageBaseUrl : string;
  cdnBaseUrl : string;
  defaultContentType : string;
}.

(** [sharp]'s [fit] option. *)
Inductive Fit := cover | inside.

(** The object handed to [sharp(...).resize]. *)
Record ResizeOptions := {
  width : Js.value;
  height : Js.value;
  fit : Fit;
  withoutEnlargement : bool;
}.

(** The [options] argument of the two processing functions. *)
Record ImageOptions := {
  opt_width : Js.value;
  opt_height : Js.value;
  opt_quality : Js.value;
}.

(** Everything the program asks the outside world.  An [option string] is
    the message of the error thrown, [None] when the call succeeds. *)
Record Env := {
  (** the [n]-th reading of [Date.now()] *)
  clock : nat → Z;
  (** the [n]-th reading of [Math.random()], as the numerator [k] of
      [k / 2^53] *)
  random : nat → Z;
  (** [sharp(file).resize(o).webp({quality}).toBuffer()] on a file content *)
  sharp : Buffer → ResizeOptions → Js.value → string + Buffer;
  (** [axios.put(url, buffer, ...)] *)
  axios_put : string → Buffer → option string;
  (** [axios.get(url, ...)]: the [data] of the response *)
  axios_get : string → string + list StorageEntry;
  (** [fs.mkdirSync(dir, {recursive: true})] *)
  mkdirSync : string → option string;
  (** [fs.writeFileSync(path, buffer)] *)
  writeFileSync : string → option string;
  (** [JSON.parse(s)]; [None] is a [SyntaxError] *)
  JSON_parse : string → option Js.value;
  (** the connection to MongoDB while the request is served: [Some e] when
      every query and every write is rejected with the error [e] *)
  db_down : option string;
  (** Mongoose validation at [save()] *)
  db_validates : gmap string Js.value → bool;
}.

(** [save()] goes through: the document is valid and the database is
    reached. *)
Definition db_accepts (E : Env) (doc : gmap string Js.value) : bool :=
  db_validates E doc && bool_decide (db_down E = None).

(** The error [save()] rejects with otherwise; validation comes first. *)
Definition db_refusal (E : Env) (doc : gmap string Js.value) : string :=
  if db_validates E doc then default "MongoNetworkError" (db_down E)
  else "Character validation failed".

(** Storage I/O in the order it is attempted. *)
Inductive IO :=
| SharpRead (file : string)
| HttpPut (url : string) (data : Buffer) (contentType : string)
| HttpGet (url : string)
| FsMkdir (dir : string)
| FsWrite (file : string) (data : Buffer)
| FsUnlink (file : string).

(** The mutable world: how often the clock and the random source were read,
    the local disk, the [characters] collection in insertion order, and the
    log of storage I/O (latest last). *)
Record World := {
  now_calls : nat;
  random_calls : nat;
  disk : gmap string Buffer;
  dirs : gset string;
  db : list (gmap string Js.value);
  trace : list IO;
}.

Definition set_disk (f : gmap string Buffer → gmap string Buffer) (w : World) : World :=
  {| now_calls := now_calls w; random_calls := random_calls w;
     disk := f (disk w); dirs := dirs w; db := db w; trace := trace w |}.

Definition set_dirs (f : gset string → gset string) (w : World) : World :=
  {| now_calls := now_calls w; random_calls := random_calls w;
     disk := disk w; dirs := f (dirs w); db := db w; trace := trace w |}.

Definition set_db (f : list (gmap string Js.value) → list (gmap string Js.value))
    (w : World) : World :=
  {| now_calls := now_calls w; random_calls := random_calls w;
     disk := disk w; dirs := dirs w; db := f (db w); trace := trace w |}.

(** One more reading of the clock, of the random source. *)
Definition tick (w : World) : World :=
  {| now_calls := S (now_calls w); random_calls := random_calls w;
     disk := disk w; dirs := dirs w; db := db w; trace := trace w |}.

Definition draw (w : World) : World :=
  {| now_calls := now_calls w; random_calls := S (random_calls w);
     disk := disk w; dirs := dirs w; db := db w; trace := trace w |}.

Definition log (e : IO) (w : World) : World :=
  {| now_calls := now_calls w; random_calls := random_calls w;
     disk := disk w; dirs := dirs w; db := db w; trace := trace w ++ [e] |}.

(** What [fs.existsSync(p)] answers in a world: [p] is a file or a
    directory. *)
Definition present (p : string) (w : World) : bool :=
  bool_decide (is_Some (disk w !! p)) || bool_decide (p ∈ dirs w).

(** ** The effect monad: state, exceptions, early return *)

Inductive Outcome (A : Type) :=
| Val (a : A)                (* the statement sequence goes on with [a] *)
| Ret (r : Response)         (* [return res.status(..).json(..)] *)
| Exc (message : string).    (* [throw new Error(message)] *)
Arguments Val {A} a.
Arguments Ret {A} r.
Arguments Exc {A} message.

Definition M (A : Type) : Type := World → Outcome A * World.

Definition ret {A} (a : A) : M A := λ w, (Val a, w).

Definition bind {A B} (m : M A) (k : A → M B) : M B :=
  λ w, match m w with
       | (Val a, w') => k a w'
       | (Ret r, w') => (Ret r, w')
       | (Exc e, w') => (Exc e, w')
       end.

Notation "'let*' x ':=' m 'in' k" := (bind m (λ x, k))
  (at level 10, x name, m at level 200, k at level 200, only parsing).
Notation "m1 ;; m2" := (bind m1 (λ _, m2))
  (at level 100, m2 at level 200, right associativity, only parsing).

Definition throw {A} (message : string) : M A := λ w, (Exc message, w).

(** [return res.status(s).json(j)], also used for a final [res...json]. *)
Definition respond {A} (s : Z) (j : Js.value) : M A :=
  λ w, (Ret {| status := s; json := j |}, w).

(** [try { m } catch (error) { h error.message }] *)
Definition try_catch {A} (m : M A) (h : string → M A) : M A :=
  λ w, match m w with
       | (Exc e, w') => h e w'
       | r => r
       end.

(** [try { m } finally { f }]: [f] runs on every way out of [m]; its own
    completion wins only when it is abrupt. *)
Definition try_finally {A} (m : M A) (f : M unit) : M A :=
  λ w, match m w with
       | (o, w') =>
           match f w' with
           | (Val _, w'') => (o, w'')
           | (Ret r, w'') => (Ret r, w'')
           | (Exc e, w'') => (Exc e, w'')
           end
       end.

Definition when (b : bool) (m : M unit) : M unit := if b then m else ret tt.

Definition message (m : string) : Js.value := Js.Obj [("message", Js.Str m)].

(** ** Primitive effects: clock, random source, disk, HTTP *)

Module Sys.
Section Sys.
Variable E : Env.

(** [Date.now()] *)
Definition Date_now : M Z :=
  λ w, (Val (clock E (now_calls w)), tick w).

(** [Math.random()], as the numerator over [2^53] *)
Definition Math_random : M Z :=
  λ w, (Val (random E (random_calls w)), draw w).

(** [fs.existsSync(p)] *)
Definition existsSync (p : string) : M bool :=
  λ w, (Val (present p w), w).

(** [fs.unlinkSync(p)].  The program calls it after [existsSync(p)], on
    the files multer staged and on the files [saveFile] wrote; on such a
    regular file it does not throw. *)
Definition unlinkSync (p : string) : M unit :=
  λ w, (Val tt, set_disk (delete p) (log (FsUnlink p) w)).

(** [fs.mkdirSync(dir, { recursive: true })]; the model records the leaf
    directory. *)
Definition mkdir (dir : string) : M unit :=
  λ w, match mkdirSync E dir with
       | Some e => (Exc e, log (FsMkdir dir) w)
       | None => (Val tt, set_dirs (union {[dir]}) (log (FsMkdir dir) w))
       end.

(** [fs.writeFileSync(p, data)] *)
Definition writeFile (p : string) (data : Buffer) : M unit :=
  λ w, match writeFileSync E p with
       | Some e => (Exc e, log (FsWrite p data) w)
       | None => (Val tt, set_disk (insert p data) (log (FsWrite p data) w))
       end.

(** [await sharp(file).resize(o).webp({ quality }).toBuffer()] *)
Definition sharp_toBuffer (file : string) (o : ResizeOptions) (quality : Js.value)
    : M Buffer :=
  λ w, match disk w !! file with
       | None => (Exc ("Input file is missing: " +:+ file), log (SharpRead file) w)
       | Some content =>
           match sharp E content o quality with
           | inl e => (Exc e, log (SharpRead file) w)
           | inr out => (Val out, log (SharpRead file) w)
           end
       end.

(** [await axios.put(url, data, { headers: { 'Content-Type': ct, .. } })] *)
Definition put (url : string) (data : Buffer) (ct : string) : M unit :=
  λ w, match axios_put E url data with
       | Some e => (Exc e, log (HttpPut url data ct) w)
       | None => (Val tt, log (HttpPut url data ct) w)
       end.

(** [(await axios.get(url, ..)).data] *)
Definition get (url : string) : M (list StorageEntry) :=
  λ w, match axios_get E url with
       | inl e => (Exc e, log (HttpGet url) w)
       | inr entries => (Val entries, log (HttpGet url) w)
       end.

End Sys.
End Sys.

(** What follows the first slash of [s], if it has one. *)
Fixpoint after_slash (s : string) : option string :=
  match s with
  | EmptyString => None
  | String c s' => if Ascii.eqb c "/"%char then Some s' else after_slash s'
  end.

(** ** [path] of Node.js, the POSIX flavour *)

Module Path.

(** [normalizeString]: the segments of a path without the empty ones and
    the [.], each [..] taking back the segment before it; above the start
    of a relative path the [..] stay.  [res] holds the result so far, last
    segment first. *)
Fixpoint normalize_go (allowAboveRoot : bool) (res segments : list string) : list string :=
  match segments with
  | [] => reverse res
  | segment :: segments =>
      if String.eqb segment "" || String.eqb segment "." then
        normalize_go allowAboveRoot res segments
      else if String.eqb segment ".." then
        match res with
        | last :: res' =>
            if String.eqb last ".." then
              normalize_go allowAboveRoot
                (if allowAboveRoot then ".." :: res else res) segments
            else normalize_go allowAboveRoot res' segments
        | [] =>
            normalize_go allowAboveRoot (if allowAboveRoot then [".."] else []) segments
        end
      else normalize_go allowAboveRoot (segment :: res) segments
  end.

Fixpoint join_segments (segments : list string) : string :=
  match segments with
  | [] => EmptyString
  | [segment] => segment
  | segment :: segments => segment +:+ "/" +:+ join_segments segments
  end.

(** [path.normalize(p)] *)
Definition normalize (p : string) : string :=
  if String.eqb p "" then "."
  else
    let isAbsolute := Js.startsWith p "/" in
    let trailingSeparator := Js.endsWith p "/" in
    let body := join_segments (normalize_go (negb isAbsolute) [] (Js.split "/" p)) in
    if String.eqb body "" then
      if isAbsolute then "/" else if trailingSeparator then "./" else "."
    else
      (if isAbsolute then "/" else "") +:+ body
        +:+ (if trailingSeparator then "/" else "").

(** [path.join(a, b)] *)
Definition join (a b : string) : string :=
  if String.eqb a "" then normalize b
  else if String.eqb b "" then normalize a
  else normalize (a +:+ "/" +:+ b).

(** The loop of [path.dirname] over the path read from its end, its first
    character left out: trailing slashes are passed over, then the last
    segment; what stands before the slash found is the answer. *)
Fixpoint dirname_go (matchedSlash : bool) (r : string) : option string :=
  match r with
  | EmptyString => None
  | String c r' =>
      match r' with
      | EmptyString => None
      | String _ _ =>
          if Ascii.eqb c "/"%char then
            if matchedSlash then dirname_go true r' else Some r'
          else dirname_go false r'
      end
  end.

(** [path.dirname(p)] *)
Definition dirname (p : string) : string :=
  if String.eqb p "" then "."
  else
    let hasRoot := Js.startsWith p "/" in
    match dirname_go true (String.rev p) with
    | None => if hasRoot then "/" else "."
    | Some r =>
        if hasRoot && (String.length r =? 1)%nat then "//" else String.rev r
    end.

End Path.

Definition dirname : string → string := Path.dirname.

(** The storage key both services build:
    [`characters/${characterId}/${imageType}-${Date.now()}.webp`]. *)
Definition imageType (isBackground : bool) : string :=
  if isBackground then "background" else "profile".

Definition filePath (characterId : string) (isBackground : bool) (now : Z) : string :=
  "characters/" +:+ characterId +:+ "/" +:+ imageType isBackground +:+ "-"
    +:+ Js.num_to_string now +:+ ".webp".

(** The [resize] argument both services build from [isBackground] and
    [options]. *)
Definition resizeOptions (isBackground : bool) (options : ImageOptions) : ResizeOptions :=
  if isBackground then
    {| width := Js.or (opt_width options) (Js.Num 1200);
       height := Js.or (opt_height options) (Js.Num 800);
       fit := inside;
       withoutEnlargement := true |}
  else
    {| width := Js.or (opt_width options) (Js.Num 400);
       height := Js.or (opt_height options) (Js.Num 400);
       fit := cover;
       withoutEnlargement := false |}.

(** [filePath.startsWith('/') ? filePath.substring(1) : filePath] *)
Definition normalizedPath (filePath : string) : string :=
  if Js.startsWith filePath "/" then Js.substring1 filePath else filePath.

(** ** [config/bunnyConfig.js] *)

Module Config.

(** [module.exports], with [process.env.BUNNY_API_KEY] as it is found. *)
Definition bunnyConfig (BUNNY_API_KEY : option string) : BunnyConfig :=
  {| storageAccessKey := BUNNY_API_KEY;
     storageZoneName := "leome";
     storageBaseUrl := "https://storage.bunnycdn.com";
     cdnBaseUrl := "https://leome.b-cdn.net";
     defaultContentType := "image/webp" |}.

End Config.

(** ** [sharp]'s resize geometry

    Modelled from the documentation of sharp 0.33 ([resize], options
    [fit] and [withoutEnlargement]); the library is not code of this
    repository.  With both sides given, [cover] crops to exactly the
    requested size; [inside] makes the image as large as possible with
    both sides within the requested ones, keeping the aspect ratio, and
    with [withoutEnlargement] an image that already fits is left as it
    is.  Sizes are whole pixels: the side that does not bind is the
    proportional size rounded to the nearest pixel, one pixel at
    least. *)

Module Sharp.



End Sharp.

(** ** [services/bunnyStorageService.js] *)

Module BunnyStorageService.
Section BunnyStorageService.
Variable E : Env.
Variable bunnyConfig : BunnyConfig.

Definition getStorageUrl (filePath : string) : string :=
  storageBaseUrl bunnyConfig +:+ "/" +:+ storageZoneName bunnyConfig +:+ "/"
    +:+ normalizedPath filePath.

Definition getCdnUrl (filePath : string) : string :=
  cdnBaseUrl bunnyConfig +:+ "/" +:+ normalizedPath filePath.

(** [uploadFile]: the body of the [try] reads
    [this.storageApiKey.substring(0, 5)] for a log line before the PUT,
    which throws when the key is unset. *)
Definition uploadFile (fileBuffer : Buffer) (filePath : string) (contentType : Js.value)
    : M string :=
  try_catch
    (let url := getStorageUrl filePath in
     let ct := match Js.or contentType (Js.Str (defaultContentType bunnyConfig)) with
               | Js.Str s => s
               | _ => EmptyString
               end in
     match storageAccessKey bunnyConfig with
     | None => throw "Cannot read properties of undefined (reading 'substring')"
     | Some _ =>
         Sys.put E url fileBuffer ct ;;
         ret (getCdnUrl filePath)
     end)
    (λ error, throw ("Failed to upload file to Bunny.net: " +:+ error)).

Definition processAndUploadCharacterImage (image : string) (characterId : string)
    (isBackground : bool) (options : ImageOptions) : M string :=
  try_catch
    (let* processedImageBuffer :=
       Sys.sharp_toBuffer E image (resizeOptions isBackground options)
         (Js.or (opt_quality options) (Js.Num 85)) in
     let* now := Sys.Date_now E in
     let filePath := filePath characterId isBackground now in
     uploadFile processedImageBuffer filePath (Js.Str "image/webp"))
    (λ error, throw ("Failed to process and upload image: " +:+ error)).

Definition listFiles (path : string) : M (list StorageEntry) :=
  try_catch
    (let url := storageBaseUrl bunnyConfig +:+ "/" +:+ storageZoneName bunnyConfig
                  +:+ "/" +:+ normalizedPath path in
     Sys.get E url)
    (λ error, throw ("Failed to list files from Bunny.net: " +:+ error)).

End BunnyStorageService.
End BunnyStorageService.

(** ** [services/localStorageService.js] *)

Module LocalStorageService.
Section LocalStorageService.
Variable E : Env.
(** [this.storageDir = path.join(__dirname, '../../public/images')] *)
Variable storageDir : string.

Definition storageUrlBase : string := "/images".

(** [path.join(this.storageDir, normalizedPath)] *)
Definition getLocalPath (filePath : string) : string :=
  Path.join storageDir (normalizedPath filePath).

Definition getPublicUrl (filePath : string) : string :=
  storageUrlBase +:+ "/" +:+ normalizedPath filePath.

Definition saveFile (fileBuffer : Buffer) (filePath : string) : M string :=
  try_catch
    (let localPath := getLocalPath filePath in
     let dir := dirname localPath in
     let* present := Sys.existsSync dir in
     when (negb present) (Sys.mkdir E dir) ;;
     Sys.writeFile E localPath fileBuffer ;;
     ret (getPublicUrl filePath))
    (λ error, throw ("Failed to save file locally: " +:+ error)).

Definition processAndSaveCharacterImage (image : string) (characterId : string)
    (isBackground : bool) (options : ImageOptions) : M string :=
  try_catch
    (let* processedImageBuffer :=
       Sys.sharp_toBuffer E image (resizeOptions isBackground options)
         (Js.or (opt_quality options) (Js.Num 85)) in
     let* now := Sys.Date_now E in
     let filePath := filePath characterId isBackground now in
     saveFile processedImageBuffer filePath)
    (λ error, throw ("Failed to process and save image: " +:+ error)).

Definition deleteFile (filePath : string) : M bool :=
  try_catch
    (let localPath := getLocalPath filePath in
     let* present := Sys.existsSync localPath in
     when present (Sys.unlinkSync localPath) ;;
     ret true)
    (λ error, throw ("Failed to delete file: " +:+ error)).

End LocalStorageService.
End LocalStorageService.

(** ** [models/Character.js] and the Mongoose calls made on it

    A document is the map of its fields.  The collection keeps documents
    in insertion order; a document found by a query remembers its position,
    which plays the role of [_id] when it is saved back.  Every query and
    every write is rejected while the database is not reached ([db_down]);
    a reached database refuses at [save()] what Mongoose validation
    refuses ([db_validates]) and what the unique index on [id] refuses. *)

Module Character.
Section Character.
Variable E : Env.

(** Does the [id] field hold the string [s]? *)
Definition has_id (s : string) (doc : gmap string Js.value) : bool :=
  match Js.get doc "id" with
  | Js.Str x => String.eqb x s
  | _ => false
  end.

(** The cast of a value set on a path of type [String]: numbers and
    booleans become their text, an object with a string [_id] that
    string.  What cannot be cast is kept here; the document is then
    invalid at [save()]. *)
Definition castString (v : Js.value) : Js.value :=
  match v with
  | Js.Num _ | Js.Bool _ => Js.Str (Js.to_string v)
  | Js.Obj l =>
      match Js.assoc "_id" l with
      | Js.Str _id => if Js.truthy (Js.Str _id) then Js.Str _id else v
      | _ => v
      end
  | _ => v
  end.

(** The cast on a path of type [[String]]: any other value than an array
    becomes the array of that value. *)
Definition castStrings (v : Js.value) : Js.value :=
  match v with
  | Js.Arr l => Js.Arr (castString <$> l)
  | Js.Undefined | Js.Null => v
  | _ => Js.Arr [castString v]
  end.

(** The paths of the schema by type; [isActive] and the two dates are set
    by this program with values of their type. *)
Definition stringPaths : list string :=
  ["id"; "name"; "description"; "personality"; "imageUrl"; "backgroundImageUrl";
   "accentColor"; "textColor"; "age"; "location"; "responseTime"].

Definition stringArrayPaths : list string := ["traits"; "interests"].

(** What the document holds after [character[k] = v]. *)
Definition cast (k : string) (v : Js.value) : Js.value :=
  if bool_decide (k ∈ stringPaths) then castString v
  else if bool_decide (k ∈ stringArrayPaths) then castStrings v
  else v.

(** [new Character(fields)]: the values are cast by the schema, and the
    schema defaults that the controller leaves unset are
    [isActive: true], [createdAt: Date.now] and [updatedAt: Date.now],
    evaluated in schema order. *)
Definition new (fields : list (string * Js.value)) : M (gmap string Js.value) :=
  let* createdAt := Sys.Date_now E in
  let* updatedAt := Sys.Date_now E in
  ret (list_to_map
         (((λ field, (field.1, cast field.1 field.2)) <$> fields)
            ++ [("isActive", Js.Bool true);
                ("createdAt", Js.Num createdAt);
                ("updatedAt", Js.Num updatedAt)])).

(** A query on the collection: it is answered from the documents, or
    rejected when the database is not reached. *)
Definition query {A} (answer : list (gmap string Js.value) → A) : M A :=
  λ w, match db_down E with
       | Some e => (Exc e, w)
       | None => (Val (answer (db w)), w)
       end.

(** [await Character.findOne({ id })] *)
Definition findOne (id : string) : M (option (nat * gmap string Js.value)) :=
  query (list_find (λ doc, Is_true (has_id id doc))).

(** [await character.save()] on a new document.  [id] carries a unique
    index. *)
Definition insert_new (doc : gmap string Js.value) : M unit :=
  λ w,
    if negb (db_accepts E doc) then (Exc (db_refusal E doc), w)
    else
      match Js.get doc "id" with
      | Js.Str s =>
          if existsb (has_id s) (db w)
          then (Exc "E11000 duplicate key error", w)
          else (Val tt, set_db (λ l, l ++ [doc]) w)
      | _ => (Exc "Character validation failed", w)
      end.

(** [await character.save()] on a document obtained from [findOne]. *)
Definition save (i : nat) (doc : gmap string Js.value) : M unit :=
  λ w,
    if db_accepts E doc then (Val tt, set_db (λ l, <[i := doc]> l) w)
    else (Exc (db_refusal E doc), w).

(** The query [{ isActive: true }]. *)
Definition is_active (doc : gmap string Js.value) : bool :=
  match Js.get doc "isActive" with
  | Js.Bool true => true
  | _ => false
  end.

(** The key of [.sort({ createdAt: -1 })]. *)
Definition createdAt (doc : gmap string Js.value) : option Z :=
  match Js.get doc "createdAt" with
  | Js.Num n => Some n
  | _ => None
  end.

(** [a] may stand before [b] in descending [createdAt] order; documents
    without a timestamp come last. *)
Definition newer_firstb (a b : gmap string Js.value) : bool :=
  match createdAt a, createdAt b with
  | _, None => true
  | None, Some _ => false
  | Some x, Some y => y <=? x
  end.

Definition newer_first (a b : gmap string Js.value) : Prop :=
  Is_true (newer_firstb a b).

Global Instance newer_first_dec : RelDecision newer_first :=
  λ a b, Is_true_dec (newer_firstb a b).

(** [await Character.find(filter).sort({ createdAt: -1 })].  MongoDB leaves
    the order of equal keys open; the model takes the one of a merge
    sort. *)
Definition find_sorted (filter : gmap string Js.value → bool)
    : M (list (gmap string Js.value)) :=
  query (λ documents, merge_sort newer_first (List.filter filter documents)).

(** [await Character.findOne({ id, isActive: true })] *)
Definition findOne_active (id : string) : M (option (nat * gmap string Js.value)) :=
  query (list_find (λ doc, Is_true (has_id id doc && is_active doc))).

(** [await Character.deleteOne({ id })]: the first match goes. *)
Definition deleteOne (id : string) : M unit :=
  λ w, match db_down E with
       | Some e => (Exc e, w)
       | None =>
           (Val tt,
            match list_find (λ doc, Is_true (has_id id doc)) (db w) with
            | Some (i, _) => set_db (delete i) w
            | None => w
            end)
       end.

End Character.
End Character.

(** ** The arithmetic of JavaScript numbers

    A number is an IEEE 754 double.  The values met here are not
    negative and far from the ends of the exponent range, so a double is
    an integer of at most 53 bits times a power of two. *)

Module Double.

(** The double nearest to [n] units, in the same units: [n] rounded to 53
    significant bits, a tie going to the even neighbour. *)
Definition round (n : Z) : Z :=
  let e := Z.log2 n - 52 in
  if e <=? 0 then n
  else
    let q := n / 2 ^ e in
    let r := n mod 2 ^ e in
    let half := 2 ^ (e - 1) in
    (if (half <? r) || ((r =? half) && Z.odd q) then q + 1 else q) * 2 ^ e.

End Double.

(** ** [controllers/characterController.js] *)

Module CharacterController.
Section CharacterController.
Variable E : Env.
Variable bunnyConfig : BunnyConfig.
Variable storageDir : string.

(** [Math.floor(100000 + Math.random() * 900000)] for the random reading
    [random / 2^53], in double arithmetic: the product and the sum are
    each rounded to a double, here as multiples of [2^-53]. *)
Definition randomNum (random : Z) : Z :=
  let product := Double.round (random * 900000) in
  let sum := Double.round (100000 * 2 ^ 53 + product) in
  sum / 2 ^ 53.

(** [generateShortId], on the two readings it takes:
    [Math.floor(100000 + Math.random() * 900000)] followed by
    [Date.now() % 10000]; [%] is the truncating remainder. *)
Definition shortId (random now : Z) : string :=
  let timestamp := Z.rem now 10000 in
  Js.num_to_string (randomNum random) +:+ Js.num_to_string timestamp.

Definition generateShortId : M string :=
  let* random := Sys.Math_random E in
  let* now := Sys.Date_now E in
  ret (shortId random now).

(** The parsing of [traits] and [interests]:
    [if (x && typeof x === 'string') { try { x = JSON.parse(x) }
       catch { x = x.split(',').map(t => t.trim()) } }]. *)
Definition parseList (x : Js.value) : Js.value :=
  match x with
  | Js.Str s =>
      if Js.truthy x then
        match JSON_parse E s with
        | Some parsed => parsed
        | None => Js.Arr (Js.Str <$> (Js.trim <$> Js.split "," s))
        end
      else x
  | _ => x
  end.

(** [req.files && req.files[k]] *)
Definition field (req : Request) (k : string) : option (list UploadedFile) :=
  files req ≫= (λ fs, fs !! k).

(** [file.path], a [TypeError] when [file] is [undefined]. *)
Definition path_of (file : option UploadedFile) : M string :=
  match file with
  | Some f => ret (path f)
  | None => throw "Cannot read properties of undefined (reading 'path')"
  end.

(** [`${req.protocol}://${req.get('host')}`] *)
Definition baseUrl (req : Request) : string := protocol req +:+ "://" +:+ host req.

Definition profileOptions : ImageOptions :=
  {| opt_width := Js.Num 400; opt_height := Js.Num 400; opt_quality := Js.Undefined |}.

Definition backgroundOptions : ImageOptions :=
  {| opt_width := Js.Num 1200; opt_height := Js.Num 800; opt_quality := Js.Undefined |}.

(** The object sent back for one character. *)
Definition transformedCharacter (character : gmap string Js.value) : Js.value :=
  Js.Obj [("id", Js.get character "id");
          ("name", Js.get character "name");
          ("description", Js.get character "description");
          ("personality", Js.get character "personality");
          ("image", Js.Obj [("uri", Js.get character "imageUrl")]);
          ("backgroundImage", Js.Obj [("uri", Js.get character "backgroundImageUrl")]);
          ("accentColor", Js.get character "accentColor");
          ("textColor", Js.get character "textColor");
          ("age", Js.get character "age");
          ("location", Js.get character "location");
          ("responseTime", Js.get character "responseTime");
          ("traits", Js.get character "traits");
          ("interests", Js.get character "interests")].

(** [if (fs.existsSync(p)) { fs.unlinkSync(p); }] *)
Definition unlinkIfExists (p : string) : M unit :=
  let* present := Sys.existsSync p in
  when present (Sys.unlinkSync p).

(** The body of the outer [try] of [createCharacter]. *)
Definition createCharacter_try (req : Request) : M unit :=
  let name := Js.get (body req) "name" in
  let description := Js.get (body req) "description" in
  let personality := Js.get (body req) "personality" in
  let accentColor := Js.get (body req) "accentColor" in
  let textColor := Js.get (body req) "textColor" in
  let age := Js.get (body req) "age" in
  let location := Js.get (body req) "location" in
  let responseTime := Js.get (body req) "responseTime" in
  let traits := parseList (Js.get (body req) "traits") in
  let interests := parseList (Js.get (body req) "interests") in
  if negb (Js.truthy name) || negb (Js.truthy description)
     || negb (Js.truthy personality)
  then respond 400 (message "Please provide name, description, and personality")
  else
    match field req "image" with
    | None => respond 400 (message "Character image is required")
    | Some images =>
        let image := head images in
        let* characterId := generateShortId in
        let baseUrl := baseUrl req in
        let* imageUrl :=
          try_catch
            (let* p := path_of image in
             BunnyStorageService.processAndUploadCharacterImage E bunnyConfig
               p characterId false profileOptions)
            (λ err,
               try_catch
                 (let* p := path_of image in
                  let* imageUrl :=
                    LocalStorageService.processAndSaveCharacterImage E storageDir
                      p characterId false profileOptions in
                  ret (baseUrl +:+ imageUrl))
                 (λ localErr, respond 500 (message "Failed to upload image"))) in
        let backgroundImage := field req "backgroundImage" ≫= head in
        let* backgroundImageUrl :=
          match backgroundImage with
          | None => ret Js.Null
          | Some bg =>
              try_catch
                (let* url :=
                   BunnyStorageService.processAndUploadCharacterImage E bunnyConfig
                     (path bg) characterId true backgroundOptions in
                 ret (Js.Str url))
                (λ err,
                   try_catch
                     (let* url :=
                        LocalStorageService.processAndSaveCharacterImage E storageDir
                          (path bg) characterId true backgroundOptions in
                      ret (Js.Str (baseUrl +:+ url)))
                     (λ localErr, ret Js.Null))
          end in
        (let* p := path_of image in unlinkIfExists p) ;;
        match backgroundImage with
        | None => ret tt
        | Some bg => unlinkIfExists (path bg)
        end ;;
        let* character :=
          Character.new E
            [("id", Js.Str characterId);
             ("name", name);
             ("description", description);
             ("personality", personality);
             ("imageUrl", Js.Str imageUrl);
             ("backgroundImageUrl", backgroundImageUrl);
             ("accentColor", Js.or accentColor (Js.Str "#ec4899"));
             ("textColor", Js.or textColor (Js.Str "#ffffff"));
             ("age", age);
             ("location", location);
             ("responseTime", Js.or responseTime (Js.Str "< 1 min"));
             ("traits", Js.or traits (Js.Arr []));
             ("interests", Js.or interests (Js.Arr []))] in
        Character.insert_new E character ;;
        respond 201 (transformedCharacter character)
    end.

Definition createCharacter (req : Request) : M unit :=
  try_catch (createCharacter_try req)
    (λ error, respond 500 (message "Server error")).

(** [if (v) { character[k] = v; }] *)
Definition assign_if (k : string) (v : Js.value) (character : gmap string Js.value)
    : gmap string Js.value :=
  if Js.truthy v then <[k := Character.cast k v]> character else character.

(** The body of the outer [try] of [updateCharacter]. *)
Definition updateCharacter_try (req : Request) : M unit :=
  let characterId := params_id req in
  let name := Js.get (body req) "name" in
  let description := Js.get (body req) "description" in
  let personality := Js.get (body req) "personality" in
  let accentColor := Js.get (body req) "accentColor" in
  let textColor := Js.get (body req) "textColor" in
  let age := Js.get (body req) "age" in
  let location := Js.get (body req) "location" in
  let responseTime := Js.get (body req) "responseTime" in
  let traits := parseList (Js.get (body req) "traits") in
  let interests := parseList (Js.get (body req) "interests") in
  let* found := Character.findOne E characterId in
  match found with
  | None => respond 404 (message "Character not found")
  | Some (i, character) =>
      let character := assign_if "name" name character in
      let character := assign_if "description" description character in
      let character := assign_if "personality" personality character in
      let character := assign_if "accentColor" accentColor character in
      let character := assign_if "textColor" textColor character in
      let character := assign_if "age" age character in
      let character := assign_if "location" location character in
      let character := assign_if "responseTime" responseTime character in
      let character := assign_if "traits" traits character in
      let character := assign_if "interests" interests character in
      let baseUrl := baseUrl req in
      let* character :=
        match field req "image" ≫= head with
        | None => ret character
        | Some image =>
            try_finally
              (try_catch
                 (let* newImageUrl :=
                    BunnyStorageService.processAndUploadCharacterImage E bunnyConfig
                      (path image) characterId false profileOptions in
                  ret (<["imageUrl" := Js.Str newImageUrl]> character))
                 (λ err,
                    try_catch
                      (let* localImageUrl :=
                         LocalStorageService.processAndSaveCharacterImage E storageDir
                           (path image) characterId false profileOptions in
                       ret (<["imageUrl" := Js.Str (baseUrl +:+ localImageUrl)]> character))
                      (λ localErr,
                         respond 500 (message "Failed to upload updated image"))))
              (unlinkIfExists (path image))
        end in
      let* character :=
        match field req "backgroundImage" ≫= head with
        | None => ret character
        | Some bg =>
            try_finally
              (try_catch
                 (let* newBgImageUrl :=
                    BunnyStorageService.processAndUploadCharacterImage E bunnyConfig
                      (path bg) characterId true backgroundOptions in
                  ret (<["backgroundImageUrl" := Js.Str newBgImageUrl]> character))
                 (λ err,
                    try_catch
                      (let* localBgImageUrl :=
                         LocalStorageService.processAndSaveCharacterImage E storageDir
                           (path bg) characterId true backgroundOptions in
                       ret (<["backgroundImageUrl" := Js.Str (baseUrl +:+ localBgImageUrl)]>
                              character))
                      (λ localErr, ret character)))
              (unlinkIfExists (path bg))
        end in
      let* now := Sys.Date_now E in
      let character := <["updatedAt" := Js.Num now]> character in
      Character.save E i character ;;
      respond 200 (transformedCharacter character)
  end.

Definition updateCharacter (req : Request) : M unit :=
  try_catch (updateCharacter_try req)
    (λ error, respond 500 (message "Server error")).

(** Soft delete. *)
Definition deleteCharacter (req : Request) : M unit :=
  try_catch
    (let* found := Character.findOne E (params_id req) in
     match found with
     | None => respond 404 (message "Character not found")
     | Some (i, character) =>
         let character := <["isActive" := Js.Bool false]> character in
         let* now := Sys.Date_now E in
         let character := <["updatedAt" := Js.Num now]> character in
         Character.save E i character ;;
         respond 200 (message "Character deleted successfully")
     end)
    (λ error, respond 500 (message "Server error")).

(** The object [getAllCharacters] sends for one character. *)
Definition listedCharacter (char : gmap string Js.value) : Js.value :=
  Js.Obj [("id", Js.get char "id");
          ("name", Js.get char "name");
          ("description", Js.get char "description");
          ("personality", Js.get char "personality");
          ("image", Js.Obj [("uri", Js.get char "imageUrl")]);
          ("backgroundImage", Js.Obj [("uri", Js.get char "backgroundImageUrl")]);
          ("accentColor", Js.get char "accentColor");
          ("textColor", Js.get char "textColor");
          ("age", Js.get char "age");
          ("location", Js.get char "location");
          ("responseTime", Js.get char "responseTime");
          ("traits", Js.get char "traits");
          ("interests", Js.get char "interests");
          ("isPremium", Js.get char "isPremium");
          ("style", Js.get char "style")].

Definition getAllCharacters (req : Request) : M unit :=
  try_catch
    (let* characters := Character.find_sorted E Character.is_active in
     respond 200 (Js.Arr (listedCharacter <$> characters)))
    (λ error, respond 500 (message "Server error")).

Definition getCharacterById (req : Request) : M unit :=
  try_catch
    (let* character := Character.findOne_active E (params_id req) in
     match character with
     | None => respond 404 (message "Character not found")
     | Some (_, character) => respond 200 (transformedCharacter character)
     end)
    (λ error, respond 500 (message "Server error")).

Definition permanentDeleteCharacter (req : Request) : M unit :=
  try_catch
    (let* character := Character.findOne E (params_id req) in
     match character with
     | None => respond 404 (message "Character not found")
     | Some _ =>
         Character.deleteOne E (params_id req) ;;
         respond 200 (message "Character permanently deleted")
     end)
    (λ error, respond 500 (message "Server error")).

End CharacterController.
End CharacterController.

(** ** [controllers/adminController.js] *)

Module AdminController.
Section AdminController.
Variable E : Env.
Variable bunnyConfig : BunnyConfig.
Variable storageDir : string.

(** [require('./characterController').createCharacter(req, res)] *)
Definition createCharacter : Request → M unit :=
  CharacterController.createCharacter E bunnyConfig storageDir.

(** [require('./characterController').updateCharacter(req, res)] *)
Definition updateCharacter : Request → M unit :=
  CharacterController.updateCharacter E bunnyConfig storageDir.

(** Soft delete from the admin dashboard. *)
Definition deleteCharacter (req : Request) : M unit :=
  try_catch
    (let* found := Character.findOne E (params_id req) in
     match found with
     | None => respond 404 (message "Character not found")
     | Some (i, character) =>
         let character := <["isActive" := Js.Bool false]> character in
         Character.save E i character ;;
         respond 200 (message "Character deleted successfully")
     end)
    (λ error, respond 500 (message "Server error")).

(** [process.env.ADMIN_USERNAME], [ADMIN_PASSWORD], [ADMIN_API_KEY] *)
Variable ADMIN_USERNAME ADMIN_PASSWORD ADMIN_API_KEY : option string.

(** [process.env.X || fallback] *)
Definition env_or (x : option string) (fallback : string) : string :=
  match x with
  | Some s => if String.eqb s "" then fallback else s
  | None => fallback
  end.

Definition login (req : Request) : M unit :=
  let username := Js.get (body req) "username" in
  let password := Js.get (body req) "password" in
  let validUsername := env_or ADMIN_USERNAME "admin" in
  let validPassword := env_or ADMIN_PASSWORD "admin123" in
  if Js.is_string username validUsername && Js.is_string password validPassword
  then
    let apiKey := env_or ADMIN_API_KEY "leome-admin-key" in
    respond 200 (Js.Obj [("apiKey", Js.Str apiKey)])
  else respond 401 (message "Invalid credentials").

(** The body of the [map] callback of [getAllCharacters], also the
    preparation of the answer of [getCharacterById]: [char.toObject()]
    without the binary fields and with both image URLs set. *)
Definition plainCharacter (baseUrl : string) (char : gmap string Js.value)
    : gmap string Js.value :=
  let plainChar := delete "backgroundImageData" (delete "imageData" char) in
  let plainChar :=
    if negb (Js.truthy (Js.get plainChar "imageUrl"))
    then <["imageUrl" := Js.Str (baseUrl +:+ "/api/characters/"
                                   +:+ Js.to_string (Js.get char "id") +:+ "/image")]>
           plainChar
    else plainChar in
  if negb (Js.truthy (Js.get plainChar "backgroundImageUrl"))
  then <["backgroundImageUrl" := Js.Str (baseUrl +:+ "/api/characters/"
                                           +:+ Js.to_string (Js.get char "id")
                                           +:+ "/background")]>
         plainChar
  else plainChar.

(** [res.json] of a plain object. *)
Definition json_of (o : gmap string Js.value) : Js.value := Js.Obj (map_to_list o).

Definition getAllCharacters (req : Request) : M unit :=
  try_catch
    (let* characters := Character.find_sorted E (λ _, true) in
     let baseUrl := CharacterController.baseUrl req in
     respond 200 (Js.Arr (json_of <$> (plainCharacter baseUrl <$> characters))))
    (λ error, respond 500 (message "Server error")).

Definition getCharacterById (req : Request) : M unit :=
  try_catch
    (let* character := Character.findOne E (params_id req) in
     match character with
     | None => respond 404 (message "Character not found")
     | Some (_, character) =>
         let baseUrl := CharacterController.baseUrl req in
         respond 200 (json_of (plainCharacter baseUrl character))
     end)
    (λ error, respond 500 (message "Server error")).

End AdminController.
End AdminController.

(** ** [controllers/carasoulController.js] and [controllers/mediaController.js] *)

Module CarasoulController.
Section CarasoulController.
Variable E : Env.
Variable bunnyConfig : BunnyConfig.

Definition imagePath : string := "carasouls/".
Definition imageExtensions : list string := [".jpg"; ".jpeg"; ".png"; ".gif"].

(** The [filter(...).map(...)] chain of [listImages]. *)
Definition imageUrls (files : list StorageEntry) : list string :=
  (λ file, BunnyStorageService.getCdnUrl bunnyConfig (imagePath +:+ ObjectName file))
    <$> List.filter
          (λ file, negb (IsDirectory file)
                   && existsb (λ ext, Js.endsWith (Js.toLowerCase (ObjectName file)) ext)
                        imageExtensions)
          files.

Definition listImages : M unit :=
  try_catch
    (let* files := BunnyStorageService.listFiles E bunnyConfig imagePath in
     respond 200 (Js.Arr (Js.Str <$> imageUrls files)))
    (λ error,
       respond 500 (Js.Obj [("message", Js.Str "Failed to list carousel images");
                            ("error", Js.Str error)])).

End CarasoulController.
End CarasoulController.

Module MediaController.
Section MediaController.
Variable E : Env.
Variable bunnyConfig : BunnyConfig.

Definition videoPath : string := "videos/".

(** The [filter(...).map(...)] chain of [listVideos]. *)
Definition videoUrls (files : list StorageEntry) : list string :=
  (λ file, BunnyStorageService.getCdnUrl bunnyConfig (videoPath +:+ ObjectName file))
    <$> List.filter
          (λ file, negb (IsDirectory file) && Js.endsWith (ObjectName file) ".mp4")
          files.

Definition listVideos : M unit :=
  try_catch
    (let* files := BunnyStorageService.listFiles E bunnyConfig videoPath in
     respond 200 (Js.Arr (Js.Str <$> videoUrls files)))
    (λ error,
       respond 500 (Js.Obj [("message", Js.Str "Failed to list videos");
                            ("error", Js.Str error)])).

End MediaController.
End MediaController.

(** ** [middleware/auth.js] and [middleware/authMiddleware.js]

    A middleware either answers or calls [next()], which is [ret tt]
    here.  Of the request it reads [req.query.apiKey],
    [req.headers['x-api-key']] and [req.cookies?.apiKey]. *)

Module Auth.

Definition adminAuth (ADMIN_API_KEY : option string)
    (query_apiKey header_x_api_key cookies_apiKey : Js.value) : M unit :=
  let apiKey := Js.or (Js.or query_apiKey header_x_api_key) cookies_apiKey in
  let validApiKey := AdminController.env_or ADMIN_API_KEY "leome-admin-key" in
  if negb (Js.truthy apiKey) || negb (Js.is_string apiKey validApiKey)
  then respond 401 (message "Unauthorized. Please provide a valid API key.")
  else ret tt.

End Auth.

Module AuthMiddleware.

(** [validateAdmin]; on success it stores [req.adminUser], which is the
    value returned here. *)
Definition validateAdmin (E : Env) (ADMIN_API_KEY : option string)
    (query_apiKey header_x_api_key : Js.value) : M Js.value :=
  try_catch
    (match ADMIN_API_KEY with
     | None =>
         respond 500 (Js.Obj [("status", Js.Str "error");
                              ("message", Js.Str "Server configuration error")])
     | Some validApiKey =>
         if String.eqb validApiKey ""
         then respond 500 (Js.Obj [("status", Js.Str "error");
                                   ("message", Js.Str "Server configuration error")])
         else
           let providedApiKey := Js.or header_x_api_key query_apiKey in
           if negb (Js.is_string providedApiKey validApiKey)
           then respond 401 (Js.Obj [("status", Js.Str "error");
                                     ("message", Js.Str "Unauthorized - invalid API key")])
           else
             let* now := Sys.Date_now E in
             ret (Js.Obj [("username", Js.Str "admin");
                          ("role", Js.Str "admin");
                          ("timestamp", Js.Num now)])
     end)
    (λ error,
       respond 500 (Js.Obj [("status", Js.Str "error");
                            ("message",
                             Js.Str "Internal server error during authentication")])).

End AuthMiddleware.

(** ** [controllers/aiController.js]: the conversation formatter *)

Module AiController.

(** The callback of [conversation.map]; [None] is the [TypeError] of
    reading a property of [null] or [undefined]. *)
Definition formatMessage (msg : Js.value) : option Js.value :=
  role ← Js.prop msg "role";
  if Js.truthy role then Some msg
  else
    isUser ← Js.prop msg "isUser";
    text ← Js.prop msg "text";
    content ← Js.prop msg "content";
    Some (Js.Obj [("role", Js.Str (if Js.truthy isUser then "user" else "assistant"));
                  ("content", Js.or text content)]).

Definition formatConversationMessages (conversation : list Js.value)
    : option (list Js.value) :=
  mapM formatMessage conversation.

End AiController.

(** ** The fallback chain

    [createCharacter] and [updateCharacter] write the same chain out four
    times: [try { url = await bunnyStorage.process..(..) }
            catch (err) { url = baseUrl + await localStorage.process..(..) }].
    [uploadWithFallback] is that chain on its own; [try_catch_nest] below
    relates it to the nested [try] blocks of the controllers. *)

Definition uploadWithFallback (E : Env) (bunnyConfig : BunnyConfig) (storageDir : string)
    (baseUrl image characterId : string) (isBackground : bool) (options : ImageOptions)
    : M string :=
  try_catch
    (BunnyStorageService.processAndUploadCharacterImage E bunnyConfig
       image characterId isBackground options)
    (λ err,
       let* url :=
         LocalStorageService.processAndSaveCharacterImage E storageDir
           image characterId isBackground options in
       ret (baseUrl +:+ url)).

(** The storage I/O a computation adds to the log. *)
Definition io_of {A} (m : M A) (w : World) : list IO :=
  drop (length (trace w)) (trace (snd (m w))).

(** "On remote failure the local backend is given the same key and the same
    buffer": whenever the chain logs both a PUT and a disk write, one key
    names both and the bytes agree. *)
Definition fallback_reuses_key (E : Env) (bunnyConfig : BunnyConfig) (storageDir : string)
    (baseUrl image characterId : string) (isBackground : bool) (options : ImageOptions)
    (w : World) : Prop :=
  ∀ url data ct file data',
    HttpPut url data ct ∈ io_of (uploadWithFallback E bunnyConfig storageDir baseUrl
                                   image characterId isBackground options) w →
    FsWrite file data' ∈ io_of (uploadWithFallback E bunnyConfig storageDir baseUrl
                                  image characterId isBackground options) w →
    ∃ key, url = BunnyStorageService.getStorageUrl bunnyConfig key
           ∧ file = LocalStorageService.getLocalPath storageDir key
           ∧ data' = data.

(** ** The listing adapter as the specification words it

    Keep the entries that are not directories and whose file extension,
    compared case-insensitively, is in the caller's set; map each one, in
    listing order, to CDN base URL + [/] + prefix + object name. *)

Module ListingAdapter.

(** The text of [s] before its first dot, when it has one. *)
Fixpoint before_dot (s : string) : option string :=
  match s with
  | EmptyString => None
  | String c s' =>
      if Ascii.eqb c "."%char then Some EmptyString
      else String c <$> before_dot s'
  end.

(** The extension of a name: its last dot and what follows. *)
Definition extension (name : string) : string :=
  match before_dot (String.rev name) with
  | None => EmptyString
  | Some r => String "."%char (String.rev r)
  end.

Definition accepts (extensions : list string) (name : string) : bool :=
  bool_decide (Js.toLowerCase (extension name) ∈ extensions).

Definition list (bunnyConfig : BunnyConfig) (prefix : string) (extensions : list string)
    (entries : list StorageEntry) : list string :=
  (λ entry, cdnBaseUrl bunnyConfig +:+ "/" +:+ prefix +:+ ObjectName entry)
    <$> List.filter (λ entry, negb (IsDirectory entry)
                              && accepts extensions (ObjectName entry))
          entries.

End ListingAdapter.

(** ** Concrete environments and requests used in the examples *)

Module Scenario.

Definition bunnyConfig : BunnyConfig :=
  {| storageAccessKey := Some "secret";
     storageZoneName := "zone";
     storageBaseUrl := "https://storage.bunnycdn.com";
     cdnBaseUrl := "https://cdn.example";
     defaultContentType := "application/octet-stream" |}.

Definition storageDir : string := "/app/public/images".

(** What the storage zone lists under [videos/] and [carasouls/]. *)
Definition videoListing : list StorageEntry :=
  [{| ObjectName := "intro.mp4"; IsDirectory := false |};
   {| ObjectName := "CLIP.MP4"; IsDirectory := false |};
   {| ObjectName := "archive.mp4"; IsDirectory := true |};
   {| ObjectName := "notes.txt"; IsDirectory := false |}].

Definition imageListing : list StorageEntry :=
  [{| ObjectName := "beach.jpg"; IsDirectory := false |};
   {| ObjectName := "old.gif"; IsDirectory := true |};
   {| ObjectName := "Sunset.PNG"; IsDirectory := false |};
   {| ObjectName := "readme.md"; IsDirectory := false |};
   {| ObjectName := "photo.v2.JPeG"; IsDirectory := false |};
   {| ObjectName := "jpg"; IsDirectory := false |}].

(** The clock advances by one millisecond per reading; [sharp] decodes
    every non-empty file; network, disk and database work.  Of the texts
    the examples send as [traits] or [interests], [[]] is JSON (the empty
    array) and the others are not. *)
Definition healthy : Env :=
  {| clock := λ n, 1700000000000 + Z.of_nat n;
     random := λ _, 2 ^ 52;
     sharp := λ content _ _,
       match content with
       | [] => inl "Input buffer is empty"
       | _ => inr content
       end;
     axios_put := λ _ _, None;
     axios_get := λ url,
       if String.eqb url "https://storage.bunnycdn.com/zone/videos/"
       then inr videoListing
       else if String.eqb url "https://storage.bunnycdn.com/zone/carasouls/"
       then inr imageListing
       else inl "Request failed with status code 404";
     mkdirSync := λ _, None;
     writeFileSync := λ _, None;
     JSON_parse := λ text,
       if String.eqb text "[]" then Some (Js.Arr []) else None;
     db_down := None;
     db_validates := λ _, true |}.

(** The storage zone refuses every PUT. *)
Definition remote_down : Env :=
  {| clock := clock healthy; random := random healthy; sharp := sharp healthy;
     axios_put := λ _ _, Some "connect ECONNREFUSED";
     axios_get := λ _, inl "connect ECONNREFUSED";
     mkdirSync := mkdirSync healthy; writeFileSync := writeFileSync healthy;
     JSON_parse := JSON_parse healthy;
     db_down := db_down healthy; db_validates := db_validates healthy |}.

(** The storage zone refuses every PUT and the local disk is full. *)
Definition both_down : Env :=
  {| clock := clock healthy; random := random healthy; sharp := sharp healthy;
     axios_put := λ _ _, Some "connect ECONNREFUSED";
     axios_get := λ _, inl "connect ECONNREFUSED";
     mkdirSync := mkdirSync healthy;
     writeFileSync := λ _, Some "ENOSPC: no space left on device";
     JSON_parse := JSON_parse healthy;
     db_down := db_down healthy; db_validates := db_validates healthy |}.



(** The clock advances by 2.5 seconds per reading. *)
Definition slow_clock : Env :=
  {| clock := λ n, 1700000000000 + 2500 * Z.of_nat n;
     random := random healthy; sharp := sharp healthy;
     axios_put := axios_put healthy; axios_get := axios_get healthy;
     mkdirSync := mkdirSync healthy; writeFileSync := writeFileSync healthy;
     JSON_parse := JSON_parse healthy;
     db_down := db_down healthy; db_validates := db_validates healthy |}.

Definition profileFile : UploadedFile :=
  {| path := "uploads/temp/1700000000000-face.png";
     originalname := "face.png"; mimetype := "image/png" |}.

Definition backgroundFile : UploadedFile :=
  {| path := "uploads/temp/1700000000000-room.png";
     originalname := "room.png"; mimetype := "image/png" |}.

Definition secondFile : UploadedFile :=
  {| path := "uploads/temp/1700000010000-face2.png";
     originalname := "face2.png"; mimetype := "image/png" |}.

Definition textFields : gmap string Js.value :=
  list_to_map [("name", Js.Str "Test"); ("description", Js.Str "d");
               ("personality", Js.Str "p")].

(** [POST /api/characters] with a profile image and no background. *)
Definition createRequest : Request :=
  {| body := textFields;
     files := Some (list_to_map [("image", [profileFile])]);
     params_id := ""; protocol := "http"; host := "localhost:3000" |}.

(** The same with a background image. *)
Definition createRequestWithBackground : Request :=
  {| body := textFields;
     files := Some (list_to_map [("image", [profileFile]);
                                 ("backgroundImage", [backgroundFile])]);
     params_id := ""; protocol := "http"; host := "localhost:3000" |}.

(** [POST /api/characters] with a staged profile image but no
    [personality]. *)
Definition incompleteRequest : Request :=
  {| body := list_to_map [("name", Js.Str "Test"); ("description", Js.Str "d")];
     files := Some (list_to_map [("image", [profileFile])]);
     params_id := ""; protocol := "http"; host := "localhost:3000" |}.

(** A second [POST /api/characters], with its own staged file. *)
Definition secondRequest : Request :=
  {| body := list_to_map [("name", Js.Str "Other"); ("description", Js.Str "d2");
                          ("personality", Js.Str "p2")];
     files := Some (list_to_map [("image", [secondFile])]);
     params_id := ""; protocol := "http"; host := "localhost:3000" |}.

(** The staged files are on disk, the collection is empty. *)
Definition staged : World :=
  {| now_calls := 0; random_calls := 0;
     disk := list_to_map [(path profileFile, [Byte.x89; Byte.x50]);
                          (path backgroundFile, [Byte.x89; Byte.x4e]);
                          (path secondFile, [Byte.x89; Byte.x47])];
     dirs := ∅; db := []; trace := [] |}.

(** The character that [createRequest] creates when everything works. *)
Definition storedCharacter : gmap string Js.value :=
  list_to_map
    [("id", Js.Str "5500000");
     ("name", Js.Str "Test");
     ("description", Js.Str "d");
     ("personality", Js.Str "p");
     ("imageUrl",
      Js.Str "https://cdn.example/characters/5500000/profile-1700000000001.webp");
     ("backgroundImageUrl", Js.Null);
     ("accentColor", Js.Str "#ec4899");
     ("textColor", Js.Str "#ffffff");
     ("age", Js.Undefined);
     ("location", Js.Undefined);
     ("responseTime", Js.Str "< 1 min");
     ("traits", Js.Arr []);
     ("interests", Js.Arr []);
     ("isActive", Js.Bool true);
     ("createdAt", Js.Num 1700000000002);
     ("updatedAt", Js.Num 1700000000003)].

(** The world after that request (see [createCharacter_stored]). *)
Definition stored : World :=
  {| now_calls := 4; random_calls := 1;
     disk := list_to_map [(path backgroundFile, [Byte.x89; Byte.x4e]);
                          (path secondFile, [Byte.x89; Byte.x47])];
     dirs := ∅;
     db := [storedCharacter];
     trace :=
       [SharpRead "uploads/temp/1700000000000-face.png";
        HttpPut
          "https://storage.bunnycdn.com/zone/characters/5500000/profile-1700000000001.webp"
          [Byte.x89; Byte.x50] "image/webp";
        FsUnlink "uploads/temp/1700000000000-face.png"] |}.

(** [PUT /api/characters/5500000] without files: a new name, an empty
    description. *)
Definition renameRequest : Request :=
  {| body := list_to_map [("name", Js.Str "Renamed"); ("description", Js.Str "")];
     files := None;
     params_id := "5500000"; protocol := "http"; host := "localhost:3000" |}.

(** [PUT /api/characters/5500000] with a new profile image and a new
    background image. *)
Definition reuploadRequest : Request :=
  {| body := ∅;
     files := Some (list_to_map [("image", [secondFile]);
                                 ("backgroundImage", [backgroundFile])]);
     params_id := "5500000"; protocol := "http"; host := "localhost:3000" |}.

(** [DELETE /api/characters/5500000], [DELETE /api/admin/characters/5500000] *)
Definition deleteRequest : Request :=
  {| body := ∅; files := None;
     params_id := "5500000"; protocol := "http"; host := "localhost:3000" |}.

(** [PUT /api/characters/5500000] with a new profile image only. *)
Definition newFaceRequest : Request :=
  {| body := ∅;
     files := Some (list_to_map [("image", [secondFile])]);
     params_id := "5500000"; protocol := "http"; host := "localhost:3000" |}.

(** MongoDB is not reached. *)
Definition db_unreachable : Env :=
  {| clock := clock healthy; random := random healthy; sharp := sharp healthy;
     axios_put := axios_put healthy; axios_get := axios_get healthy;
     mkdirSync := mkdirSync healthy; writeFileSync := writeFileSync healthy;
     JSON_parse := JSON_parse healthy;
     db_down := Some "connect ECONNREFUSED 127.0.0.1:27017";
     db_validates := db_validates healthy |}.

(** [stored] with two traits on the character, and
    [PUT /api/characters/5500000] with the body [{ traits: '[]' }]. *)
Definition traitedCharacter : gmap string Js.value :=
  <["traits" := Js.Arr [Js.Str "kind"; Js.Str "funny"]]> storedCharacter.

Definition traited : World :=
  {| now_calls := 4; random_calls := 1;
     disk := disk stored; dirs := ∅;
     db := [traitedCharacter];
     trace := trace stored |}.

Definition clearTraitsRequest : Request :=
  {| body := list_to_map [("traits", Js.Str "[]")];
     files := None;
     params_id := "5500000"; protocol := "http"; host := "localhost:3000" |}.

(** A collection of two characters, and
    [PUT /api/characters/5500000] with new texts and a new profile
    image. *)
Definition otherCharacter : gmap string Js.value :=
  <["createdAt" := Js.Num 1700000000006]>
    (<["name" := Js.Str "Other"]> (<["id" := Js.Str "1234567"]> storedCharacter)).

Definition crowded : World :=
  {| now_calls := 8; random_calls := 2;
     disk := disk stored; dirs := ∅;
     db := [storedCharacter; otherCharacter];
     trace := trace stored |}.

Definition busyRequest : Request :=
  {| body := textFields;
     files := Some (list_to_map [("image", [secondFile])]);
     params_id := "5500000"; protocol := "http"; host := "localhost:3000" |}.








(** The storage configuration without an access key. *)
Definition keyless : BunnyConfig :=
  {| storageAccessKey := None;
     storageZoneName := "zone";
     storageBaseUrl := "https://storage.bunnycdn.com";
     cdnBaseUrl := "https://cdn.example";
     defaultContentType := "application/octet-stream" |}.

(** [POST /api/admin/login] with the credentials the code falls back to. *)
Definition loginRequest : Request :=
  {| body := list_to_map [("username", Js.Str "admin"); ("password", Js.Str "admin123")];
     files := None;
     params_id := ""; protocol := "http"; host := "localhost:3000" |}.

(** A conversation with one message in the shape of the app and one in
    the shape of the chat API, and what the formatter makes of it. *)
Definition conversation : list Js.value :=
  [Js.Obj [("isUser", Js.Bool true); ("text", Js.Str "hi")];
   Js.Obj [("role", Js.Str "assistant"); ("content", Js.Str "hello")]].

Definition formattedConversation : list Js.value :=
  [Js.Obj [("role", Js.Str "user"); ("content", Js.Str "hi")];
   Js.Obj [("role", Js.Str "assistant"); ("content", Js.Str "hello")]].

(** The world after [deleteRequest] went through
    [DELETE /api/characters/5500000] in [stored]. *)
Definition deletedCharacter : gmap string Js.value :=
  <["updatedAt" := Js.Num 1700000000004]> (<["isActive" := Js.Bool false]> storedCharacter).

Definition deleted : World :=
  {| now_calls := 5; random_calls := 1;
     disk := disk stored; dirs := ∅;
     db := [deletedCharacter];
     trace := trace stored |}.

End Scenario.

(** ** Statement-level definitions *)

(** Decimal digits, and the strings made of them. *)
Definition is_digit (c : ascii) : bool :=
  let n := Ascii.N_of_ascii c in ((48 <=? n) && (n <=? 57))%N.

Fixpoint all_digits (s : string) : bool :=
  match s with
  | EmptyString => true
  | String c s' => is_digit c && all_digits s'
  end.

(** Strings without a dot. *)
Fixpoint dotless (s : string) : bool :=
  match s with
  | EmptyString => true
  | String c s' => negb (Ascii.eqb c ".") && dotless s'
  end.

(** The status of the response a handler sent, if it sent one. *)
Definition answered {A} (o : Outcome A) : option Z :=
  match o with
  | Ret r => Some (status r)
  | _ => None
  end.

(** A create request that fails validation: a required text field is
    absent or falsy, or [req.files] carries no [image] key. *)
Definition missing_required (req : Request) : Prop :=
  Js.truthy (Js.get (body req) "name") = false
  ∨ Js.truthy (Js.get (body req) "description") = false
  ∨ Js.truthy (Js.get (body req) "personality") = false
  ∨ CharacterController.field req "image" = None.

(** The body fields [updateCharacter] copies into the document. *)
Definition updatableFields : list string :=
  ["name"; "description"; "personality"; "accentColor"; "textColor";
   "age"; "location"; "responseTime"; "traits"; "interests"].

(** The request carries no file under key [k]
    ([req.files && req.files[k] && req.files[k][0]] is falsy). *)
Definition no_file (req : Request) (k : string) : Prop :=
  CharacterController.field req k ≫= head = None.

(** What a document keeps through an update: each image URL for which the
    request carries no file, and every updatable field whose value in the
    request body is absent or falsy. *)
Definition kept (req : Request) (old new : gmap string Js.value) : Prop :=
  (no_file req "image" → Js.get new "imageUrl" = Js.get old "imageUrl")
  ∧ (no_file req "backgroundImage" →
     Js.get new "backgroundImageUrl" = Js.get old "backgroundImageUrl")
  ∧ ∀ k, k ∈ updatableFields →
         Js.truthy (Js.get (body req) k) = false →
         Js.get new k = Js.get old k.

(** The updatable fields that hold a text; the other two, [traits] and
    [interests], hold lists. *)
Definition stringFields : list string :=
  ["name"; "description"; "personality"; "accentColor"; "textColor";
   "age"; "location"; "responseTime"].

(** An empty value: the empty string, the empty list. *)
Definition is_empty (v : Js.value) : bool :=
  match v with
  | Js.Str s => String.eqb s ""
  | Js.Arr [] => true
  | _ => false
  end.

(** "An update cannot clear a field to empty", between a document and what
    the update made of it: no updatable field goes from a value to an
    empty one. *)
Definition cannot_clear (old new : gmap string Js.value) : Prop :=
  ∀ k, k ∈ updatableFields →
       is_empty (Js.get old k) = false → is_empty (Js.get new k) = false.

(** The same of one run of [updateCharacter]. *)
Definition update_cannot_clear (E : Env) (bunnyConfig : BunnyConfig) (storageDir : string)
    (req : Request) (w : World) : Prop :=
  ∀ i old new,
    db w !! i = Some old →
    db (snd (CharacterController.updateCharacter E bunnyConfig storageDir req w)) !! i
    = Some new →
    cannot_clear old new.

(** The document after the ten conditional assignments of
    [updateCharacter]. *)
Definition assigned (E : Env) (req : Request) (character : gmap string Js.value)
    : gmap string Js.value :=
  let text k c := CharacterController.assign_if k (Js.get (body req) k) c in
  let list k c :=
    CharacterController.assign_if k
      (CharacterController.parseList E (Js.get (body req) k)) c in
  list "interests"
    (list "traits"
       (text "responseTime"
          (text "location"
             (text "age"
                (text "textColor"
                   (text "accentColor"
                      (text "personality"
                         (text "description" (text "name" character))))))))).






(** No two documents of the collection carry the same [id]. *)
Definition unique_ids (l : list (gmap string Js.value)) : Prop :=
  ∀ i j a b s, l !! i = Some a → l !! j = Some b →
    Character.has_id s a = true → Character.has_id s b = true → i = j.

(** The files a request has staged under [uploads/temp]: the first file
    under [image] and the first under [backgroundImage]. *)
Definition staged_file (req : Request) (f : UploadedFile) : Prop :=
  CharacterController.field req "image" ≫= head = Some f
  ∨ CharacterController.field req "backgroundImage" ≫= head = Some f.

(** The fields [updateCharacter] assigns. *)
Definition assignedFields : list string :=
  updatableFields ++ ["imageUrl"; "backgroundImageUrl"; "updatedAt"].

(** * Properties *)

(** Closed equations are settled by evaluation. *)
Ltac by_vm :=
  lazymatch goal with
  | |- ?a = ?b => vm_cast_no_check (@eq_refl _ b)
  | |- Is_true ?b => vm_cast_no_check I
  end.

(** ** Laws of the effect monad *)

Section Laws.
Context {A B : Type}.

Lemma bind_val (m : M A) (k : A → M B) w a w' :
  m w = (Val a, w') → bind m k w = k a w'.
Proof. unfold bind. by intros ->. Qed.

Lemma bind_ret (m : M A) (k : A → M B) w r w' :
  m w = (Ret r, w') → bind m k w = (Ret r, w').
Proof. unfold bind. by intros ->. Qed.

Lemma bind_exc (m : M A) (k : A → M B) w e w' :
  m w = (Exc e, w') → bind m k w = (Exc e, w').
Proof. unfold bind. by intros ->. Qed.

Lemma try_catch_val (m : M A) h w a w' :
  m w = (Val a, w') → try_catch m h w = (Val a, w').
Proof. unfold try_catch. by intros ->. Qed.

Lemma try_catch_ret (m : M A) h w r w' :
  m w = (Ret r, w') → try_catch m h w = (Ret r, w').
Proof. unfold try_catch. by intros ->. Qed.

Lemma try_catch_exc (m : M A) h w e w' :
  m w = (Exc e, w') → try_catch m h w = h e w'.
Proof. unfold try_catch. by intros ->. Qed.

(** A [try] nested in a [catch] is a [try] around the inner chain. *)
Lemma try_catch_nest (a b : M A) (h : string → M A) w :
  try_catch a (λ _, try_catch b h) w = try_catch (try_catch a (λ _, b)) h w.
Proof. unfold try_catch. by destruct (a w) as [[x|r|e] w1]. Qed.

Lemma try_finally_run (m : M A) (f : M unit) w o w1 w2 :
  m w = (o, w1) → f w1 = (Val tt, w2) → try_finally m f w = (o, w2).
Proof. unfold try_finally. by intros -> ->. Qed.

End Laws.

(** ** Queries on the collection *)

(** A document is saved only by a database that is reached. *)
Lemma db_accepts_reachable E doc : db_accepts E doc = true → db_down E = None.
Proof.
  unfold db_accepts. intros H. apply andb_prop in H as [_ H].
  by apply bool_decide_eq_true in H.
Qed.

Lemma db_accepts_validates E doc :
  db_down E = None → db_accepts E doc = db_validates E doc.
Proof.
  unfold db_accepts. intros ->. rewrite bool_decide_eq_true_2 by done.
  apply andb_true_r.
Qed.

Lemma query_run {A} E (answer : list (gmap string Js.value) → A) w :
  Character.query E answer w
  = match db_down E with
    | Some e => (Exc e, w)
    | None => (Val (answer (db w)), w)
    end.
Proof. reflexivity. Qed.

Lemma findOne_run E id w :
  db_down E = None →
  Character.findOne E id w
  = (Val (list_find (λ doc, Is_true (Character.has_id id doc)) (db w)), w).
Proof. unfold Character.findOne. rewrite query_run. by intros ->. Qed.

Lemma findOne_down E id w e :
  db_down E = Some e → Character.findOne E id w = (Exc e, w).
Proof. unfold Character.findOne. rewrite query_run. by intros ->. Qed.

(** ** The two storage services as decision trees *)

Section Services.
Variable E : Env.
Variable cfg : BunnyConfig.
Variable dir : string.

Lemma processAndUpload_eq image id isBg o w :
  BunnyStorageService.processAndUploadCharacterImage E cfg image id isBg o w =
  let w1 := log (SharpRead image) w in
  match disk w !! image with
  | None =>
      (Exc ("Failed to process and upload image: "
              +:+ ("Input file is missing: " +:+ image)), w1)
  | Some content =>
      match sharp E content (resizeOptions isBg o) (Js.or (opt_quality o) (Js.Num 85)) with
      | inl e => (Exc ("Failed to process and upload image: " +:+ e), w1)
      | inr buf =>
          let key := filePath id isBg (clock E (now_calls w)) in
          match storageAccessKey cfg with
          | None =>
              (Exc ("Failed to process and upload image: "
                      +:+ ("Failed to upload file to Bunny.net: "
                             +:+ "Cannot read properties of undefined (reading 'substring')")),
               tick w1)
          | Some _ =>
              let w2 := log (HttpPut (BunnyStorageService.getStorageUrl cfg key) buf
                               "image/webp") (tick w1) in
              match axios_put E (BunnyStorageService.getStorageUrl cfg key) buf with
              | Some e =>
                  (Exc ("Failed to process and upload image: "
                          +:+ ("Failed to upload file to Bunny.net: " +:+ e)), w2)
              | None => (Val (BunnyStorageService.getCdnUrl cfg key), w2)
              end
          end
      end
  end.
Proof.
  unfold BunnyStorageService.processAndUploadCharacterImage,
    BunnyStorageService.uploadFile, try_catch, bind, Sys.sharp_toBuffer.
  destruct (disk w !! image) as [content|]; [|reflexivity].
  destruct (sharp E content _ _) as [e|buf]; [reflexivity|].
  cbn [Sys.Date_now].
  destruct (storageAccessKey cfg); [|reflexivity].
  unfold Sys.put, ret. cbn [Js.or Js.truthy String.eqb negb].
  destruct (axios_put E _ buf); reflexivity.
Qed.

Lemma processAndSave_eq image id isBg o w :
  LocalStorageService.processAndSaveCharacterImage E dir image id isBg o w =
  let w1 := log (SharpRead image) w in
  match disk w !! image with
  | None =>
      (Exc ("Failed to process and save image: "
              +:+ ("Input file is missing: " +:+ image)), w1)
  | Some content =>
      match sharp E content (resizeOptions isBg o) (Js.or (opt_quality o) (Js.Num 85)) with
      | inl e => (Exc ("Failed to process and save image: " +:+ e), w1)
      | inr buf =>
          let key := filePath id isBg (clock E (now_calls w)) in
          let file := LocalStorageService.getLocalPath dir key in
          let d := dirname file in
          let written (w2 : World) :=
            match writeFileSync E file with
            | Some e =>
                (Exc ("Failed to process and save image: "
                        +:+ ("Failed to save file locally: " +:+ e)),
                 log (FsWrite file buf) w2)
            | None =>
                (Val (LocalStorageService.getPublicUrl key),
                 set_disk (insert file buf) (log (FsWrite file buf) w2))
            end in
          if present d w then written (tick w1)
          else
            match mkdirSync E d with
            | Some e =>
                (Exc ("Failed to process and save image: "
                        +:+ ("Failed to save file locally: " +:+ e)),
                 log (FsMkdir d) (tick w1))
            | None => written (set_dirs (union {[d]}) (log (FsMkdir d) (tick w1)))
            end
      end
  end.
Proof.
  unfold LocalStorageService.processAndSaveCharacterImage,
    LocalStorageService.saveFile, try_catch, bind, Sys.sharp_toBuffer.
  destruct (disk w !! image) as [content|]; [|reflexivity].
  destruct (sharp E content _ _) as [e|buf]; [reflexivity|].
  cbn [Sys.Date_now Sys.existsSync].
  change (present ?d (tick (log ?e w))) with (present d w).
  destruct (present _ w); cbn [negb when].
  - unfold ret, Sys.writeFile. destruct (writeFileSync E _); reflexivity.
  - unfold Sys.mkdir. destruct (mkdirSync E _); [reflexivity|].
    unfold ret, Sys.writeFile. destruct (writeFileSync E _); reflexivity.
Qed.

(** C1 (amended).  For an upload whose staged file [sharp] can process:
    the remote backend is tried first, under the key stamped with the
    clock reading taken then; when the PUT succeeds the chain returns the
    CDN URL of that key and nothing is written locally.  When the PUT
    fails, the local service processes the staged file again (the same
    bytes come out) and writes them under a key of the same owner and
    role stamped with the next clock reading; when that write succeeds
    the chain returns base URL + [/images/] + that second key. *)
Theorem upload_fallback_chain baseUrl image id isBg o w content buf k :
  disk w !! image = Some content →
  sharp E content (resizeOptions isBg o) (Js.or (opt_quality o) (Js.Num 85)) = inr buf →
  storageAccessKey cfg = Some k →
  let key1 := filePath id isBg (clock E (now_calls w)) in
  let key2 := filePath id isBg (clock E (S (now_calls w))) in
  let url1 := BunnyStorageService.getStorageUrl cfg key1 in
  let file2 := LocalStorageService.getLocalPath dir key2 in
  let run := uploadWithFallback E cfg dir baseUrl image id isBg o w in
  (axios_put E url1 buf = None →
     fst run = Val (cdnBaseUrl cfg +:+ "/" +:+ key1)
     ∧ trace (snd run) = trace w ++ [SharpRead image; HttpPut url1 buf "image/webp"]
     ∧ disk (snd run) = disk w)
  ∧ (∀ e, axios_put E url1 buf = Some e →
     mkdirSync E (dirname file2) = None →
     trace (snd run)
     = trace w ++ [SharpRead image; HttpPut url1 buf "image/webp"; SharpRead image]
         ++ (if present (dirname file2) w then [] else [FsMkdir (dirname file2)])
         ++ [FsWrite file2 buf]
     ∧ (writeFileSync E file2 = None →
          fst run = Val (baseUrl +:+ "/images/" +:+ key2)
          ∧ disk (snd run) !! file2 = Some buf)
     ∧ (∀ e', writeFileSync E file2 = Some e' → ∃ m, fst run = Exc m)).
Proof.
  intros Hfile Hsharp Hkey key1 key2 url1 file2 run. split.
  - intros Hput. subst run. unfold uploadWithFallback, try_catch.
    rewrite processAndUpload_eq. cbn zeta. rewrite Hfile, Hsharp, Hkey.
    fold key1. fold url1. rewrite Hput. cbn [fst snd trace log tick disk].
    rewrite <- app_assoc. done.
  - intros e Hput Hmk. subst run. unfold uploadWithFallback, try_catch.
    rewrite processAndUpload_eq. cbn zeta. rewrite Hfile, Hsharp, Hkey.
    fold key1. fold url1. rewrite Hput.
    unfold bind. rewrite processAndSave_eq. cbn zeta.
    cbn [disk log tick now_calls]. rewrite Hfile, Hsharp.
    fold key2. fold file2.
    change (present ?d (log ?a (tick (log ?b w)))) with (present d w).
    destruct (present (dirname file2) w).
    + destruct (writeFileSync E file2) as [e'|] eqn:Hw.
      * cbn [fst snd trace log tick]. split; [|split].
        -- by rewrite <- !app_assoc.
        -- done.
        -- intros ? _. eauto.
      * cbn [fst snd trace log tick set_disk disk ret]. split; [|split].
        -- by rewrite <- !app_assoc.
        -- intros _. split; [done|]. by rewrite lookup_insert_eq.
        -- done.
    + rewrite Hmk. destruct (writeFileSync E file2) as [e'|] eqn:Hw.
      * cbn [fst snd trace log tick set_dirs]. split; [|split].
        -- by rewrite <- !app_assoc.
        -- done.
        -- intros ? _. eauto.
      * cbn [fst snd trace log tick set_disk set_dirs disk ret]. split; [|split].
        -- by rewrite <- !app_assoc.
        -- intros _. split; [done|]. by rewrite lookup_insert_eq.
        -- done.
Qed.

End Services.

(** With the storage zone down and the clock one millisecond further at
    the second reading, the chain answers with the local URL of the second
    key. *)
Lemma upload_fallback_chain_witness :
  fst (uploadWithFallback Scenario.remote_down Scenario.bunnyConfig Scenario.storageDir
         "http://localhost:3000" (path Scenario.profileFile) "5500000" false
         CharacterController.profileOptions Scenario.staged)
  = Val "http://localhost:3000/images/characters/5500000/profile-1700000000001.webp".
Proof.
  pose proof (upload_fallback_chain Scenario.remote_down Scenario.bunnyConfig
                Scenario.storageDir "http://localhost:3000" (path Scenario.profileFile)
                "5500000" false CharacterController.profileOptions Scenario.staged
                [Byte.x89; Byte.x50] [Byte.x89; Byte.x50] "secret"
                eq_refl eq_refl eq_refl) as [_ H].
  destruct (H "connect ECONNREFUSED" eq_refl eq_refl) as (_ & Hok & _).
  exact (proj1 (Hok eq_refl)).
Defined.

(** In the same run the PUT went to [...profile-1700000000000.webp] and the
    disk write to [...profile-1700000000001.webp]: no single key names
    both. *)
Lemma fallback_reuses_key_fails :
  ¬ fallback_reuses_key Scenario.remote_down Scenario.bunnyConfig Scenario.storageDir
      "http://localhost:3000" (path Scenario.profileFile) "5500000" false
      CharacterController.profileOptions Scenario.staged.
Proof.
  intros H.
  destruct (H "https://storage.bunnycdn.com/zone/characters/5500000/profile-1700000000000.webp"
              [Byte.x89; Byte.x50] "image/webp"
              "/app/public/images/characters/5500000/profile-1700000000001.webp"
              [Byte.x89; Byte.x50]) as (key & Hurl & Hfile & _).
  - vm_compute. set_solver.
  - vm_compute. set_solver.
  - unfold BunnyStorageService.getStorageUrl in Hurl.
    unfold LocalStorageService.getLocalPath in Hfile.
    revert Hurl Hfile. generalize (normalizedPath key). intros n Hurl Hfile.
    vm_compute in Hurl, Hfile. simplify_eq.
Qed.

(** ** Frame facts: what the storage chain leaves alone *)

Section Frames.
Variable E : Env.
Variable cfg : BunnyConfig.
Variable dir : string.

Lemma processAndUpload_db image id isBg o w :
  db (snd (BunnyStorageService.processAndUploadCharacterImage E cfg image id isBg o w))
  = db w.
Proof. rewrite processAndUpload_eq. cbn zeta. repeat case_match; reflexivity. Qed.

Lemma processAndSave_db image id isBg o w :
  db (snd (LocalStorageService.processAndSaveCharacterImage E dir image id isBg o w))
  = db w.
Proof. rewrite processAndSave_eq. cbn zeta. repeat case_match; reflexivity. Qed.

(** The storage chain never touches the collection. *)
Lemma uploadWithFallback_db baseUrl image id isBg o w :
  db (snd (uploadWithFallback E cfg dir baseUrl image id isBg o w)) = db w.
Proof.
  unfold uploadWithFallback, try_catch.
  pose proof (processAndUpload_db image id isBg o w) as Hb.
  destruct (BunnyStorageService.processAndUploadCharacterImage E cfg image id isBg o w)
    as [[url|r|e] w1]; cbn [snd] in *; try done.
  unfold bind.
  pose proof (processAndSave_db image id isBg o w1) as Hl.
  destruct (LocalStorageService.processAndSaveCharacterImage E dir image id isBg o w1)
    as [[url|r|e'] w2]; unfold ret; cbn [snd] in *; congruence.
Qed.


End Frames.

(** The nested [try] blocks of the controllers, with what they do to the
    URL ([f]) and to the local URL ([g], prefixing the base URL), are the
    fallback chain followed by [f], under the inner handler. *)
Lemma try_catch_chain {A B} (a b : M A) (f : A → B) (g : A → A)
    (h : string → M B) w :
  try_catch (bind a (λ u, ret (f u)))
    (λ _, try_catch (bind b (λ u, ret (f (g u)))) h) w
  = try_catch (bind (try_catch a (λ _, bind b (λ u, ret (g u)))) (λ u, ret (f u))) h w.
Proof.
  unfold try_catch, bind, ret.
  destruct (a w) as [[x|r|e] w1]; try reflexivity.
  destruct (b w1) as [[x|r|e'] w2]; reflexivity.
Qed.

(** The soft chain of the background image: the inner [catch] swallows the
    failure and leaves the default [v]. *)
Lemma try_catch_soft {A B} (a b : M A) (f : A → B) (g : A → A) (v : B) w :
  try_catch (bind a (λ u, ret (f u)))
    (λ _, try_catch (bind b (λ u, ret (f (g u)))) (λ _, ret v)) w
  = match try_catch a (λ _, bind b (λ u, ret (g u))) w with
    | (Val u, w') => (Val (f u), w')
    | (Ret r, w') => (Ret r, w')
    | (Exc e, w') => (Val v, w')
    end.
Proof.
  unfold try_catch, bind, ret.
  destruct (a w) as [[x|r|e] w1]; try reflexivity.
  destruct (b w1) as [[x|r|e'] w2]; reflexivity.
Qed.

(** Reading back the fields [createCharacter] hands to [new Character]. *)
Lemma new_character_fields (v1 v2 v3 v4 v5 v6 v7 v8 v9 v10 v11 v12 v13 v14 v15 v16 : Js.value) :
  let doc : gmap string Js.value :=
    list_to_map
      ([("id", v1); ("name", v2); ("description", v3); ("personality", v4);
        ("imageUrl", v5); ("backgroundImageUrl", v6); ("accentColor", v7);
        ("textColor", v8); ("age", v9); ("location", v10); ("responseTime", v11);
        ("traits", v12); ("interests", v13)]
       ++ [("isActive", v14); ("createdAt", v15); ("updatedAt", v16)]) in
  Js.get doc "id" = v1 ∧ Js.get doc "imageUrl" = v5
  ∧ Js.get doc "backgroundImageUrl" = v6 ∧ Js.get doc "isActive" = v14.
Proof. cbv zeta. repeat split; reflexivity. Qed.

(** ** [createCharacter] *)

Section Create.
Variable E : Env.
Variable cfg : BunnyConfig.
Variable dir : string.

(** C4.  A create request that lacks [name], [description],
    [personality] or the profile image file is answered with status 400
    and the world is left exactly as it was: no clock reading, no id, and
    in particular an unchanged I/O log (no upload, no disk write) and an
    unchanged collection. *)
Theorem create_rejects_before_io (req : Request) (w : World) :
  missing_required req →
  ∃ msg, CharacterController.createCharacter E cfg dir req w
         = (Ret {| status := 400; json := message msg |}, w).
Proof.
  unfold missing_required, CharacterController.createCharacter,
    CharacterController.createCharacter_try.
  intros H.
  destruct (Js.truthy (Js.get (body req) "name")) eqn:Hn;
    [|eexists; reflexivity].
  destruct (Js.truthy (Js.get (body req) "description")) eqn:Hd;
    [|eexists; reflexivity].
  destruct (Js.truthy (Js.get (body req) "personality")) eqn:Hp;
    [|eexists; reflexivity].
  destruct H as [H|[H|[H|H]]]; try discriminate.
  rewrite H. eexists; reflexivity.
Qed.


End Create.

(** A request without [personality] changes nothing, staged file or not. *)
Lemma create_rejects_before_io_witness :
  ∃ msg,
    CharacterController.createCharacter Scenario.healthy Scenario.bunnyConfig
      Scenario.storageDir Scenario.incompleteRequest Scenario.staged
    = (Ret {| status := 400; json := message msg |}, Scenario.staged).
Proof.
  apply (create_rejects_before_io Scenario.healthy Scenario.bunnyConfig
           Scenario.storageDir Scenario.incompleteRequest Scenario.staged).
  right. right. left. reflexivity.
Defined.


(** ** [updateCharacter] *)

Lemma get_insert_ne (c : gmap string Js.value) k k' v :
  k ≠ k' → Js.get (<[k' := v]> c) k = Js.get c k.
Proof. intros. unfold Js.get. by rewrite lookup_insert_ne. Qed.

Lemma get_assign_if_ne k k' v c :
  k ≠ k' → Js.get (CharacterController.assign_if k' v c) k = Js.get c k.
Proof.
  intros. unfold CharacterController.assign_if.
  destruct (Js.truthy v); [by apply get_insert_ne|done].
Qed.

Lemma assign_if_falsy k v c :
  Js.truthy v = false → CharacterController.assign_if k v c = c.
Proof. unfold CharacterController.assign_if. by intros ->. Qed.

(** A falsy [traits] or [interests] is not parsed. *)
Lemma parseList_falsy E v :
  Js.truthy v = false → Js.truthy (CharacterController.parseList E v) = false.
Proof.
  intros H. unfold CharacterController.parseList.
  destruct v; try done. by rewrite H.
Qed.

(** What the ten assignments leave alone. *)
Lemma assigned_frame E req c k :
  k ∉ updatableFields → Js.get (assigned E req c) k = Js.get c k.
Proof.
  intros Hk. unfold updatableFields in Hk.
  repeat (apply not_elem_of_cons in Hk as [? Hk]).
  unfold assigned. cbv zeta. by rewrite !get_assign_if_ne by done.
Qed.

Lemma assigned_falsy E req c k :
  k ∈ updatableFields → Js.truthy (Js.get (body req) k) = false →
  Js.get (assigned E req c) k = Js.get c k.
Proof.
  intros Hk Hfalsy. unfold updatableFields in Hk. unfold assigned. cbv zeta.
  repeat (apply elem_of_cons in Hk as [->|Hk]);
    [..|by apply elem_of_nil in Hk];
    repeat first [ rewrite get_assign_if_ne by done
                 | rewrite assign_if_falsy by (done || by apply parseList_falsy) ];
    reflexivity.
Qed.

(** ** Storage keys *)

Lemma string_length_app s1 s2 :
  String.length (s1 +:+ s2) = (String.length s1 + String.length s2)%nat.
Proof. induction s1; simpl; [done|]. by rewrite IHs1. Qed.

Lemma string_app_inj_r s1 s2 x : s1 +:+ x = s2 +:+ x → s1 = s2.
Proof.
  revert s2. induction s1 as [|a s1 IH]; intros [|b s2] H.
  - done.
  - apply (f_equal String.length) in H.
    rewrite !string_length_app in H. simpl in H. lia.
  - apply (f_equal String.length) in H.
    rewrite !string_length_app in H. simpl in H. lia.
  - injection H as -> H. f_equal. by apply IH.
Qed.

(** The timestamp can be read back from the key. *)
Lemma filePath_inj id isBg t t' :
  filePath id isBg t = filePath id isBg t' → t = t'.
Proof.
  unfold filePath. intros H.
  do 5 apply (inj (String.append _)) in H.
  apply string_app_inj_r in H. by apply (inj pretty) in H.
Qed.

Section Keys.
Variable E : Env.
Variable cfg : BunnyConfig.
Variable dir : string.

(** All the I/O of the remote service: one read of the staged file and at
    most one PUT, to the URL of the key stamped with the clock. *)
Lemma processAndUpload_io image id isBg o w ev :
  ev ∈ io_of (BunnyStorageService.processAndUploadCharacterImage E cfg image id isBg o) w →
  ev = SharpRead image
  ∨ ∃ data, ev = HttpPut (BunnyStorageService.getStorageUrl cfg
                            (filePath id isBg (clock E (now_calls w))))
                   data "image/webp".
Proof.
  unfold io_of. rewrite processAndUpload_eq. cbn zeta.
  repeat case_match; cbn [snd trace log tick];
    rewrite <- ?app_assoc, drop_app_length; cbn [app];
    intros Hev; repeat (apply elem_of_cons in Hev as [->|Hev]); eauto;
    by apply elem_of_nil in Hev.
Qed.

(** All the I/O of the local service. *)
Lemma processAndSave_io image id isBg o w ev :
  ev ∈ io_of (LocalStorageService.processAndSaveCharacterImage E dir image id isBg o) w →
  let file := LocalStorageService.getLocalPath dir
                (filePath id isBg (clock E (now_calls w))) in
  ev = SharpRead image ∨ ev = FsMkdir (dirname file) ∨ ∃ data, ev = FsWrite file data.
Proof.
  unfold io_of. rewrite processAndSave_eq. cbn zeta.
  repeat case_match; cbn [snd trace log tick set_disk set_dirs];
    rewrite <- ?app_assoc, drop_app_length; cbn [app];
    intros Hev; repeat (apply elem_of_cons in Hev as [->|Hev]); eauto;
    by apply elem_of_nil in Hev.
Qed.

End Keys.

(** C5.  The key computed for owner [id], a role and the clock reading [t]
    is [characters/{id}/{role}-{t}.webp] with role [profile] or
    [background] and [t] in decimal; keys computed at different readings
    differ.  And this key is what both services store under.  The remote
    service, given a staged file that [sharp] can process and an access
    key, reads the file and PUTs the bytes to storage base URL + [/] +
    zone + [/] + key with content type [image/webp], the codec of the
    [.webp] extension; when the PUT goes through it answers CDN base URL
    + [/] + key.  The local service reads the file, creates the directory
    of the local path of the key if it is not there, and writes the bytes
    to that path; when the write goes through it answers [/images/] +
    key. *)
Theorem storage_key_format id isBg t :
  (∃ role, role ∈ ["profile"; "background"]
     ∧ filePath id isBg t
       = "characters/" +:+ id +:+ "/" +:+ role +:+ "-" +:+ Js.num_to_string t +:+ ".webp")
  ∧ (∀ t', t ≠ t' → filePath id isBg t ≠ filePath id isBg t')
  ∧ (∀ E cfg image o w content buf k,
       clock E (now_calls w) = t →
       disk w !! image = Some content →
       sharp E content (resizeOptions isBg o) (Js.or (opt_quality o) (Js.Num 85)) = inr buf →
       storageAccessKey cfg = Some k →
       let url :=
         storageBaseUrl cfg +:+ "/" +:+ storageZoneName cfg +:+ "/" +:+ filePath id isBg t in
       let run := BunnyStorageService.processAndUploadCharacterImage E cfg image id isBg o in
       io_of run w = [SharpRead image; HttpPut url buf "image/webp"]
       ∧ (axios_put E url buf = None →
          fst (run w) = Val (cdnBaseUrl cfg +:+ "/" +:+ filePath id isBg t)))
  ∧ (∀ E dir image o w content buf,
       clock E (now_calls w) = t →
       disk w !! image = Some content →
       sharp E content (resizeOptions isBg o) (Js.or (opt_quality o) (Js.Num 85)) = inr buf →
       let file := LocalStorageService.getLocalPath dir (filePath id isBg t) in
       let run := LocalStorageService.processAndSaveCharacterImage E dir image id isBg o in
       mkdirSync E (dirname file) = None →
       io_of run w
       = [SharpRead image]
           ++ (if present (dirname file) w then [] else [FsMkdir (dirname file)])
           ++ [FsWrite file buf]
       ∧ (writeFileSync E file = None →
          fst (run w) = Val ("/images/" +:+ filePath id isBg t)
          ∧ disk (snd (run w)) !! file = Some buf)).
Proof.
  split; [|split; [|split]].
  - exists (imageType isBg). split; [destruct isBg; set_solver|reflexivity].
  - intros t' Hne Heq. by apply Hne, (filePath_inj id isBg).
  - intros E cfg image o w content buf k <- Hfile Hsharp Hkey url run. subst run.
    unfold io_of. rewrite processAndUpload_eq. cbn zeta.
    rewrite Hfile, Hsharp, Hkey.
    change (BunnyStorageService.getStorageUrl cfg ?key) with
      (storageBaseUrl cfg +:+ "/" +:+ storageZoneName cfg +:+ "/" +:+ key).
    fold url. destruct (axios_put E url buf); cbn [fst snd trace log tick];
      rewrite <- app_assoc, drop_app_length; done.
  - intros E dir image o w content buf <- Hfile Hsharp file run Hmk. subst run.
    unfold io_of. rewrite processAndSave_eq. cbn zeta.
    rewrite Hfile, Hsharp. fold file.
    destruct (present (dirname file) w); [|rewrite Hmk];
      destruct (writeFileSync E file);
      cbn [fst snd trace log tick set_disk set_dirs disk];
      rewrite <- ?app_assoc, drop_app_length;
      (split; [done|]); try done;
      intros _; (split; [done|]); by rewrite lookup_insert_eq.
Qed.

(** Two profile uploads for character 5500000 one millisecond apart get
    different keys; the remote service PUTs the staged profile image of
    the example to the URL of its key, and the local service writes it to
    the local path of its key. *)
Lemma storage_key_format_witness :
  filePath "5500000" false 1700000000000 ≠ filePath "5500000" false 1700000000001
  ∧ io_of (BunnyStorageService.processAndUploadCharacterImage Scenario.healthy
             Scenario.bunnyConfig (path Scenario.profileFile) "5500000" false
             CharacterController.profileOptions) Scenario.staged
    = [SharpRead "uploads/temp/1700000000000-face.png";
       HttpPut
         "https://storage.bunnycdn.com/zone/characters/5500000/profile-1700000000000.webp"
         [Byte.x89; Byte.x50] "image/webp"]
  ∧ io_of (LocalStorageService.processAndSaveCharacterImage Scenario.healthy
             Scenario.storageDir (path Scenario.profileFile) "5500000" false
             CharacterController.profileOptions) Scenario.staged
    = [SharpRead "uploads/temp/1700000000000-face.png";
       FsMkdir "/app/public/images/characters/5500000";
       FsWrite "/app/public/images/characters/5500000/profile-1700000000000.webp"
         [Byte.x89; Byte.x50]].
Proof.
  destruct (storage_key_format "5500000" false 1700000000000)
    as (_ & Hne & Hput & Hwrite).
  split; [apply Hne; lia|]. split.
  - destruct (Hput Scenario.healthy Scenario.bunnyConfig (path Scenario.profileFile)
                CharacterController.profileOptions Scenario.staged
                [Byte.x89; Byte.x50] [Byte.x89; Byte.x50] "secret"
                eq_refl eq_refl eq_refl eq_refl) as [H _].
    rewrite H. by_vm.
  - destruct (Hwrite Scenario.healthy Scenario.storageDir (path Scenario.profileFile)
                CharacterController.profileOptions Scenario.staged
                [Byte.x89; Byte.x50] [Byte.x89; Byte.x50]
                eq_refl eq_refl eq_refl eq_refl) as [H _].
    rewrite H. by_vm.
Defined.

(** ** Evaluations *)

(** The request of [Scenario.createRequest] with everything working: the
    answer is 201, the staged file is gone and the world is
    [Scenario.stored]. *)
Lemma createCharacter_stored :
  CharacterController.createCharacter Scenario.healthy Scenario.bunnyConfig
    Scenario.storageDir Scenario.createRequest Scenario.staged
  = (Ret {| status := 201;
            json := CharacterController.transformedCharacter Scenario.storedCharacter |},
     Scenario.stored).
Proof. by_vm. Qed.

(** C2, on [createCharacter].  With the storage zone down and the disk
    full, a create request with both images is answered 500 at the first
    failure; no [unlink] is attempted and both staged files are still on
    disk when the request completes. *)
Theorem create_failure_keeps_staged_files :
  let run :=
    CharacterController.createCharacter Scenario.both_down Scenario.bunnyConfig
      Scenario.storageDir Scenario.createRequestWithBackground Scenario.staged in
  fst run = Ret {| status := 500; json := message "Failed to upload image" |}
  ∧ trace (snd run)
    = [SharpRead "uploads/temp/1700000000000-face.png";
       HttpPut "https://storage.bunnycdn.com/zone/characters/5500000/profile-1700000000001.webp"
         [Byte.x89; Byte.x50] "image/webp";
       SharpRead "uploads/temp/1700000000000-face.png";
       FsMkdir "/app/public/images/characters/5500000";
       FsWrite "/app/public/images/characters/5500000/profile-1700000000002.webp"
         [Byte.x89; Byte.x50]]
  ∧ disk (snd run) !! path Scenario.profileFile = Some [Byte.x89; Byte.x50]
  ∧ disk (snd run) !! path Scenario.backgroundFile = Some [Byte.x89; Byte.x4e].
Proof. cbv zeta. repeat split; by_vm. Qed.

(** The same failure in [updateCharacter]: the [finally] of the profile
    block removes the staged profile file before the 500 goes out; the
    staged background file, whose block is never reached, stays. *)
Lemma update_failure_unlinks_profile_file :
  let run :=
    CharacterController.updateCharacter Scenario.both_down Scenario.bunnyConfig
      Scenario.storageDir Scenario.reuploadRequest Scenario.stored in
  fst run = Ret {| status := 500; json := message "Failed to upload updated image" |}
  ∧ trace (snd run)
    = trace Scenario.stored
      ++ [SharpRead "uploads/temp/1700000010000-face2.png";
          HttpPut "https://storage.bunnycdn.com/zone/characters/5500000/profile-1700000000004.webp"
            [Byte.x89; Byte.x47] "image/webp";
          SharpRead "uploads/temp/1700000010000-face2.png";
          FsMkdir "/app/public/images/characters/5500000";
          FsWrite "/app/public/images/characters/5500000/profile-1700000000005.webp"
            [Byte.x89; Byte.x47];
          FsUnlink "uploads/temp/1700000010000-face2.png"]
  ∧ disk (snd run) !! path Scenario.secondFile = None
  ∧ disk (snd run) !! path Scenario.backgroundFile = Some [Byte.x89; Byte.x4e].
Proof. cbv zeta. repeat split; by_vm. Qed.

(** C7, on [listVideos].  Of the listing [intro.mp4], [CLIP.MP4], a
    directory and a text file, the adapter of the specification returns the
    URLs of [intro.mp4] and [CLIP.MP4]; [listVideos] compares the extension
    as it is spelled and returns [intro.mp4] alone. *)
Theorem listVideos_extension_case :
  ListingAdapter.list Scenario.bunnyConfig "videos/" [".mp4"] Scenario.videoListing
  = ["https://cdn.example/videos/intro.mp4"; "https://cdn.example/videos/CLIP.MP4"]
  ∧ MediaController.videoUrls Scenario.bunnyConfig Scenario.videoListing
    = ["https://cdn.example/videos/intro.mp4"]
  ∧ fst (MediaController.listVideos Scenario.healthy Scenario.bunnyConfig Scenario.staged)
    = Ret {| status := 200;
             json := Js.Arr [Js.Str "https://cdn.example/videos/intro.mp4"] |}.
Proof. repeat split; by_vm. Qed.

(** [listImages] lower-cases the name first: on a listing with mixed-case
    names, a directory and other files it returns what the adapter of the
    specification returns. *)
Lemma listImages_extension_case :
  CarasoulController.imageUrls Scenario.bunnyConfig Scenario.imageListing
  = ListingAdapter.list Scenario.bunnyConfig "carasouls/"
      [".jpg"; ".jpeg"; ".png"; ".gif"] Scenario.imageListing
  ∧ fst (CarasoulController.listImages Scenario.healthy Scenario.bunnyConfig Scenario.staged)
    = Ret {| status := 200;
             json := Js.Arr [Js.Str "https://cdn.example/carasouls/beach.jpg";
                             Js.Str "https://cdn.example/carasouls/Sunset.PNG";
                             Js.Str "https://cdn.example/carasouls/photo.v2.JPeG"] |}.
Proof. split; by_vm. Qed.

(** *** [listImages] against the adapter of the specification *)

Lemma lower_ascii_dot c : Js.lower_ascii c = "."%char → c = "."%char.
Proof. destruct c as [[] [] [] [] [] [] [] []]; vm_compute; congruence. Qed.

Lemma rev_app_lower s acc :
  String.rev_app (Js.toLowerCase s) (Js.toLowerCase acc)
  = Js.toLowerCase (String.rev_app s acc).
Proof.
  revert acc. induction s as [|a s IH]; intros acc; simpl; [done|].
  by rewrite <- IH.
Qed.

Lemma rev_lower s : String.rev (Js.toLowerCase s) = Js.toLowerCase (String.rev s).
Proof. apply (rev_app_lower s EmptyString). Qed.

Lemma string_app_nil_r s : s +:+ "" = s.
Proof.
  induction s as [|a s IH]; [reflexivity|].
  change (String a s +:+ "") with (String a (s +:+ "")). by rewrite IH.
Qed.

Lemma rev_app_rev_app s acc acc' :
  String.rev_app (String.rev_app s acc) acc' = String.rev_app acc (s +:+ acc').
Proof.
  revert acc acc'. induction s as [|a s IH]; intros acc acc'; simpl; [done|].
  by rewrite IH.
Qed.

Lemma rev_involutive s : String.rev (String.rev s) = s.
Proof.
  unfold String.rev. rewrite rev_app_rev_app. simpl. apply string_app_nil_r.
Qed.

Lemma prefix_nil s : String.prefix "" s = true.
Proof. by destruct s. Qed.

(** A lower-cased text starts with [e.] exactly when what stands before its
    first dot lower-cases to [e]. *)
Lemma prefix_before_dot e t :
  dotless e = true →
  String.prefix (e +:+ ".") (Js.toLowerCase t) = true
  ↔ ∃ r, ListingAdapter.before_dot t = Some r ∧ Js.toLowerCase r = e.
Proof.
  revert t. induction e as [|a e IH]; intros t He.
  - change ("" +:+ ".") with ".".
    destruct t as [|c t]; cbn [String.prefix Js.toLowerCase ListingAdapter.before_dot].
    + split; [intros [=]|]. by intros (r & ? & _).
    + rewrite prefix_nil. destruct (Ascii.eqb_spec c ".") as [->|Hc].
      * change (Js.lower_ascii ".") with "."%char.
        split; [|intros _; destruct (ascii_dec _ _); [done|congruence]].
        intros _. by exists EmptyString.
      * destruct (ascii_dec "." (Js.lower_ascii c)) as [Hl|Hl].
        { symmetry in Hl. apply lower_ascii_dot in Hl. congruence. }
        split; [intros [=]|]. intros (r & Hr & Hlow).
        destruct (ListingAdapter.before_dot t); simplify_eq/=.
  - cbn [dotless] in He. apply andb_true_iff in He as [Ha He].
    apply negb_true_iff in Ha.
    change (String a e +:+ ".") with (String a (e +:+ ".")).
    destruct t as [|c t]; cbn [String.prefix Js.toLowerCase ListingAdapter.before_dot].
    + split; [intros [=]|]. by intros (r & ? & _).
    + destruct (Ascii.eqb_spec c ".") as [->|Hc].
      * split.
        -- destruct (ascii_dec a (Js.lower_ascii ".")) as [->|]; [|intros [=]].
           by vm_compute in Ha.
        -- intros (r & Hr & Hlow). by simplify_eq/=.
      * destruct (ascii_dec a (Js.lower_ascii c)) as [->|Hne].
        -- rewrite (IH t He). split.
           ++ intros (r & -> & <-). by exists (String c r).
           ++ intros (r & Hr & Hlow).
              destruct (ListingAdapter.before_dot t) as [r'|]; simplify_eq/=.
              by exists r'.
        -- split; [intros [=]|]. intros (r & Hr & Hlow).
           destruct (ListingAdapter.before_dot t) as [r'|]; simplify_eq/=.
Qed.

Lemma string_app_assoc s1 s2 s3 : (s1 +:+ s2) +:+ s3 = s1 +:+ (s2 +:+ s3).
Proof.
  induction s1 as [|a s1 IH]; [reflexivity|].
  change (String a ((s1 +:+ s2) +:+ s3) = String a (s1 +:+ (s2 +:+ s3))).
  by rewrite IH.
Qed.

Lemma rev_app_app s acc : String.rev_app s acc = String.rev s +:+ acc.
Proof.
  unfold String.rev. revert acc.
  induction s as [|a s IH]; intros acc; [reflexivity|].
  cbn [String.rev_app]. rewrite (IH (String a acc)), (IH (String a "")).
  by rewrite string_app_assoc.
Qed.

(** For an extension [.x] without further dots: the lower-cased name ends
    with it exactly when the lower-cased extension of the name is it. *)
Lemma endsWith_extension x name :
  dotless (String.rev x) = true →
  Js.endsWith (Js.toLowerCase name) (String "." x) = true
  ↔ Js.toLowerCase (ListingAdapter.extension name) = String "." x.
Proof.
  intros Hx. unfold Js.endsWith, ListingAdapter.extension.
  rewrite rev_lower.
  assert (String.rev (String "." x) = String.rev x +:+ ".") as ->.
  { unfold String.rev at 1. cbn [String.rev_app]. apply rev_app_app. }
  rewrite (prefix_before_dot (String.rev x) (String.rev name) Hx).
  destruct (ListingAdapter.before_dot (String.rev name)) as [r|].
  - cbn [Js.toLowerCase]. change (Js.lower_ascii ".") with "."%char.
    rewrite <- rev_lower. split.
    + intros (r' & [= <-] & Hr). by rewrite Hr, rev_involutive.
    + intros [= Hr]. exists r. by rewrite <- Hr, rev_involutive.
  - split; [by intros (r & ? & _)|]. intros [=].
Qed.

(** On every listing, [listImages] returns what the adapter of the
    specification returns for the prefix [carasouls/] and the four image
    extensions. *)
Lemma imageUrls_refines cfg entries :
  CarasoulController.imageUrls cfg entries
  = ListingAdapter.list cfg "carasouls/" CarasoulController.imageExtensions entries.
Proof.
  unfold CarasoulController.imageUrls, ListingAdapter.list.
  induction entries as [|entry entries IH]; [reflexivity|].
  cbn [List.filter].
  assert (existsb (λ ext, Js.endsWith (Js.toLowerCase (ObjectName entry)) ext)
            CarasoulController.imageExtensions
          = ListingAdapter.accepts CarasoulController.imageExtensions (ObjectName entry))
    as ->.
  { unfold ListingAdapter.accepts, CarasoulController.imageExtensions.
    apply eq_true_iff_eq. rewrite bool_decide_eq_true.
    cbn [existsb]. rewrite !orb_true_iff, !elem_of_cons, elem_of_nil.
    rewrite !endsWith_extension by reflexivity. intuition discriminate. }
  destruct (negb (IsDirectory entry) && _); [|exact IH].
  cbn [fmap list_fmap]. f_equal. exact IH.
Qed.

(** ** Soft delete *)

Section Delete.
Variable E : Env.

(** The soft delete of [characterController.js] stamps [updatedAt] with
    the clock. *)
Lemma deleteCharacter_refreshes (req : Request) (w : World) i old :
  list_find (λ doc, Is_true (Character.has_id (params_id req) doc)) (db w)
  = Some (i, old) →
  (∀ doc, db_accepts E doc = true) →
  ∃ new,
    CharacterController.deleteCharacter E req w
    = (Ret {| status := 200; json := message "Character deleted successfully" |},
       set_db (λ l, <[i := new]> l) (tick w))
    ∧ Js.get new "isActive" = Js.Bool false
    ∧ Js.get new "updatedAt" = Js.Num (clock E (now_calls w)).
Proof.
  intros Hfind Hall. eexists. split; [|split].
  - unfold CharacterController.deleteCharacter. apply try_catch_ret.
    erewrite (bind_val (Character.findOne _ _));
      [|rewrite findOne_run by exact (db_accepts_reachable E ∅ (Hall ∅));
        by rewrite Hfind].
    cbv beta iota zeta. erewrite bind_val by reflexivity.
    erewrite bind_val; [reflexivity|].
    unfold Character.save. by rewrite Hall.
  - rewrite get_insert_ne by done. unfold Js.get. by rewrite lookup_insert_eq.
  - unfold Js.get. by rewrite lookup_insert_eq.
Qed.

(** The soft delete of [adminController.js] saves the document with
    [isActive] cleared and nothing else changed; the clock is not read. *)
Lemma admin_deleteCharacter_run (req : Request) (w : World) i old :
  list_find (λ doc, Is_true (Character.has_id (params_id req) doc)) (db w)
  = Some (i, old) →
  (∀ doc, db_accepts E doc = true) →
  AdminController.deleteCharacter E req w
  = (Ret {| status := 200; json := message "Character deleted successfully" |},
     set_db (λ l, <[i := <["isActive" := Js.Bool false]> old]> l) w)
  ∧ Js.get (<["isActive" := Js.Bool false]> old) "updatedAt" = Js.get old "updatedAt".
Proof.
  intros Hfind Hall. split; [|by rewrite get_insert_ne].
  unfold AdminController.deleteCharacter. apply try_catch_ret.
  erewrite (bind_val (Character.findOne _ _));
    [|rewrite findOne_run by exact (db_accepts_reachable E ∅ (Hall ∅));
      by rewrite Hfind].
  cbv beta iota zeta. erewrite bind_val; [reflexivity|].
  unfold Character.save. by rewrite Hall.
Qed.

End Delete.

(** C8, on the admin endpoint.  The character stored with [updatedAt]
    1700000000003 is soft-deleted through [DELETE /api/admin/characters/:id]
    when the clock reads 1700000000004: the saved document is inactive and
    its [updatedAt] is still 1700000000003.  The same request through
    [DELETE /api/characters/:id] saves 1700000000004. *)
Theorem admin_delete_keeps_updatedAt :
  let admin := AdminController.deleteCharacter Scenario.healthy
                 Scenario.deleteRequest Scenario.stored in
  let public := CharacterController.deleteCharacter Scenario.healthy
                  Scenario.deleteRequest Scenario.stored in
  answered (fst admin) = Some 200
  ∧ clock Scenario.healthy (now_calls Scenario.stored) = 1700000000004
  ∧ (λ doc, (Js.get doc "isActive", Js.get doc "updatedAt")) <$> db (snd admin)
    = [(Js.Bool false, Js.Num 1700000000003)]
  ∧ (λ doc, (Js.get doc "isActive", Js.get doc "updatedAt")) <$> db (snd public)
    = [(Js.Bool false, Js.Num 1700000000004)].
Proof. cbv zeta. repeat split; by_vm. Qed.

(** ** Generated ids *)

Lemma all_digits_app s1 s2 :
  all_digits (s1 +:+ s2) = all_digits s1 && all_digits s2.
Proof.
  induction s1 as [|a s1 IH]; [reflexivity|].
  change (String a s1 +:+ s2) with (String a (s1 +:+ s2)).
  cbn [all_digits]. by rewrite IH, andb_assoc.
Qed.

Lemma pretty_N_go_digits (x : N) s :
  all_digits s = true → all_digits (pretty_N_go x s) = true.
Proof.
  revert s. induction (N.lt_wf_0 x) as [x _ IH]. intros s Hs.
  destruct (N.eq_0_gt_0_cases x) as [->|Hpos].
  - by rewrite pretty_N_go_0.
  - rewrite pretty_N_go_step by done.
    apply IH; [by apply N.div_lt|].
    cbn [all_digits]. rewrite Hs, andb_true_r.
    unfold pretty_N_char. by repeat case_match.
Qed.

Lemma pretty_N_go_length (x : N) s :
  (String.length s ≤ String.length (pretty_N_go x s))%nat.
Proof.
  revert s. induction (N.lt_wf_0 x) as [x _ IH]. intros s.
  destruct (N.eq_0_gt_0_cases x) as [->|Hpos].
  - by rewrite pretty_N_go_0.
  - rewrite pretty_N_go_step by done.
    etrans; [|apply IH; by apply N.div_lt]. simpl. lia.
Qed.

Lemma pretty_N_digits (x : N) :
  all_digits (pretty x) = true ∧ pretty x ≠ "".
Proof.
  unfold pretty, pretty_N. case_decide as Hx; [done|]. split.
  - by apply pretty_N_go_digits.
  - rewrite pretty_N_go_step by lia. intros Heq.
    pose proof (pretty_N_go_length (x `div` 10)
                  (String (pretty_N_char (x `mod` 10)) "")) as Hlen.
    rewrite Heq in Hlen. simpl in Hlen. lia.
Qed.

Lemma num_to_string_digits (n : Z) :
  0 ≤ n → all_digits (Js.num_to_string n) = true ∧ Js.num_to_string n ≠ "".
Proof.
  intros Hn. unfold Js.num_to_string, pretty, pretty_Z.
  destruct n as [|p|p]; [done| |lia].
  apply (pretty_N_digits (N.pos p)).
Qed.

(** ** Rounding to a double *)

(** Rounding moves a number to one of the two neighbours on the grid of
    its exponent. *)
Lemma round_cases n :
  let e := Z.log2 n - 52 in
  Double.round n = n
  ∨ 0 < e ∧ (Double.round n = n / 2 ^ e * 2 ^ e
             ∨ Double.round n = (n / 2 ^ e + 1) * 2 ^ e ∧ 0 < n mod 2 ^ e).
Proof.
  intros e. unfold Double.round. fold e.
  destruct (Z.leb_spec e 0) as [|He]; [by left|]. right. split; [done|].
  assert (0 < 2 ^ (e - 1)) by (apply Z.pow_pos_nonneg; lia).
  destruct (Z.ltb_spec (2 ^ (e - 1)) (n mod 2 ^ e)); cbn [orb].
  { right. split; [done|lia]. }
  destruct (Z.eqb_spec (n mod 2 ^ e) (2 ^ (e - 1))); cbn [andb]; [|by left].
  destruct (Z.odd _); [|by left]. right. split; [done|lia].
Qed.

Lemma pow2_divide e k : 0 ≤ e ≤ k → (2 ^ e | 2 ^ k).
Proof.
  intros He. exists (2 ^ (k - e)). rewrite <- Z.pow_add_r by lia. f_equal. lia.
Qed.

(** A bound on the grid is kept by rounding. *)
Lemma round_le n B k :
  n ≤ B → Z.log2 n - 52 ≤ k → (2 ^ k | B) → Double.round n ≤ B.
Proof.
  intros Hn Hk Hdiv.
  destruct (round_cases n) as [->|[He Hr]]; [done|].
  set (e := Z.log2 n - 52) in *.
  assert (2 ^ e | B) as [b Hb] by (etrans; [apply pow2_divide|exact Hdiv]; lia).
  assert (0 < 2 ^ e) as Hpos by (apply Z.pow_pos_nonneg; lia).
  pose proof (Z.div_mod n (2 ^ e) ltac:(lia)) as Hdm.
  pose proof (Z.mod_pos_bound n (2 ^ e) Hpos) as Hmod.
  revert Hn Hdm Hmod Hr Hpos Hb.
  generalize (n / 2 ^ e) (n mod 2 ^ e). generalize (2 ^ e).
  clear. intros p q r Hn Hdm Hmod Hr Hpos ->. destruct Hr as [->|[-> Hr]]; [nia|].
  assert (q < b) by (apply (Z.mul_lt_mono_pos_l p); lia).
  apply Z.mul_le_mono_nonneg_r; lia.
Qed.

Lemma round_ge n A k :
  A ≤ n → Z.log2 n - 52 ≤ k → (2 ^ k | A) → A ≤ Double.round n.
Proof.
  intros Hn Hk Hdiv.
  destruct (round_cases n) as [->|[He Hr]]; [done|].
  set (e := Z.log2 n - 52) in *.
  assert (2 ^ e | A) as [a Ha] by (etrans; [apply pow2_divide|exact Hdiv]; lia).
  assert (0 < 2 ^ e) as Hpos by (apply Z.pow_pos_nonneg; lia).
  pose proof (Z.div_mod n (2 ^ e) ltac:(lia)) as Hdm.
  pose proof (Z.mod_pos_bound n (2 ^ e) Hpos) as Hmod.
  revert Hn Hdm Hmod Hr Hpos Ha.
  generalize (n / 2 ^ e) (n mod 2 ^ e). generalize (2 ^ e).
  clear. intros p q r Hn Hdm Hmod Hr Hpos ->.
  assert (a ≤ q).
  { apply Z.lt_succ_r, (Z.mul_lt_mono_pos_l p); lia. }
  assert (a * p ≤ q * p) by (apply Z.mul_le_mono_nonneg_r; lia).
  destruct Hr as [->|[-> Hr]]; nia.
Qed.

Lemma log2_le_72 n : n < 2 ^ 73 → Z.log2 n - 52 ≤ 20.
Proof.
  intros Hn. destruct (Z.le_gt_cases n 0) as [H0|H0].
  - rewrite Z.log2_nonpos by done. lia.
  - apply Z.log2_lt_pow2 in Hn; lia.
Qed.

(** The product [Math.random() * 900000] stays below 900000 by one step of
    the grid at least. *)
Lemma round_product random :
  0 ≤ random < 2 ^ 53 →
  0 ≤ Double.round (random * 900000) ≤ 900000 * 2 ^ 53 - 2 ^ 20.
Proof.
  intros [Hlo Hhi]. split.
  { apply (round_ge _ 0 20); [lia|apply log2_le_72; lia|apply Z.divide_0_r]. }
  destruct (Z.le_gt_cases (random * 900000) (900000 * 2 ^ 53 - 2 ^ 20)) as [Hle|Hgt].
  { apply (round_le _ _ 20); [done|apply log2_le_72; lia|].
    exists (900000 * 2 ^ 33 - 1). lia. }
  unfold Double.round.
  assert (Z.log2 (random * 900000) = 72) as ->.
  { apply Z.log2_unique; lia. }
  change (72 - 52) with 20. cbn [Z.leb Z.compare].
  set (d := random * 900000 - (900000 * 2 ^ 53 - 2 ^ 20)).
  assert (0 < d ≤ 148576) by (subst d; lia).
  assert (random * 900000 / 2 ^ 20 = 900000 * 2 ^ 33 - 1) as ->.
  { symmetry. apply (Z.div_unique _ _ _ d); subst d; lia. }
  assert ((random * 900000) mod 2 ^ 20 = d) as ->.
  { symmetry. apply (Z.mod_unique _ _ (900000 * 2 ^ 33 - 1)); subst d; lia. }
  change (2 ^ (20 - 1)) with 524288.
  destruct (Z.ltb_spec 524288 d); [lia|].
  destruct (Z.eqb_spec d 524288); [lia|]. cbn [orb andb]. lia.
Qed.

(** The random part of an id has six digits. *)
Lemma randomNum_range (random : Z) :
  0 ≤ random < 2 ^ 53 → 100000 ≤ CharacterController.randomNum random < 1000000.
Proof.
  intros Hr. unfold CharacterController.randomNum. cbv zeta.
  pose proof (round_product random Hr) as Hp.
  set (s := 100000 * 2 ^ 53 + Double.round (random * 900000)) in *.
  assert (100000 * 2 ^ 53 ≤ Double.round s).
  { apply (round_ge _ _ 20); [subst s; lia|apply log2_le_72; subst s; lia|].
    exists (100000 * 2 ^ 33). lia. }
  assert (Double.round s ≤ 1000000 * 2 ^ 53 - 2 ^ 20).
  { apply (round_le _ _ 20); [subst s; lia|apply log2_le_72; subst s; lia|].
    exists (1000000 * 2 ^ 33 - 1). lia. }
  split.
  - apply Z.div_le_lower_bound; lia.
  - apply Z.div_lt_upper_bound; lia.
Qed.

(** The shape of an id: for a reading of [Math.random()] in [0, 1) and a
    non-negative clock reading it is a non-empty string of decimal
    digits. *)
Lemma shortId_digits (random now : Z) :
  0 ≤ random < 2 ^ 53 → 0 ≤ now →
  all_digits (CharacterController.shortId random now) = true
  ∧ CharacterController.shortId random now ≠ "".
Proof.
  intros Hr Hn. unfold CharacterController.shortId. cbv zeta.
  pose proof (randomNum_range random Hr) as Hrange.
  assert (0 ≤ CharacterController.randomNum random) as H1 by lia.
  assert (0 ≤ Z.rem now 10000) as H2 by (apply Z.rem_nonneg; lia).
  destruct (num_to_string_digits _ H1) as [Hd1 Hne1].
  destruct (num_to_string_digits _ H2) as [Hd2 _].
  split.
  - by rewrite all_digits_app, Hd1, Hd2.
  - intros Heq. apply Hne1.
    destruct (Js.num_to_string (CharacterController.randomNum random)); [done|].
    discriminate Heq.
Qed.

(** C9, uniqueness.  Two create requests ten seconds apart, [Math.random()]
    returning 0.5 both times: [generateShortId] gives [5500000] to both.
    The first character is created; the second request runs into the
    unique index and is answered 500. *)
Theorem generateShortId_collision :
  let first :=
    CharacterController.createCharacter Scenario.slow_clock Scenario.bunnyConfig
      Scenario.storageDir Scenario.createRequest Scenario.staged in
  let second :=
    CharacterController.createCharacter Scenario.slow_clock Scenario.bunnyConfig
      Scenario.storageDir Scenario.secondRequest (snd first) in
  fst (CharacterController.generateShortId Scenario.slow_clock Scenario.staged)
  = Val "5500000"
  ∧ fst (CharacterController.generateShortId Scenario.slow_clock (snd first))
    = Val "5500000"
  ∧ clock Scenario.slow_clock (now_calls Scenario.staged) = 1700000000000
  ∧ clock Scenario.slow_clock (now_calls (snd first)) = 1700000010000
  ∧ answered (fst first) = Some 201
  ∧ fst second = Ret {| status := 500; json := message "Server error" |}
  ∧ length (db (snd second)) = 1%nat.
Proof. cbv zeta. repeat split; by_vm. Qed.

(** * Further properties: every request, every outcome *)

(** ** The storage chain and the staged files *)

Section Chain.
Variable E : Env.
Variable cfg : BunnyConfig.
Variable dir : string.

Lemma processAndUpload_no_ret image id isBg o w r :
  fst (BunnyStorageService.processAndUploadCharacterImage E cfg image id isBg o w) ≠ Ret r.
Proof. rewrite processAndUpload_eq. cbn zeta. repeat case_match; done. Qed.

Lemma processAndSave_no_ret image id isBg o w r :
  fst (LocalStorageService.processAndSaveCharacterImage E dir image id isBg o w) ≠ Ret r.
Proof. rewrite processAndSave_eq. cbn zeta. repeat case_match; done. Qed.

(** The chain ends with a URL or with an error, never with a response. *)
Lemma uploadWithFallback_no_ret baseUrl image id isBg o w r :
  fst (uploadWithFallback E cfg dir baseUrl image id isBg o w) ≠ Ret r.
Proof.
  unfold uploadWithFallback, try_catch.
  pose proof (processAndUpload_no_ret image id isBg o w) as Hb.
  destruct (BunnyStorageService.processAndUploadCharacterImage E cfg image id isBg o w)
    as [[url|r'|e] w1]; cbn [fst] in *; [done|by destruct (Hb r')|].
  unfold bind.
  pose proof (processAndSave_no_ret image id isBg o w1) as Hl.
  destruct (LocalStorageService.processAndSaveCharacterImage E dir image id isBg o w1)
    as [[url|r'|e'] w2]; cbn [fst] in *; [done|by destruct (Hl r')|done].
Qed.

Lemma unlinkIfExists_eq p w :
  CharacterController.unlinkIfExists p w
  = (Val tt, if present p w then set_disk (delete p) (log (FsUnlink p) w) else w).
Proof.
  unfold CharacterController.unlinkIfExists, bind, Sys.existsSync, when.
  by destruct (present p w).
Qed.

(** After [if (existsSync(p)) unlinkSync(p)] there is no file [p]. *)
Lemma unlinkIfExists_gone p w :
  ∃ w', CharacterController.unlinkIfExists p w = (Val tt, w')
        ∧ db w' = db w ∧ disk w' = delete p (disk w).
Proof.
  rewrite unlinkIfExists_eq. unfold present.
  destruct (bool_decide (is_Some (disk w !! p))) eqn:Hp; cbn [orb].
  - eexists; split; [reflexivity|]. done.
  - apply bool_decide_eq_false in Hp. rewrite <- eq_None_not_Some in Hp.
    destruct (bool_decide (p ∈ dirs w)); eexists; (split; [reflexivity|]);
      cbn [db disk set_disk log]; rewrite ?delete_id; done.
Qed.

End Chain.

(** ** [createCharacter], in general *)

Section CreateCases.
Variable E : Env.
Variable cfg : BunnyConfig.
Variable dir : string.

(** The background block of [createCharacter] always goes on. *)
Lemma create_background_block base id (bgo : option UploadedFile) w :
  ∃ v w',
    match bgo with
    | None => ret Js.Null
    | Some bg =>
        try_catch
          (bind (BunnyStorageService.processAndUploadCharacterImage E cfg
                   (path bg) id true CharacterController.backgroundOptions)
             (λ url, ret (Js.Str url)))
          (λ err,
             try_catch
               (bind (LocalStorageService.processAndSaveCharacterImage E dir
                        (path bg) id true CharacterController.backgroundOptions)
                  (λ url, ret (Js.Str (base +:+ url))))
               (λ localErr, ret Js.Null))
    end w = (Val v, w')
    ∧ db w' = db w.
Proof.
  destruct bgo as [bg|]; [|by eexists _, _].
  rewrite try_catch_soft.
  pose proof (uploadWithFallback_db E cfg dir base (path bg) id true
                CharacterController.backgroundOptions w) as Hdb.
  pose proof (uploadWithFallback_no_ret E cfg dir base (path bg) id true
                CharacterController.backgroundOptions w) as Hret.
  unfold uploadWithFallback in Hdb, Hret.
  destruct (try_catch _ _ w) as [[u|r|e] w1]; cbn [fst snd] in *.
  - by eexists _, _.
  - by destruct (Hret r).
  - by eexists _, _.
Qed.

Lemma create_unlink_background (bgo : option UploadedFile) w :
  ∃ w',
    match bgo with
    | None => ret tt
    | Some bg => CharacterController.unlinkIfExists (path bg)
    end w = (Val tt, w')
    ∧ db w' = db w
    ∧ disk w' = match bgo with
                | None => disk w
                | Some bg => delete (path bg) (disk w)
                end.
Proof.
  destruct bgo as [bg|]; [apply unlinkIfExists_gone|by eexists].
Qed.

(** Everything [createCharacter] can do: refuse the request and touch
    nothing; give up on the profile image; or build a document and hand it
    to the database, with the staged files removed by then. *)
Lemma createCharacter_cases (req : Request) (w : World) :
  let run := CharacterController.createCharacter E cfg dir req w in
  (∃ msg, run = (Ret {| status := 400; json := message msg |}, w))
  ∨ (fst run = Ret {| status := 500; json := message "Failed to upload image" |}
     ∧ db (snd run) = db w)
  ∨ (∃ doc w',
       let id := CharacterController.shortId (random E (random_calls w))
                   (clock E (now_calls w)) in
       Js.get doc "id" = Js.Str id
       ∧ Js.get doc "isActive" = Js.Bool true
       ∧ db w' = db w
       ∧ (∀ f, staged_file req f → disk w' !! path f = None)
       ∧ run = if db_accepts E doc && negb (existsb (Character.has_id id) (db w))
               then (Ret {| status := 201;
                            json := CharacterController.transformedCharacter doc |},
                     set_db (λ l, l ++ [doc]) w')
               else (Ret {| status := 500; json := message "Server error" |}, w')).
Proof.
  intros run. subst run.
  unfold CharacterController.createCharacter, CharacterController.createCharacter_try.
  destruct (Js.truthy (Js.get (body req) "name")) eqn:Hn;
    [|left; eexists; reflexivity].
  destruct (Js.truthy (Js.get (body req) "description")) eqn:Hd;
    [|left; eexists; reflexivity].
  destruct (Js.truthy (Js.get (body req) "personality")) eqn:Hp;
    [|left; eexists; reflexivity].
  cbn [negb orb].
  destruct (CharacterController.field req "image") as [images|] eqn:Himg;
    [|left; eexists; reflexivity].
  right.
  set (id := CharacterController.shortId (random E (random_calls w)) (clock E (now_calls w))).
  set (base := CharacterController.baseUrl req).
  destruct images as [|image rest]; cbn [head].
  { left. split; reflexivity. }
  destruct (uploadWithFallback E cfg dir base (path image) id false
              CharacterController.profileOptions (tick (draw w)))
    as [[url|r|e] w2] eqn:Hrun.
  2:{ pose proof (uploadWithFallback_no_ret E cfg dir base (path image) id false
                    CharacterController.profileOptions (tick (draw w)) r) as Hr.
      rewrite Hrun in Hr. by destruct Hr. }
  2:{ left.
      match goal with
      | |- fst ?t = _ ∧ _ =>
          assert (t = (Ret {| status := 500; json := message "Failed to upload image" |},
                       w2)) as ->
      end.
      { apply try_catch_ret. erewrite bind_val by reflexivity.
        apply bind_ret. rewrite try_catch_nest.
        erewrite try_catch_exc; [reflexivity|exact Hrun]. }
      split; [done|].
      pose proof (uploadWithFallback_db E cfg dir base (path image) id false
                    CharacterController.profileOptions (tick (draw w))) as H2.
      rewrite Hrun in H2. exact H2. }
  right.
  pose proof (uploadWithFallback_db E cfg dir base (path image) id false
                CharacterController.profileOptions (tick (draw w))) as Hdb2.
  rewrite Hrun in Hdb2. cbn [snd db tick draw] in Hdb2.
  destruct (create_background_block base id
              (CharacterController.field req "backgroundImage" ≫= head) w2)
    as (bgUrl & w3 & Hbg & Hdb3).
  destruct (unlinkIfExists_gone (path image) w3) as (w4 & Hu1 & Hdb4 & Hdisk4).
  destruct (create_unlink_background
              (CharacterController.field req "backgroundImage" ≫= head) w4)
    as (w5 & Hu2 & Hdb5 & Hdisk5).
  unfold try_catch at 1.
  erewrite bind_val by reflexivity.
  erewrite bind_val; cycle 1.
  { rewrite try_catch_nest. apply try_catch_val. exact Hrun. }
  erewrite bind_val by exact Hbg.
  erewrite bind_val by exact Hu1.
  erewrite bind_val by exact Hu2.
  erewrite bind_val by reflexivity.
  match goal with
  | |- context [Character.insert_new E ?d] => set (doc := d)
  end.
  exists doc, (tick (tick w5)).
  assert (Js.get doc "id" = Js.Str id) as Hid by apply new_character_fields.
  split; [exact Hid|]. split; [apply new_character_fields|].
  split; [cbn [db tick]; congruence|].
  split.
  { intros f [Hf|Hf]; cbn [disk tick]; rewrite Hdisk5.
    - cbn [mbind option_bind] in Hf. rewrite Himg in Hf. cbn in Hf.
      injection Hf as <-.
      destruct (CharacterController.field req "backgroundImage" ≫= head) as [bg|].
      + rewrite Hdisk4. apply lookup_delete_None. right. apply lookup_delete_eq.
      + rewrite Hdisk4. apply lookup_delete_eq.
    - rewrite Hf. apply lookup_delete_eq. }
  unfold bind, Character.insert_new.
  change (db (tick (tick w5))) with (db w5).
  rewrite Hid. replace (db w5) with (db w) by congruence.
  destruct (db_accepts E doc); cbn [negb andb]; [|reflexivity].
  destruct (existsb (Character.has_id id) (db w)); reflexivity.
Qed.

End CreateCases.

(** ** [updateCharacter], in general *)

Section UpdateCases.
Variable E : Env.
Variable cfg : BunnyConfig.
Variable dir : string.

(** The profile block of [updateCharacter]: the document goes on with at
    most [imageUrl] changed, or the request is answered 500; either way
    the staged file is gone. *)
Lemma update_profile_block base id (c : gmap string Js.value)
    (imgo : option UploadedFile) w :
  ∃ w', db w' = db w
    ∧ (∀ f, imgo = Some f → disk w' !! path f = None)
    ∧ (imgo = None → w' = w)
    ∧ ((∃ c', match imgo with
              | None => ret c
              | Some image =>
                  try_finally
                    (try_catch
                       (bind (BunnyStorageService.processAndUploadCharacterImage E cfg
                                (path image) id false CharacterController.profileOptions)
                          (λ newImageUrl, ret (<["imageUrl" := Js.Str newImageUrl]> c)))
                       (λ err,
                          try_catch
                            (bind (LocalStorageService.processAndSaveCharacterImage E dir
                                     (path image) id false CharacterController.profileOptions)
                               (λ localImageUrl,
                                  ret (<["imageUrl" := Js.Str (base +:+ localImageUrl)]> c)))
                            (λ localErr,
                               respond 500 (message "Failed to upload updated image"))))
                    (CharacterController.unlinkIfExists (path image))
              end w = (Val c', w')
              ∧ (imgo = None → c' = c)
              ∧ ∀ k, k ≠ "imageUrl" → Js.get c' k = Js.get c k)
       ∨ (imgo ≠ None
          ∧ match imgo with
            | None => ret c
            | Some image =>
                try_finally
                  (try_catch
                     (bind (BunnyStorageService.processAndUploadCharacterImage E cfg
                              (path image) id false CharacterController.profileOptions)
                        (λ newImageUrl, ret (<["imageUrl" := Js.Str newImageUrl]> c)))
                     (λ err,
                        try_catch
                          (bind (LocalStorageService.processAndSaveCharacterImage E dir
                                   (path image) id false
                                   CharacterController.profileOptions)
                             (λ localImageUrl,
                                ret (<["imageUrl" := Js.Str (base +:+ localImageUrl)]> c)))
                          (λ localErr,
                             respond 500 (message "Failed to upload updated image"))))
                  (CharacterController.unlinkIfExists (path image))
            end w
            = (Ret {| status := 500; json := message "Failed to upload updated image" |},
               w'))).
Proof.
  destruct imgo as [image|].
  2:{ exists w. split; [done|]. split; [done|]. split; [done|]. left. by exists c. }
  pose proof (try_catch_chain
                (BunnyStorageService.processAndUploadCharacterImage E cfg
                   (path image) id false CharacterController.profileOptions)
                (LocalStorageService.processAndSaveCharacterImage E dir
                   (path image) id false CharacterController.profileOptions)
                (λ u, <["imageUrl" := Js.Str u]> c) (λ u, base +:+ u)
                (λ localErr, respond 500 (message "Failed to upload updated image")) w)
    as Hchain.
  change (try_catch (BunnyStorageService.processAndUploadCharacterImage _ _ _ _ _ _) _)
    with (uploadWithFallback E cfg dir base (path image) id false
            CharacterController.profileOptions) in Hchain.
  pose proof (uploadWithFallback_db E cfg dir base (path image) id false
                CharacterController.profileOptions w) as Hdb.
  pose proof (uploadWithFallback_no_ret E cfg dir base (path image) id false
                CharacterController.profileOptions w) as Hret.
  destruct (uploadWithFallback E cfg dir base (path image) id false
              CharacterController.profileOptions w) as [[u|r|e] w1] eqn:Hrun;
    cbn [fst snd] in *; [|by destruct (Hret r)|];
    destruct (unlinkIfExists_gone (path image) w1) as (w2 & Hu & Hdb2 & Hdisk2);
    exists w2; (split; [congruence|]);
    (split; [intros f [= <-]; rewrite Hdisk2; apply lookup_delete_eq|]);
    (split; [done|]).
  - left. eexists. split.
    { eapply try_finally_run; [|exact Hu].
      rewrite Hchain. apply try_catch_val. erewrite bind_val by exact Hrun. reflexivity. }
    split; [intros [=]|].
    intros k Hk. by apply get_insert_ne.
  - right. split; [done|]. eapply try_finally_run; [|exact Hu].
    rewrite Hchain. erewrite try_catch_exc; [reflexivity|].
    erewrite bind_exc by exact Hrun. reflexivity.
Qed.

(** The background block of [updateCharacter] always goes on, with at most
    [backgroundImageUrl] changed and the staged file gone. *)
Lemma update_background_block base id (c : gmap string Js.value)
    (bgo : option UploadedFile) w :
  ∃ c' w',
    match bgo with
    | None => ret c
    | Some bg =>
        try_finally
          (try_catch
             (bind (BunnyStorageService.processAndUploadCharacterImage E cfg
                      (path bg) id true CharacterController.backgroundOptions)
                (λ newBgImageUrl, ret (<["backgroundImageUrl" := Js.Str newBgImageUrl]> c)))
             (λ err,
                try_catch
                  (bind (LocalStorageService.processAndSaveCharacterImage E dir
                           (path bg) id true CharacterController.backgroundOptions)
                     (λ localBgImageUrl,
                        ret (<["backgroundImageUrl" := Js.Str (base +:+ localBgImageUrl)]> c)))
                  (λ localErr, ret c)))
          (CharacterController.unlinkIfExists (path bg))
    end w = (Val c', w')
    ∧ db w' = db w
    ∧ (∀ g, bgo = Some g → disk w' !! path g = None)
    ∧ (bgo = None → w' = w)
    ∧ (bgo = None → c' = c)
    ∧ ∀ k, k ≠ "backgroundImageUrl" → Js.get c' k = Js.get c k.
Proof.
  destruct bgo as [bg|].
  2:{ exists c, w. done. }
  pose proof (try_catch_soft
                (BunnyStorageService.processAndUploadCharacterImage E cfg
                   (path bg) id true CharacterController.backgroundOptions)
                (LocalStorageService.processAndSaveCharacterImage E dir
                   (path bg) id true CharacterController.backgroundOptions)
                (λ u, <["backgroundImageUrl" := Js.Str u]> c) (λ u, base +:+ u) c w)
    as Hsoft.
  change (try_catch (BunnyStorageService.processAndUploadCharacterImage _ _ _ _ _ _) _)
    with (uploadWithFallback E cfg dir base (path bg) id true
            CharacterController.backgroundOptions) in Hsoft.
  pose proof (uploadWithFallback_db E cfg dir base (path bg) id true
                CharacterController.backgroundOptions w) as Hdb.
  pose proof (uploadWithFallback_no_ret E cfg dir base (path bg) id true
                CharacterController.backgroundOptions w) as Hret.
  destruct (uploadWithFallback E cfg dir base (path bg) id true
              CharacterController.backgroundOptions w) as [[u|r|e] w1] eqn:Hrun;
    cbn [fst snd] in *; [|by destruct (Hret r)|];
    destruct (unlinkIfExists_gone (path bg) w1) as (w2 & Hu & Hdb2 & Hdisk2);
    eexists _, w2; (split; [eapply try_finally_run; [exact Hsoft|exact Hu]|]);
    (split; [congruence|]);
    (split; [intros g [= <-]; rewrite Hdisk2; apply lookup_delete_eq|]);
    (split; [done|]); (split; [done|]).
  - intros k Hk. by apply get_insert_ne.
  - done.
Qed.

End UpdateCases.

Section UpdateRuns.
Variable E : Env.
Variable cfg : BunnyConfig.
Variable dir : string.

(** Everything [updateCharacter] can do. *)
Lemma updateCharacter_cases (req : Request) (w : World) :
  let run := CharacterController.updateCharacter E cfg dir req w in
  match db_down E with
  | Some _ => run = (Ret {| status := 500; json := message "Server error" |}, w)
  | None =>
      match list_find (λ doc, Is_true (Character.has_id (params_id req) doc)) (db w) with
      | None => run = (Ret {| status := 404; json := message "Character not found" |}, w)
      | Some (i, found) =>
          ∃ w', db w' = db w
            ∧ ((run = (Ret {| status := 500;
                              json := message "Failed to upload updated image" |}, w')
                ∧ (∀ f, CharacterController.field req "image" ≫= head = Some f →
                        disk w' !! path f = None)
                ∧ ¬ no_file req "image")
               ∨ (∃ doc,
                    (∀ k, k ∉ assignedFields → Js.get doc k = Js.get found k)
                    ∧ (∀ g, CharacterController.field req "backgroundImage" ≫= head
                            = Some g →
                            disk w' !! path g = None)
                    ∧ (no_file req "backgroundImage" →
                       ∀ f, CharacterController.field req "image" ≫= head = Some f →
                            disk w' !! path f = None)
                    ∧ (∀ k, k ≠ "updatedAt" →
                            (k = "imageUrl" → no_file req "image") →
                            (k = "backgroundImageUrl" → no_file req "backgroundImage") →
                            Js.get doc k = Js.get (assigned E req found) k)
                    ∧ (no_file req "image" → no_file req "backgroundImage" →
                       w' = tick w
                       ∧ Js.get doc "updatedAt" = Js.Num (clock E (now_calls w)))
                    ∧ run = if db_accepts E doc
                            then (Ret {| status := 200;
                                         json :=
                                           CharacterController.transformedCharacter doc |},
                                  set_db (λ l, <[i := doc]> l) w')
                            else (Ret {| status := 500;
                                         json := message "Server error" |}, w')))
      end
  end.
Proof.
  intros run.
  assert (run = CharacterController.updateCharacter E cfg dir req w) as Hrun by done.
  clearbody run.
  unfold CharacterController.updateCharacter, CharacterController.updateCharacter_try,
    try_catch at 1 in Hrun.
  destruct (db_down E) as [e|] eqn:Hdown.
  { erewrite bind_exc in Hrun by (by apply findOne_down). exact Hrun. }
  destruct (list_find _ (db w)) as [[i found]|] eqn:Hfind;
    (erewrite (bind_val (Character.findOne _ _)) in Hrun;
     [|rewrite findOne_run by done; by rewrite Hfind]); [|exact Hrun].
  cbv beta iota zeta in Hrun.
  match type of Hrun with
  | context [CharacterController.assign_if "interests" ?v ?c] =>
      change (CharacterController.assign_if "interests" v c)
        with (assigned E req found) in Hrun
  end.
  set (c10 := assigned E req found) in Hrun.
  assert (∀ k, k ∉ updatableFields → Js.get c10 k = Js.get found k) as Hc10.
  { intros k Hk. by apply assigned_frame. }
  set (base := CharacterController.baseUrl req) in Hrun.
  destruct (update_profile_block E cfg dir base (params_id req) c10
              (CharacterController.field req "image" ≫= head) w)
    as (w1 & Hdb1 & Hdisk1 & Hsame1 & [(c1 & Hrun1 & Hid1 & Hc1)|[Hfile Hrun1]]).
  2:{ exists w1. split; [done|]. left. split; [|split; [exact Hdisk1|exact Hfile]].
      erewrite bind_ret in Hrun by exact Hrun1. exact Hrun. }
  destruct (update_background_block E cfg dir base (params_id req) c1
              (CharacterController.field req "backgroundImage" ≫= head) w1)
    as (c2 & w2 & Hrun2 & Hdb2 & Hdisk2 & Hnone2 & Hid2 & Hc2).
  erewrite bind_val in Hrun by exact Hrun1.
  erewrite bind_val in Hrun by exact Hrun2.
  erewrite bind_val in Hrun by reflexivity.
  exists (tick w2). split; [cbn [db tick]; congruence|]. right.
  exists (<["updatedAt" := Js.Num (clock E (now_calls w2))]> c2).
  split; [|split; [|split; [|split; [|split]]]].
  - intros k Hk. unfold assignedFields in Hk.
    apply not_elem_of_app in Hk as [Hk1 Hk2].
    repeat (apply not_elem_of_cons in Hk2 as [? Hk2]).
    rewrite get_insert_ne by done. rewrite Hc2, Hc1 by done. by apply Hc10.
  - intros g Hg. by apply Hdisk2.
  - intros Hno f Hf. cbn [disk tick]. rewrite (Hnone2 Hno). by apply Hdisk1.
  - intros k Hat Himg Hbg. rewrite get_insert_ne by done.
    destruct (decide (k = "backgroundImageUrl")) as [->|Hk2].
    + rewrite (Hid2 (Hbg eq_refl)). by apply Hc1.
    + rewrite Hc2 by done.
      destruct (decide (k = "imageUrl")) as [->|Hk1].
      * by rewrite (Hid1 (Himg eq_refl)).
      * by apply Hc1.
  - intros Himg Hbg. rewrite (Hnone2 Hbg), (Hsame1 Himg).
    split; [done|]. unfold Js.get. by rewrite lookup_insert_eq.
  - rewrite Hrun. unfold bind, Character.save.
    destruct (db_accepts E _); reflexivity.
Qed.

End UpdateRuns.

(** ** What an update keeps *)

Lemma num_to_string_nonempty (n : Z) : Js.num_to_string n ≠ "".
Proof.
  destruct n as [|p|p]; [done|apply (pretty_N_digits (N.pos p))|].
  unfold Js.num_to_string, pretty, pretty_Z. discriminate.
Qed.

(** A truthy value never becomes the empty string on a [String] path. *)
Lemma castString_nonempty v :
  Js.truthy v = true → Character.castString v ≠ Js.Str "".
Proof.
  destruct v as [| |b|n|s|l|l]; intros Hv; try done.
  - destruct b; done.
  - cbn [Character.castString Js.to_string]. intros [= H].
    by apply (num_to_string_nonempty n).
  - cbn [Character.castString]. intros [= ->]. cbn in Hv. discriminate Hv.
  - unfold Character.castString.
    destruct (Js.assoc "_id" l) as [| |b|n|s|l'|l']; try done.
    destruct (Js.truthy (Js.Str s)) eqn:Hs; [|done]. intros [= ->].
    cbn in Hs. discriminate Hs.
Qed.

(** A text field after the ten assignments. *)
Lemma assigned_string E req c k :
  k ∈ stringFields →
  Js.get (assigned E req c) k
  = if Js.truthy (Js.get (body req) k)
    then Character.castString (Js.get (body req) k)
    else Js.get c k.
Proof.
  intros Hk. unfold stringFields in Hk. unfold assigned. cbv zeta.
  repeat (apply elem_of_cons in Hk as [->|Hk]);
    [..|by apply elem_of_nil in Hk];
    rewrite ?get_assign_if_ne by done;
    unfold CharacterController.assign_if at 1;
    (destruct (Js.truthy (Js.get (body req) _));
     [unfold Js.get at 1; rewrite lookup_insert_eq; reflexivity
     |rewrite ?get_assign_if_ne by done; reflexivity]).
Qed.

Lemma updatable_not_url k :
  k ∈ updatableFields →
  k ≠ "updatedAt" ∧ k ≠ "imageUrl" ∧ k ≠ "backgroundImageUrl".
Proof.
  intros Hk. unfold updatableFields in Hk.
  repeat (apply elem_of_cons in Hk as [->|Hk]); [done..|by apply elem_of_nil in Hk].
Qed.

Lemma stringFields_updatable k : k ∈ stringFields → k ∈ updatableFields.
Proof.
  intros Hk. unfold stringFields in Hk.
  repeat (apply elem_of_cons in Hk as [->|Hk]); [..|by apply elem_of_nil in Hk];
    apply (bool_decide_unpack _); by_vm.
Qed.

Section UpdateKeeps.
Variable E : Env.
Variable cfg : BunnyConfig.
Variable dir : string.

(** What the document handed to [save()] keeps of the one found. *)
Lemma saved_document_kept (req : Request) (found doc : gmap string Js.value) :
  (∀ k, k ≠ "updatedAt" →
        (k = "imageUrl" → no_file req "image") →
        (k = "backgroundImageUrl" → no_file req "backgroundImage") →
        Js.get doc k = Js.get (assigned E req found) k) →
  kept req found doc
  ∧ ∀ k, k ∈ stringFields → Js.get doc k = Js.Str "" → Js.get found k = Js.Str "".
Proof.
  intros Hdoc. split; [split; [|split]|].
  - intros Hno. rewrite Hdoc by done. apply assigned_frame.
    apply (bool_decide_unpack _). by_vm.
  - intros Hno. rewrite Hdoc by done. apply assigned_frame.
    apply (bool_decide_unpack _). by_vm.
  - intros k Hk Hfalsy. destruct (updatable_not_url k Hk) as (? & ? & ?).
    rewrite Hdoc by done. by apply assigned_falsy.
  - intros k Hk.
    destruct (updatable_not_url k (stringFields_updatable k Hk)) as (? & ? & ?).
    rewrite Hdoc by done. rewrite assigned_string by done.
    destruct (Js.truthy (Js.get (body req) k)) eqn:Hv; [|done].
    intros Hempty. by destruct (castString_nonempty _ Hv).
Qed.

(** C10 (amended).  Through every update request, with or without
    files, whatever the answer, every document of the collection keeps its
    [imageUrl] unless the request carries a profile image file, its
    [backgroundImageUrl] unless the request carries a background image
    file, and the value it had in every updatable field that is absent or
    falsy (the empty string, for one) in the request body; and none of
    the eight text fields is ever set to the empty string.  And the
    update is not a no-op: for a request without files, when the
    character exists and the database accepts the document, the answer is
    status 200 and the saved document carries the new [updatedAt]. *)
Theorem update_keeps_absent_fields (req : Request) (w : World) :
  let run := CharacterController.updateCharacter E cfg dir req w in
  (∀ i old,
     db w !! i = Some old →
     ∃ new, db (snd run) !! i = Some new
       ∧ kept req old new
       ∧ ∀ k, k ∈ stringFields → Js.get new k = Js.Str "" → Js.get old k = Js.Str "")
  ∧ (∀ i old,
       no_file req "image" →
       no_file req "backgroundImage" →
       list_find (λ doc, Is_true (Character.has_id (params_id req) doc)) (db w)
       = Some (i, old) →
       (∀ doc, db_accepts E doc = true) →
       ∃ new,
         run = (Ret {| status := 200;
                       json := CharacterController.transformedCharacter new |},
                set_db (λ l, <[i := new]> l) (tick w))
         ∧ db (snd run) !! i = Some new
         ∧ Js.get new "updatedAt" = Js.Num (clock E (now_calls w))).
Proof.
  intros run. subst run.
  pose proof (updateCharacter_cases E cfg dir req w) as Hrun. cbv zeta in Hrun.
  assert (∀ old : gmap string Js.value,
            kept req old old
            ∧ ∀ k, k ∈ stringFields → Js.get old k = Js.Str "" → Js.get old k = Js.Str "")
    as Hsame.
  { intros old. split; [by repeat split|done]. }
  split.
  - intros j old Hj.
    destruct (db_down E); [rewrite Hrun; by exists old|].
    destruct (list_find _ (db w)) as [[i found]|] eqn:Hfind;
      [|rewrite Hrun; by exists old].
    apply list_find_Some in Hfind as (Hi & _ & _).
    assert (i < length (db w))%nat by (by eapply lookup_lt_Some).
    destruct Hrun as (w' & Hdb & [[-> _]|(doc & _ & _ & _ & Hdoc & _ & ->)]).
    { cbn [snd]. rewrite Hdb. by exists old. }
    destruct (db_accepts E doc); cbn [snd db set_db]; rewrite Hdb;
      [|by exists old].
    destruct (decide (j = i)) as [->|Hne].
    + exists doc. rewrite list_lookup_insert_eq by done.
      split; [done|]. simplify_eq. by apply saved_document_kept.
    + exists old. by rewrite list_lookup_insert_ne by done.
  - intros i old Himg Hbg Hfind Hall.
    rewrite (db_accepts_reachable E ∅ (Hall ∅)), Hfind in Hrun.
    apply list_find_Some in Hfind as (Hi & _ & _).
    assert (i < length (db w))%nat by (by eapply lookup_lt_Some).
    destruct Hrun as (w' & Hdb & [(_ & _ & Hfile)|(doc & _ & _ & _ & _ & Hat & Hrun)]);
      [by destruct Hfile|].
    destruct (Hat Himg Hbg) as [-> Hupdated].
    exists doc. rewrite Hrun, Hall. split; [done|]. split; [|done].
    cbn [snd db set_db tick]. by rewrite list_lookup_insert_eq by done.
Qed.

End UpdateKeeps.

(** Renaming the stored character with an empty [description] in the body:
    the description and both image URLs stay, [updatedAt] moves on. *)
Lemma update_keeps_absent_fields_witness :
  ∃ new,
    db (snd (CharacterController.updateCharacter Scenario.healthy Scenario.bunnyConfig
               Scenario.storageDir Scenario.renameRequest Scenario.stored)) !! 0%nat
    = Some new
    ∧ Js.get new "description" = Js.Str "d"
    ∧ Js.get new "imageUrl"
      = Js.Str "https://cdn.example/characters/5500000/profile-1700000000001.webp"
    ∧ Js.get new "backgroundImageUrl" = Js.Null
    ∧ Js.get new "updatedAt" = Js.Num 1700000000004.
Proof.
  destruct (update_keeps_absent_fields Scenario.healthy Scenario.bunnyConfig
              Scenario.storageDir Scenario.renameRequest Scenario.stored)
    as [Hkeep Hsave].
  destruct (Hsave 0%nat Scenario.storedCharacter eq_refl eq_refl
              ltac:(by_vm) ltac:(intros; reflexivity))
    as (new & _ & Hnew & Hat).
  destruct (Hkeep 0%nat Scenario.storedCharacter eq_refl)
    as (new' & Hnew' & (Himage & Hbackground & Hfields) & _).
  rewrite Hnew in Hnew'. injection Hnew' as <-.
  exists new. split; [exact Hnew|].
  split; [|split; [|split]].
  - rewrite (Hfields "description").
    + vm_compute. reflexivity.
    + apply (bool_decide_unpack _). by_vm.
    + by_vm.
  - rewrite (Himage eq_refl). vm_compute. reflexivity.
  - rewrite (Hbackground eq_refl). vm_compute. reflexivity.
  - exact Hat.
Defined.

(** The update with the body [{ traits: '[]' }] of a character with two
    traits is answered 200, and the character is saved without traits. *)
Lemma update_with_empty_list :
  let run := CharacterController.updateCharacter Scenario.healthy Scenario.bunnyConfig
               Scenario.storageDir Scenario.clearTraitsRequest Scenario.traited in
  answered (fst run) = Some 200
  ∧ (λ doc, Js.get doc "traits") <$> db Scenario.traited
    = [Js.Arr [Js.Str "kind"; Js.Str "funny"]]
  ∧ (λ doc, Js.get doc "traits") <$> db (snd run) = [Js.Arr []].
Proof. cbv zeta. repeat split; by_vm. Qed.

(** So "an update cannot clear a field to empty" fails for the two list
    fields: [[]] is truthy, and [JSON.parse('[]')] is [[]]. *)
Lemma update_clears_traits :
  ¬ update_cannot_clear Scenario.healthy Scenario.bunnyConfig Scenario.storageDir
      Scenario.clearTraitsRequest Scenario.traited.
Proof.
  intros H.
  specialize (H 0%nat Scenario.traitedCharacter
                (<["updatedAt" := Js.Num 1700000000004]>
                   (<["traits" := Js.Arr []]> Scenario.traitedCharacter))
                eq_refl ltac:(by_vm) "traits").
  specialize (H ltac:(apply (bool_decide_unpack _); by_vm) ltac:(by_vm)).
  vm_compute in H. discriminate H.
Qed.


(** ** The deleting handlers *)

Section DeleteCases.
Variable E : Env.

Lemma deleteCharacter_cases (req : Request) (w : World) :
  CharacterController.deleteCharacter E req w
  = match db_down E with
    | Some _ => (Ret {| status := 500; json := message "Server error" |}, w)
    | None =>
        match list_find (λ doc, Is_true (Character.has_id (params_id req) doc)) (db w) with
        | None => (Ret {| status := 404; json := message "Character not found" |}, w)
        | Some (i, old) =>
            let new := <["updatedAt" := Js.Num (clock E (now_calls w))]>
                         (<["isActive" := Js.Bool false]> old) in
            if db_accepts E new
            then (Ret {| status := 200; json := message "Character deleted successfully" |},
                  set_db (λ l, <[i := new]> l) (tick w))
            else (Ret {| status := 500; json := message "Server error" |}, tick w)
        end
    end.
Proof.
  unfold CharacterController.deleteCharacter, try_catch, bind, Character.findOne,
    Character.query.
  destruct (db_down E); [reflexivity|].
  destruct (list_find _ (db w)) as [[i old]|]; [|reflexivity].
  cbn [Sys.Date_now]. unfold Character.save.
  destruct (db_accepts E _); reflexivity.
Qed.

Lemma admin_deleteCharacter_cases (req : Request) (w : World) :
  AdminController.deleteCharacter E req w
  = match db_down E with
    | Some _ => (Ret {| status := 500; json := message "Server error" |}, w)
    | None =>
        match list_find (λ doc, Is_true (Character.has_id (params_id req) doc)) (db w) with
        | None => (Ret {| status := 404; json := message "Character not found" |}, w)
        | Some (i, old) =>
            let new := <["isActive" := Js.Bool false]> old in
            if db_accepts E new
            then (Ret {| status := 200; json := message "Character deleted successfully" |},
                  set_db (λ l, <[i := new]> l) w)
            else (Ret {| status := 500; json := message "Server error" |}, w)
        end
    end.
Proof.
  unfold AdminController.deleteCharacter, try_catch, bind, Character.findOne,
    Character.query.
  destruct (db_down E); [reflexivity|].
  destruct (list_find _ (db w)) as [[i old]|]; [|reflexivity].
  unfold Character.save. cbv zeta.
  destruct (db_accepts E _); reflexivity.
Qed.

(** [permanentDeleteCharacter]: a database that is not reached, no such
    character, or the first document with the id removed. *)
Lemma permanentDeleteCharacter_cases (req : Request) (w : World) :
  CharacterController.permanentDeleteCharacter E req w
  = match db_down E with
    | Some _ => (Ret {| status := 500; json := message "Server error" |}, w)
    | None =>
        match list_find (λ doc, Is_true (Character.has_id (params_id req) doc)) (db w) with
        | None => (Ret {| status := 404; json := message "Character not found" |}, w)
        | Some (i, _) =>
            (Ret {| status := 200; json := message "Character permanently deleted" |},
             set_db (delete i) w)
        end
    end.
Proof.
  unfold CharacterController.permanentDeleteCharacter, try_catch, bind,
    Character.findOne, Character.deleteOne, Character.query.
  destruct (db_down E); [reflexivity|].
  destruct (list_find _ (db w)) as [[i old]|] eqn:Hfind; [|reflexivity].
  cbn [db]. rewrite Hfind. reflexivity.
Qed.

End DeleteCases.

(** ** The collection keeps its ids apart *)

Lemma has_id_get s (a b : gmap string Js.value) :
  Js.get a "id" = Js.get b "id" → Character.has_id s a = Character.has_id s b.
Proof. unfold Character.has_id. by intros ->. Qed.

Lemma has_id_eq s id (doc : gmap string Js.value) :
  Js.get doc "id" = Js.Str id → Character.has_id s doc = true → s = id.
Proof.
  unfold Character.has_id. intros ->. intros H. by apply String.eqb_eq in H.
Qed.

Lemma existsb_has_id_false id (l : list (gmap string Js.value)) i a :
  existsb (Character.has_id id) l = false → l !! i = Some a →
  Character.has_id id a = false.
Proof.
  intros Hex Hi. destruct (Character.has_id id a) eqn:Ha; [|done].
  assert (existsb (Character.has_id id) l = true) as Ht; [|congruence].
  apply existsb_exists. exists a. split; [|done].
  apply list_elem_of_In. by eapply list_elem_of_lookup_2.
Qed.

Lemma unique_ids_snoc l doc id :
  unique_ids l → Js.get doc "id" = Js.Str id →
  existsb (Character.has_id id) l = false →
  unique_ids (l ++ [doc]).
Proof.
  intros Hu Hid Hfresh i j a b s Hi Hj Ha Hb.
  apply lookup_snoc_Some in Hi as [[Hil Hi]|[-> <-]];
    apply lookup_snoc_Some in Hj as [[Hjl Hj]|[-> <-]].
  - by eapply Hu.
  - apply (has_id_eq _ _ _ Hid) in Hb as ->.
    by rewrite (existsb_has_id_false _ _ _ _ Hfresh Hi) in Ha.
  - apply (has_id_eq _ _ _ Hid) in Ha as ->.
    by rewrite (existsb_has_id_false _ _ _ _ Hfresh Hj) in Hb.
  - done.
Qed.

Lemma unique_ids_insert (l : list (gmap string Js.value)) i old new :
  unique_ids l → l !! i = Some old → Js.get new "id" = Js.get old "id" →
  unique_ids (<[i := new]> l).
Proof.
  intros Hu Hold Hid j k a b s Hj Hk Ha Hb.
  assert (∀ n x, <[i := new]> l !! n = Some x →
                 ∃ y, l !! n = Some y ∧ Character.has_id s y = Character.has_id s x)
    as Hback.
  { intros n x Hn. destruct (decide (n = i)) as [->|Hne].
    - rewrite list_lookup_insert_eq in Hn by (by eapply lookup_lt_Some).
      injection Hn as <-. exists old. split; [done|]. symmetry. by apply has_id_get.
    - rewrite list_lookup_insert_ne in Hn by done. by exists x. }
  destruct (Hback _ _ Hj) as (a' & Hj' & Ha').
  destruct (Hback _ _ Hk) as (b' & Hk' & Hb').
  eapply (Hu j k a' b' s); congruence.
Qed.

Lemma unique_ids_delete (l : list (gmap string Js.value)) i :
  unique_ids l → unique_ids (delete i l).
Proof.
  intros Hu j k a b s Hj Hk Ha Hb.
  destruct (decide (j < i)%nat), (decide (k < i)%nat).
  - rewrite list_lookup_delete_lt in Hj, Hk by done. by eapply Hu.
  - rewrite list_lookup_delete_lt in Hj by done.
    rewrite list_lookup_delete_ge in Hk by lia.
    pose proof (Hu _ _ _ _ _ Hj Hk Ha Hb). lia.
  - rewrite list_lookup_delete_ge in Hj by lia.
    rewrite list_lookup_delete_lt in Hk by done.
    pose proof (Hu _ _ _ _ _ Hj Hk Ha Hb). lia.
  - rewrite list_lookup_delete_ge in Hj, Hk by lia.
    pose proof (Hu _ _ _ _ _ Hj Hk Ha Hb). lia.
Qed.

Section Invariant.
Variable E : Env.
Variable cfg : BunnyConfig.
Variable dir : string.

(** Every handler that writes to the collection keeps the ids of its
    documents pairwise distinct: [createCharacter] through the unique
    index, [updateCharacter] and the two soft deletes because they never
    assign [id], [permanentDeleteCharacter] because it only removes. *)
Theorem handlers_keep_ids_unique (req : Request) (w : World) :
  unique_ids (db w) →
  unique_ids (db (snd (CharacterController.createCharacter E cfg dir req w)))
  ∧ unique_ids (db (snd (CharacterController.updateCharacter E cfg dir req w)))
  ∧ unique_ids (db (snd (CharacterController.deleteCharacter E req w)))
  ∧ unique_ids (db (snd (AdminController.deleteCharacter E req w)))
  ∧ unique_ids (db (snd (CharacterController.permanentDeleteCharacter E req w))).
Proof.
  intros Hu. split; [|split; [|split; [|split]]].
  - destruct (createCharacter_cases E cfg dir req w)
      as [[msg ->]|[[_ ->]|(doc & w' & Hid & _ & Hdb & _ & ->)]]; [done..|].
    destruct (db_accepts E doc); cbn [andb]; [|cbn [snd]; by rewrite Hdb].
    destruct (existsb _ (db w)) eqn:Hfresh; cbn [negb snd db set_db];
      rewrite Hdb; [done|]. by eapply unique_ids_snoc.
  - pose proof (updateCharacter_cases E cfg dir req w) as H. cbv zeta in H.
    destruct (db_down E); [by rewrite H|].
    destruct (list_find _ (db w)) as [[i found]|] eqn:Hfind; [|by rewrite H].
    apply list_find_Some in Hfind as (Hi & _ & _).
    destruct H as (w' & Hdb & [[-> _]|(doc & Hkeep & _ & _ & _ & _ & ->)]);
      [cbn [snd]; by rewrite Hdb|].
    destruct (db_accepts E doc); cbn [snd db set_db]; rewrite Hdb; [|done].
    eapply unique_ids_insert; [done..|]. apply Hkeep.
    apply (bool_decide_unpack _). by_vm.
  - rewrite deleteCharacter_cases. destruct (db_down E); [done|].
    destruct (list_find _ (db w)) as [[i old]|] eqn:Hfind; [|done].
    apply list_find_Some in Hfind as (Hi & _ & _). cbv zeta.
    destruct (db_accepts E _); cbn [snd db set_db tick]; [|done].
    eapply unique_ids_insert; [done..|]. by rewrite !get_insert_ne.
  - rewrite admin_deleteCharacter_cases. destruct (db_down E); [done|].
    destruct (list_find _ (db w)) as [[i old]|] eqn:Hfind; [|done].
    apply list_find_Some in Hfind as (Hi & _ & _). cbv zeta.
    destruct (db_accepts E _); cbn [snd db set_db]; [|done].
    eapply unique_ids_insert; [done..|]. by rewrite !get_insert_ne.
  - rewrite permanentDeleteCharacter_cases. destruct (db_down E); [done|].
    destruct (list_find _ (db w)) as [[i old]|]; [|done].
    cbn [snd db set_db]. by apply unique_ids_delete.
Qed.

End Invariant.

(** ** What a create request leaves behind *)

Section CreateFacts.
Variable E : Env.
Variable cfg : BunnyConfig.
Variable dir : string.

(** [createCharacter] always answers, and the collection changes exactly
    when the answer is 201: then one document is appended, the one sent
    back, active, accepted by the database, under an id no earlier
    document carries.  On every other answer the collection is what it
    was. *)
Theorem createCharacter_appends_on_201 (req : Request) (w : World) :
  let run := CharacterController.createCharacter E cfg dir req w in
  ∃ r, fst run = Ret r
    ∧ if status r =? 201
      then ∃ doc id,
             json r = CharacterController.transformedCharacter doc
             ∧ db (snd run) = db w ++ [doc]
             ∧ Js.get doc "id" = Js.Str id
             ∧ existsb (Character.has_id id) (db w) = false
             ∧ Character.is_active doc = true
             ∧ db_accepts E doc = true
      else db (snd run) = db w.
Proof.
  intros run. subst run.
  destruct (createCharacter_cases E cfg dir req w)
    as [[msg ->]|[[Hr Hdb]|(doc & w' & Hid & Hact & Hdb & _ & ->)]].
  - by eexists.
  - eexists. split; [exact Hr|done].
  - destruct (db_accepts E doc) eqn:Hacc; cbn [andb]; [|by eexists].
    destruct (existsb _ (db w)) eqn:Hfresh; cbn [negb]; [by eexists|].
    eexists. split; [reflexivity|]. cbn [status Z.eqb Pos.eqb json snd db set_db].
    eexists doc, _. repeat split; try done.
    + by rewrite Hdb.
    + unfold Character.is_active. by rewrite Hact.
Qed.

(** Once the profile image is stored, [createCharacter] removes the
    staged files whatever comes after: on a 201 and on the 500 of a
    refused document, no file of the request is left under its staged
    path. *)
Theorem createCharacter_unlinks_staged_files (req : Request) (w : World) f :
  let run := CharacterController.createCharacter E cfg dir req w in
  staged_file req f →
  answered (fst run) = Some 201
  ∨ fst run = Ret {| status := 500; json := message "Server error" |} →
  disk (snd run) !! path f = None.
Proof.
  intros run Hf Hans. subst run.
  destruct (createCharacter_cases E cfg dir req w)
    as [[msg Hrun]|[[Hr Hdb]|(doc & w' & _ & _ & _ & Hgone & Hrun)]].
  - rewrite Hrun in Hans. by destruct Hans.
  - rewrite Hr in Hans. by destruct Hans.
  - rewrite Hrun. destruct (_ && _); cbn [snd disk set_db]; by apply Hgone.
Qed.

(** A character just created can be read back: after a 201, the public
    [getCharacterById] for the id sent back answers 200 with the very
    object the 201 carried, and changes nothing. *)
Theorem create_then_get (req : Request) (w : World) r w' :
  CharacterController.createCharacter E cfg dir req w = (Ret r, w') →
  status r = 201 →
  ∃ id, Js.prop (json r) "id" = Some (Js.Str id)
    ∧ ∀ req', params_id req' = id →
        CharacterController.getCharacterById E req' w'
        = (Ret {| status := 200; json := json r |}, w').
Proof.
  intros Hrun Hst.
  destruct (createCharacter_cases E cfg dir req w)
    as [[msg Hc]|[[Hc _]|(doc & w0 & Hid & Hact & Hdb & _ & Hc)]];
    rewrite Hrun in Hc.
  - injection Hc as -> _. done.
  - injection Hc as ->. done.
  - destruct (db_accepts E doc) eqn:Hacc; cbn [andb] in Hc;
      [|injection Hc as -> _; done].
    destruct (existsb _ (db w)) eqn:Hfresh; cbn [negb] in Hc;
      injection Hc as -> ->; [done|].
    cbn [json db set_db].
    exists (CharacterController.shortId (random E (random_calls w)) (clock E (now_calls w))).
    split.
    + unfold CharacterController.transformedCharacter, Js.prop, Js.assoc. cbn.
      by rewrite Hid.
    + intros req' Hreq.
      unfold CharacterController.getCharacterById, try_catch, bind,
        Character.findOne_active, Character.query.
      rewrite (db_accepts_reachable E doc Hacc).
      cbn [db set_db]. rewrite Hreq, Hdb.
      assert (list_find
                (λ d, Is_true (Character.has_id
                                 (CharacterController.shortId (random E (random_calls w))
                                    (clock E (now_calls w))) d
                               && Character.is_active d))
                (db w ++ [doc]) = Some (length (db w), doc)) as ->; [|done].
      apply list_find_Some. split; [|split].
      * by apply list_lookup_middle.
      * unfold Character.is_active. rewrite Hact, andb_true_r.
        unfold Character.has_id. rewrite Hid. by rewrite String.eqb_refl.
      * intros j y Hj Hlt. rewrite lookup_app_l in Hj by done.
        rewrite (existsb_has_id_false _ _ _ _ Hfresh Hj). intros [].
Qed.

End CreateFacts.

(** With everything working, the staged profile image of
    [Scenario.createRequest] is gone after the 201. *)
Lemma createCharacter_unlinks_staged_files_witness :
  disk (snd (CharacterController.createCharacter Scenario.healthy Scenario.bunnyConfig
               Scenario.storageDir Scenario.createRequest Scenario.staged))
    !! path Scenario.profileFile = None.
Proof.
  apply (createCharacter_unlinks_staged_files Scenario.healthy Scenario.bunnyConfig
           Scenario.storageDir Scenario.createRequest Scenario.staged Scenario.profileFile).
  - left. by_vm.
  - left. by_vm.
Defined.

(** The character created from [Scenario.createRequest] is served by
    [GET /api/characters/:id] under the id the 201 carried. *)
Lemma create_then_get_witness :
  ∃ id,
    Js.prop (CharacterController.transformedCharacter Scenario.storedCharacter) "id"
    = Some (Js.Str id)
    ∧ ∀ req', params_id req' = id →
        CharacterController.getCharacterById Scenario.healthy req' Scenario.stored
        = (Ret {| status := 200;
                  json := CharacterController.transformedCharacter Scenario.storedCharacter |},
           Scenario.stored).
Proof.
  exact (create_then_get Scenario.healthy Scenario.bunnyConfig Scenario.storageDir
           Scenario.createRequest Scenario.staged
           {| status := 201;
              json := CharacterController.transformedCharacter Scenario.storedCharacter |}
           Scenario.stored ltac:(by_vm) eq_refl).
Defined.

(** ** What update and delete requests leave behind *)

Section UpdateFacts.
Variable E : Env.
Variable cfg : BunnyConfig.
Variable dir : string.

(** [updateCharacter] writes to one document at most, the first one
    carrying the id of the request; the collection keeps its length and
    every document keeps all fields outside the thirteen the handler
    assigns, among them [id], [createdAt] and [isActive].  This holds for
    every request, with or without files, and every outcome. *)
Theorem updateCharacter_touches_one_document (req : Request) (w : World) :
  let run := CharacterController.updateCharacter E cfg dir req w in
  length (db (snd run)) = length (db w)
  ∧ ∀ j old, db w !! j = Some old →
      ∃ new, db (snd run) !! j = Some new
        ∧ (∀ k, k ∉ assignedFields → Js.get new k = Js.get old k)
        ∧ (Character.has_id (params_id req) old = false → new = old).
Proof.
  intros run. subst run.
  pose proof (updateCharacter_cases E cfg dir req w) as H. cbv zeta in H.
  destruct (db_down E).
  { rewrite H. split; [done|]. intros j old Hj. by exists old. }
  destruct (list_find _ (db w)) as [[i found]|] eqn:Hfind.
  2:{ rewrite H. split; [done|]. intros j old Hj. by exists old. }
  apply list_find_Some in Hfind as (Hi & Hid & _).
  destruct H as (w' & Hdb & [[-> _]|(doc & Hkeep & _ & _ & _ & _ & ->)]).
  { cbn [snd]. rewrite Hdb. split; [done|]. intros j old Hj. by exists old. }
  destruct (db_accepts E doc); cbn [snd db set_db]; rewrite Hdb.
  2:{ split; [done|]. intros j old Hj. by exists old. }
  split; [by rewrite length_insert|].
  intros j old Hj. destruct (decide (j = i)) as [->|Hne].
  - exists doc. rewrite list_lookup_insert_eq by (by eapply lookup_lt_Some).
    simplify_eq. split; [done|]. split; [done|].
    intros Hno. rewrite Hno in Hid. by destruct Hid.
  - exists old. by rewrite list_lookup_insert_ne.
Qed.

(** The staged files of an update.  When the lookup of the character is
    answered and finds it, a request that carries a profile image only
    leaves no staged file behind, whatever the storage backends do and
    whether or not the document is saved; and the staged background file
    is removed on every answer that comes after its block, the 200 and
    the 500 of a refused document.  When the lookup is rejected, or finds
    no character, the handler answers 500 or 404 before any of its
    [finally] blocks: nothing is unlinked, the world is what it was. *)
Theorem updateCharacter_unlinks_staged_files (req : Request) (w : World) :
  let run := CharacterController.updateCharacter E cfg dir req w in
  match db_down E,
        list_find (λ doc, Is_true (Character.has_id (params_id req) doc)) (db w) with
  | None, Some _ =>
      (∀ f, CharacterController.field req "image" ≫= head = Some f →
            no_file req "backgroundImage" →
            disk (snd run) !! path f = None)
      ∧ (∀ g, CharacterController.field req "backgroundImage" ≫= head = Some g →
              answered (fst run) = Some 200
              ∨ fst run = Ret {| status := 500; json := message "Server error" |} →
              disk (snd run) !! path g = None)
  | None, None =>
      run = (Ret {| status := 404; json := message "Character not found" |}, w)
  | Some _, _ =>
      run = (Ret {| status := 500; json := message "Server error" |}, w)
  end.
Proof.
  intros run. subst run.
  pose proof (updateCharacter_cases E cfg dir req w) as H. cbv zeta in H.
  destruct (db_down E); [exact H|].
  destruct (list_find _ (db w)) as [[i found]|]; [|exact H].
  destruct H as (w' & Hdb & [[-> [Hgone _]]|(doc & _ & Hbg & Himg & _ & _ & ->)]).
  - split.
    + intros f Hf _. by apply Hgone.
    + intros g _ [?|?]; done.
  - split.
    + intros f Hf Hno. destruct (db_accepts E doc); cbn [snd disk set_db]; by apply Himg.
    + intros g Hg _. destruct (db_accepts E doc); cbn [snd disk set_db]; by apply Hbg.
Qed.

End UpdateFacts.

Section Hide.
Variable E : Env.

Lemma has_id_refl id (doc : gmap string Js.value) :
  Js.get doc "id" = Js.Str id → Character.has_id id doc = true.
Proof. unfold Character.has_id. intros ->. apply String.eqb_refl. Qed.

(** What either soft delete leaves when it answers 200: the document
    found is replaced by an inactive one with the same id. *)
Lemma soft_delete_200 (req : Request) (w : World) r w' :
  CharacterController.deleteCharacter E req w = (Ret r, w')
  ∨ AdminController.deleteCharacter E req w = (Ret r, w') →
  status r = 200 →
  db_down E = None
  ∧ ∃ i old new,
      db w !! i = Some old
      ∧ Character.has_id (params_id req) old = true
      ∧ Character.has_id (params_id req) new = true
      ∧ Character.is_active new = false
      ∧ db w' = <[i := new]> (db w).
Proof.
  intros Hrun Hst.
  rewrite deleteCharacter_cases, admin_deleteCharacter_cases in Hrun.
  destruct (db_down E).
  { destruct Hrun as [[= <- <-]|[= <- <-]]; done. }
  split; [done|].
  destruct (list_find _ (db w)) as [[i old]|] eqn:Hfind.
  2:{ destruct Hrun as [[= <- <-]|[= <- <-]]; done. }
  apply list_find_Some in Hfind as (Hi & Hid & _).
  apply Is_true_true in Hid.
  cbv zeta in Hrun.
  destruct Hrun as [Hrun|Hrun];
    destruct (db_accepts E _); injection Hrun as <- <-; try done;
    eexists i, old, _; (split; [done|]); (split; [done|]);
    (split; [|split; [|reflexivity]]).
  - erewrite has_id_get; [exact Hid|]. by rewrite !get_insert_ne.
  - unfold Character.is_active. rewrite get_insert_ne by done.
    unfold Js.get. by rewrite lookup_insert_eq.
  - erewrite has_id_get; [exact Hid|]. by rewrite !get_insert_ne.
  - unfold Character.is_active. unfold Js.get. by rewrite lookup_insert_eq.
Qed.

(** After a soft delete through either endpoint, in a collection with
    distinct ids, the character is gone for the public
    [getCharacterById], which answers 404, while the admin
    [getCharacterById] still finds it. *)
Theorem soft_delete_hides (req : Request) (w : World) r w' :
  unique_ids (db w) →
  CharacterController.deleteCharacter E req w = (Ret r, w')
  ∨ AdminController.deleteCharacter E req w = (Ret r, w') →
  status r = 200 →
  CharacterController.getCharacterById E req w'
  = (Ret {| status := 404; json := message "Character not found" |}, w')
  ∧ answered (fst (AdminController.getCharacterById E req w')) = Some 200.
Proof.
  intros Hu Hrun Hst.
  destruct (soft_delete_200 req w r w' Hrun Hst)
    as (Hdown & i & old & new & Hi & Hold & Hnew & Hinactive & Hdb).
  assert (i < length (db w))%nat as Hlt by (by eapply lookup_lt_Some).
  split.
  - unfold CharacterController.getCharacterById, try_catch, bind,
      Character.findOne_active, Character.query.
    rewrite Hdown, Hdb.
    assert (list_find (λ doc, Is_true (Character.has_id (params_id req) doc
                                        && Character.is_active doc))
              (<[i := new]> (db w)) = None) as ->; [|done].
    apply list_find_None, Forall_lookup. intros j y Hj.
    destruct (decide (j = i)) as [->|Hne].
    + rewrite list_lookup_insert_eq in Hj by done. injection Hj as <-.
      rewrite Hinactive, andb_false_r. intros [].
    + rewrite list_lookup_insert_ne in Hj by done.
      destruct (Character.has_id (params_id req) y) eqn:Hy; [|intros []].
      destruct Hne. by eapply (Hu j i y old).
  - unfold AdminController.getCharacterById, try_catch, bind, Character.findOne,
      Character.query.
    rewrite Hdown, Hdb.
    destruct (list_find_elem_of
                (λ doc, Is_true (Character.has_id (params_id req) doc))
                (<[i := new]> (db w)) new) as [[k found] ->].
    + eapply list_elem_of_lookup_2. by apply list_lookup_insert_eq.
    + by rewrite Hnew.
    + reflexivity.
Qed.

End Hide.

(** [permanentDeleteCharacter] touches the collection only: no storage
    request is made and the disk is left alone, so the stored images of
    the character stay where they are.  On a 200 one document is gone, on
    any other answer nothing changed.  When the database is reached and
    the ids of the collection are distinct, no document with the id of
    the request remains; when it is not reached, the answer is 500 and
    the collection is what it was. *)
Theorem permanentDelete_effect (E : Env) (req : Request) (w : World) :
  let run := CharacterController.permanentDeleteCharacter E req w in
  trace (snd run) = trace w
  ∧ disk (snd run) = disk w
  ∧ (answered (fst run) = Some 200 → S (length (db (snd run))) = length (db w))
  ∧ (answered (fst run) ≠ Some 200 → snd run = w)
  ∧ (db_down E = None → unique_ids (db w) →
     existsb (Character.has_id (params_id req)) (db (snd run)) = false)
  ∧ (∀ e, db_down E = Some e →
     run = (Ret {| status := 500; json := message "Server error" |}, w)).
Proof.
  intros run. subst run. rewrite permanentDeleteCharacter_cases.
  destruct (db_down E) as [e|].
  { cbn [fst snd answered status]. repeat split; done. }
  destruct (list_find _ (db w)) as [[i old]|] eqn:Hfind; cbn [fst snd].
  - apply list_find_Some in Hfind as (Hi & Hid & _). apply Is_true_true in Hid.
    assert (i < length (db w))%nat as Hlt by (by eapply lookup_lt_Some).
    split; [done|]. split; [done|]. split; [|split; [|split; [|done]]].
    + intros _. cbn [db set_db]. rewrite length_delete by done. lia.
    + intros H. by destruct H.
    + intros _ Hu. cbn [db set_db].
      apply not_true_is_false. intros Hex.
      apply existsb_exists in Hex as (y & Hy & Hyid).
      apply list_elem_of_In, list_elem_of_lookup in Hy as [j Hj].
      destruct (decide (j < i)%nat).
      * rewrite list_lookup_delete_lt in Hj by done.
        pose proof (Hu _ _ _ _ _ Hj Hi Hyid Hid). lia.
      * rewrite list_lookup_delete_ge in Hj by lia.
        pose proof (Hu _ _ _ _ _ Hj Hi Hyid Hid). lia.
  - split; [done|]. split; [done|]. split; [done|]. split; [done|].
    split; [|done].
    intros _ _. apply list_find_None in Hfind.
    apply not_true_is_false. intros Hex.
    apply existsb_exists in Hex as (y & Hy & Hyid).
    apply list_elem_of_In in Hy.
    rewrite Forall_forall in Hfind. apply (Hfind y Hy). by rewrite Hyid.
Qed.

(** Renaming the stored character leaves it where it was, under the id
    it had. *)
Lemma updateCharacter_touches_one_document_witness :
  ∃ new,
    db (snd (CharacterController.updateCharacter Scenario.healthy Scenario.bunnyConfig
               Scenario.storageDir Scenario.renameRequest Scenario.stored)) !! 0%nat
    = Some new
    ∧ Js.get new "id" = Js.get Scenario.storedCharacter "id".
Proof.
  destruct (updateCharacter_touches_one_document Scenario.healthy Scenario.bunnyConfig
              Scenario.storageDir Scenario.renameRequest Scenario.stored) as [_ H].
  destruct (H 0%nat Scenario.storedCharacter eq_refl) as (new & Hnew & Hkeep & _).
  exists new. split; [exact Hnew|].
  apply Hkeep. apply (bool_decide_unpack _). by_vm.
Defined.

(** With both backends down, the update that carries a new profile image
    is refused, and its staged file is gone all the same.  With MongoDB
    out of reach the same request is answered 500 and its staged file is
    still there. *)
Lemma updateCharacter_unlinks_staged_files_witness :
  disk (snd (CharacterController.updateCharacter Scenario.both_down Scenario.bunnyConfig
               Scenario.storageDir Scenario.newFaceRequest Scenario.stored))
    !! path Scenario.secondFile = None
  ∧ CharacterController.updateCharacter Scenario.db_unreachable Scenario.bunnyConfig
      Scenario.storageDir Scenario.newFaceRequest Scenario.stored
    = (Ret {| status := 500; json := message "Server error" |}, Scenario.stored)
  ∧ disk Scenario.stored !! path Scenario.secondFile = Some [Byte.x89; Byte.x47].
Proof.
  split; [|split; [|by_vm]].
  - pose proof (updateCharacter_unlinks_staged_files Scenario.both_down
                  Scenario.bunnyConfig Scenario.storageDir Scenario.newFaceRequest
                  Scenario.stored) as H.
    cbv zeta in H.
    change (db_down Scenario.both_down) with (@None string) in H.
    replace (list_find _ (db Scenario.stored))
      with (Some (0%nat, Scenario.storedCharacter)) in H by by_vm.
    destruct H as [H _]. apply H; [by_vm|unfold no_file; by_vm].
  - exact (updateCharacter_unlinks_staged_files Scenario.db_unreachable
             Scenario.bunnyConfig Scenario.storageDir Scenario.newFaceRequest
             Scenario.stored).
Defined.

(** The ids of a collection of two characters are distinct. *)
Lemma crowded_unique : unique_ids (db Scenario.crowded).
Proof.
  intros i j a b s Hi Hj Ha Hb.
  change (db Scenario.crowded)
    with [Scenario.storedCharacter; Scenario.otherCharacter] in Hi, Hj.
  assert (Js.get Scenario.storedCharacter "id" = Js.Str "5500000") as Hfirst by by_vm.
  assert (Js.get Scenario.otherCharacter "id" = Js.Str "1234567") as Hsecond by by_vm.
  destruct i as [|[|i]], j as [|[|j]]; try done;
    cbn in Hi, Hj; simplify_eq.
  - pose proof (has_id_eq s _ _ Hfirst Ha). pose proof (has_id_eq s _ _ Hsecond Hb).
    congruence.
  - pose proof (has_id_eq s _ _ Hsecond Ha). pose proof (has_id_eq s _ _ Hfirst Hb).
    congruence.
Qed.

(** In a collection of two characters, an update of the first one with
    new texts and a new profile image, and a second create request whose
    id is taken by the first character, leave the two ids distinct: the
    update saves the document under the id it had, the create request is
    stopped by the unique index. *)
Lemma handlers_keep_ids_unique_witness :
  unique_ids (db (snd (CharacterController.updateCharacter Scenario.healthy
                         Scenario.bunnyConfig Scenario.storageDir
                         Scenario.busyRequest Scenario.crowded)))
  ∧ answered (fst (CharacterController.updateCharacter Scenario.healthy
                     Scenario.bunnyConfig Scenario.storageDir
                     Scenario.busyRequest Scenario.crowded)) = Some 200
  ∧ unique_ids (db (snd (CharacterController.createCharacter Scenario.slow_clock
                           Scenario.bunnyConfig Scenario.storageDir
                           Scenario.secondRequest Scenario.crowded)))
  ∧ length (db (snd (CharacterController.updateCharacter Scenario.healthy
                       Scenario.bunnyConfig Scenario.storageDir
                       Scenario.busyRequest Scenario.crowded))) = 2%nat.
Proof.
  destruct (handlers_keep_ids_unique Scenario.healthy Scenario.bunnyConfig
              Scenario.storageDir Scenario.busyRequest Scenario.crowded crowded_unique)
    as (_ & Hupdate & _).
  destruct (handlers_keep_ids_unique Scenario.slow_clock Scenario.bunnyConfig
              Scenario.storageDir Scenario.secondRequest Scenario.crowded crowded_unique)
    as (Hcreate & _).
  split; [exact Hupdate|]. split; [by_vm|]. split; [exact Hcreate|by_vm].
Defined.

(** After [DELETE /api/characters/5500000] the character is hidden from
    the app and still there for the dashboard. *)
Lemma soft_delete_hides_witness :
  CharacterController.getCharacterById Scenario.healthy Scenario.deleteRequest
    Scenario.deleted
  = (Ret {| status := 404; json := message "Character not found" |}, Scenario.deleted)
  ∧ answered (fst (AdminController.getCharacterById Scenario.healthy
                     Scenario.deleteRequest Scenario.deleted))
    = Some 200.
Proof.
  apply (soft_delete_hides Scenario.healthy Scenario.deleteRequest Scenario.stored
           {| status := 200; json := message "Character deleted successfully" |}
           Scenario.deleted).
  - intros i j a b s Hi Hj _ _.
    change (db Scenario.stored) with [Scenario.storedCharacter] in Hi, Hj.
    apply list_lookup_singleton_Some in Hi as [-> _].
    apply list_lookup_singleton_Some in Hj as [-> _].
    reflexivity.
  - left. by_vm.
  - reflexivity.
Defined.

(** Deleting the first of two characters for good leaves the other one,
    logs no storage request, and no document carries the id any more;
    with MongoDB out of reach the same request is answered 500 and both
    documents stay. *)
Lemma permanentDelete_effect_witness :
  db (snd (CharacterController.permanentDeleteCharacter Scenario.healthy
             Scenario.deleteRequest Scenario.crowded))
  = [Scenario.otherCharacter]
  ∧ trace (snd (CharacterController.permanentDeleteCharacter Scenario.healthy
                  Scenario.deleteRequest Scenario.crowded))
    = trace Scenario.crowded
  ∧ existsb (Character.has_id "5500000")
      (db (snd (CharacterController.permanentDeleteCharacter Scenario.healthy
                  Scenario.deleteRequest Scenario.crowded)))
    = false
  ∧ CharacterController.permanentDeleteCharacter Scenario.db_unreachable
      Scenario.deleteRequest Scenario.crowded
    = (Ret {| status := 500; json := message "Server error" |}, Scenario.crowded).
Proof.
  destruct (permanentDelete_effect Scenario.healthy Scenario.deleteRequest
              Scenario.crowded) as (Htrace & _ & _ & _ & Hgone & _).
  destruct (permanentDelete_effect Scenario.db_unreachable Scenario.deleteRequest
              Scenario.crowded) as (_ & _ & _ & _ & _ & Hdown).
  split; [by_vm|]. split; [exact Htrace|]. split.
  - apply Hgone; [reflexivity|]. apply crowded_unique.
  - exact (Hdown _ eq_refl).
Defined.

(** ** Listings *)

Lemma newer_first_total : Total Character.newer_first.
Proof.
  intros a b. unfold Character.newer_first, Character.newer_firstb.
  destruct (Character.createdAt a) as [x|], (Character.createdAt b) as [y|];
    cbn; try tauto.
  destruct (Z.leb_spec y x); [by left|]. right. apply Is_true_true, Z.leb_le. lia.
Qed.

Lemma newer_first_trans : Transitive Character.newer_first.
Proof.
  intros a b c. unfold Character.newer_first, Character.newer_firstb.
  destruct (Character.createdAt a) as [x|], (Character.createdAt b) as [y|],
    (Character.createdAt c) as [z|]; cbn; try tauto.
  rewrite !Is_true_true, !Z.leb_le. lia.
Qed.

Lemma find_sorted_spec E (filter : gmap string Js.value → bool) (w : World) :
  db_down E = None →
  ∃ l, Character.find_sorted E filter w = (Val l, w)
       ∧ l ≡ₚ List.filter filter (db w)
       ∧ StronglySorted Character.newer_first l.
Proof.
  intros Hdown. eexists. split; [|split].
  - unfold Character.find_sorted. rewrite query_run, Hdown. reflexivity.
  - apply merge_sort_Permutation.
  - apply StronglySorted_merge_sort; [apply newer_first_trans|apply newer_first_total].
Qed.

Lemma filter_all {A} (l : list A) : List.filter (λ _, true) l = l.
Proof. induction l as [|x l IH]; [done|]. cbn. by rewrite IH. Qed.

(** The two listings.  When the database answers, the public
    [getAllCharacters] sends the active documents of the collection, each
    one once, arranged so that no document stands before one created
    later; the admin [getAllCharacters] sends all documents, inactive
    ones included, in the same arrangement.  When the query is rejected,
    both answer 500.  Neither changes anything. *)
Theorem getAllCharacters_lists (E : Env) (req : Request) (w : World) :
  match db_down E with
  | None =>
      (∃ l, CharacterController.getAllCharacters E req w
            = (Ret {| status := 200;
                      json := Js.Arr (CharacterController.listedCharacter <$> l) |}, w)
            ∧ l ≡ₚ List.filter Character.is_active (db w)
            ∧ StronglySorted Character.newer_first l)
      ∧ (∃ l, AdminController.getAllCharacters E req w
              = (Ret {| status := 200;
                        json := Js.Arr (AdminController.json_of
                                          <$> (AdminController.plainCharacter
                                                 (CharacterController.baseUrl req)
                                                 <$> l)) |}, w)
              ∧ l ≡ₚ db w
              ∧ StronglySorted Character.newer_first l)
  | Some _ =>
      CharacterController.getAllCharacters E req w
      = (Ret {| status := 500; json := message "Server error" |}, w)
      ∧ AdminController.getAllCharacters E req w
        = (Ret {| status := 500; json := message "Server error" |}, w)
  end.
Proof.
  destruct (db_down E) as [e|] eqn:Hdown.
  { unfold CharacterController.getAllCharacters, AdminController.getAllCharacters,
      try_catch, bind, Character.find_sorted.
    rewrite !query_run, Hdown. done. }
  split.
  - destruct (find_sorted_spec E Character.is_active w Hdown)
      as (l & Hrun & Hperm & Hsorted).
    exists l. split; [|done].
    unfold CharacterController.getAllCharacters. apply try_catch_ret.
    erewrite bind_val by exact Hrun. reflexivity.
  - destruct (find_sorted_spec E (λ _, true) w Hdown) as (l & Hrun & Hperm & Hsorted).
    exists l. split; [|split; [|done]].
    + unfold AdminController.getAllCharacters. apply try_catch_ret.
      erewrite bind_val by exact Hrun. reflexivity.
    + by rewrite filter_all in Hperm.
Qed.

(** With MongoDB out of reach both listings answer 500; with the database
    at work the public listing of the two characters answers 200. *)
Lemma getAllCharacters_lists_witness :
  (CharacterController.getAllCharacters Scenario.db_unreachable Scenario.deleteRequest
     Scenario.crowded
   = (Ret {| status := 500; json := message "Server error" |}, Scenario.crowded)
   ∧ AdminController.getAllCharacters Scenario.db_unreachable Scenario.deleteRequest
       Scenario.crowded
     = (Ret {| status := 500; json := message "Server error" |}, Scenario.crowded))
  ∧ ∃ l, CharacterController.getAllCharacters Scenario.healthy Scenario.deleteRequest
           Scenario.crowded
         = (Ret {| status := 200;
                   json := Js.Arr (CharacterController.listedCharacter <$> l) |},
            Scenario.crowded)
         ∧ length l = 2%nat.
Proof.
  split.
  - exact (getAllCharacters_lists Scenario.db_unreachable Scenario.deleteRequest
             Scenario.crowded).
  - destruct (getAllCharacters_lists Scenario.healthy Scenario.deleteRequest
                Scenario.crowded) as [(l & Hrun & Hperm & _) _].
    exists l. split; [exact Hrun|].
    apply Permutation_length in Hperm. rewrite Hperm. by_vm.
Defined.

(** ** The admin view of a character *)

Lemma truthy_url (s1 s2 : string) (c : Ascii.ascii) :
  Js.truthy (Js.Str (s1 +:+ String c s2)) = true.
Proof. cbn [Js.truthy]. by destruct s1. Qed.

Lemma entry_None k (l : list (string * Js.value)) :
  k ∉ l.*1 → Js.entry k l = None.
Proof.
  induction l as [|[k' x] l IH]; [done|].
  cbn [fmap list_fmap fst Js.entry]. intros [Hne Hk]%not_elem_of_cons.
  rewrite (IH Hk). destruct (String.eqb_spec k' k); congruence.
Qed.

Lemma entry_Some k v (l : list (string * Js.value)) :
  NoDup l.*1 → (k, v) ∈ l → Js.entry k l = Some v.
Proof.
  induction l as [|[k' x] l IH]; [by intros _ ?%elem_of_nil|].
  cbn [fmap list_fmap fst Js.entry].
  intros [Hk' Hnd]%NoDup_cons [[= -> ->]|Hin]%elem_of_cons.
  - rewrite (entry_None _ _ Hk'). by rewrite String.eqb_refl.
  - by rewrite (IH Hnd Hin).
Qed.

Lemma assoc_map_to_list (o : gmap string Js.value) k :
  Js.assoc k (map_to_list o) = Js.get o k.
Proof.
  unfold Js.assoc, Js.get. f_equal.
  destruct (o !! k) as [x|] eqn:Hk.
  - apply entry_Some; [apply NoDup_fst_map_to_list|]. by apply elem_of_map_to_list.
  - apply entry_None.
    intros [[k' x] [Heq Hin]]%list_elem_of_fmap. cbn in Heq. subst k'.
    apply elem_of_map_to_list in Hin. congruence.
Qed.

(** The fields of [plainCharacter]. *)
Lemma plainCharacter_get (base : string) (char : gmap string Js.value) k :
  Js.get (AdminController.plainCharacter base char) k
  = if bool_decide (k ∈ ["imageData"; "backgroundImageData"]) then Js.Undefined
    else if bool_decide (k = "imageUrl") && negb (Js.truthy (Js.get char k))
    then Js.Str (base +:+ "/api/characters/" +:+ Js.to_string (Js.get char "id")
                   +:+ "/image")
    else if bool_decide (k = "backgroundImageUrl") && negb (Js.truthy (Js.get char k))
    then Js.Str (base +:+ "/api/characters/" +:+ Js.to_string (Js.get char "id")
                   +:+ "/background")
    else Js.get char k.
Proof.
  unfold AdminController.plainCharacter.
  set (p0 := delete "backgroundImageData" (delete "imageData" char)).
  assert (∀ k, k ∉ ["imageData"; "backgroundImageData"] → Js.get p0 k = Js.get char k)
    as Hp0.
  { intros k' Hk. repeat (apply not_elem_of_cons in Hk as [? Hk]).
    subst p0. unfold Js.get. by rewrite !lookup_delete_ne. }
  assert (∀ k, k ∈ ["imageData"; "backgroundImageData"] → Js.get p0 k = Js.Undefined)
    as Hd.
  { intros k' Hk. repeat (apply elem_of_cons in Hk as [->|Hk]);
      [..|by apply elem_of_nil in Hk]; subst p0; unfold Js.get.
    - rewrite lookup_delete_ne by done. by rewrite lookup_delete_eq.
    - by rewrite lookup_delete_eq. }
  clearbody p0.
  cbv zeta.
  rewrite (Hp0 "imageUrl") by (apply (bool_decide_unpack _); by_vm).
  set (u1 := Js.Str (base +:+ "/api/characters/" +:+ Js.to_string (Js.get char "id")
                       +:+ "/image")).
  set (u2 := Js.Str (base +:+ "/api/characters/" +:+ Js.to_string (Js.get char "id")
                       +:+ "/background")).
  assert (Js.truthy u1 = true) as Hu1 by apply truthy_url.
  assert (Js.truthy u2 = true) as Hu2 by apply truthy_url.
  assert (Character.cast "imageUrl" u1 = u1) as Hc1 by reflexivity.
  assert (Character.cast "backgroundImageUrl" u2 = u2) as Hc2 by reflexivity.
  clearbody u1 u2.
  assert (∀ p : gmap string Js.value,
            (if negb (Js.truthy (Js.get char "imageUrl")) then <["imageUrl" := u1]> p else p)
            = CharacterController.assign_if "imageUrl"
                (if Js.truthy (Js.get char "imageUrl") then Js.Undefined else u1) p) as Hp1.
  { intros p. unfold CharacterController.assign_if.
    destruct (Js.truthy (Js.get char "imageUrl")); cbn [negb Js.truthy]; [done|].
    by rewrite Hu1, Hc1. }
  rewrite !Hp1.
  set (p1 := CharacterController.assign_if "imageUrl" _ p0).
  assert (Js.get p1 "backgroundImageUrl" = Js.get char "backgroundImageUrl") as Hbg.
  { subst p1. rewrite get_assign_if_ne by done.
    apply Hp0, (bool_decide_unpack _). by_vm. }
  rewrite Hbg.
  assert (∀ p : gmap string Js.value,
            (if negb (Js.truthy (Js.get char "backgroundImageUrl"))
             then <["backgroundImageUrl" := u2]> p else p)
            = CharacterController.assign_if "backgroundImageUrl"
                (if Js.truthy (Js.get char "backgroundImageUrl") then Js.Undefined else u2) p)
    as Hp2.
  { intros p. unfold CharacterController.assign_if.
    destruct (Js.truthy (Js.get char "backgroundImageUrl")); cbn [negb Js.truthy]; [done|].
    by rewrite Hu2, Hc2. }
  rewrite Hp2.
  case_bool_decide as Hbin.
  { assert (k ≠ "imageUrl" ∧ k ≠ "backgroundImageUrl") as [? ?].
    { repeat (apply elem_of_cons in Hbin as [->|Hbin]); [done..|by apply elem_of_nil in Hbin]. }
    subst p1. rewrite !get_assign_if_ne by done. by apply Hd. }
  destruct (decide (k = "imageUrl")) as [->|Hk1].
  { rewrite bool_decide_eq_true_2 by done. cbn [andb].
    rewrite get_assign_if_ne by done. subst p1. unfold CharacterController.assign_if.
    destruct (Js.truthy (Js.get char "imageUrl")) eqn:Hi; cbn [negb Js.truthy].
    - by apply Hp0.
    - rewrite Hu1, Hc1. unfold Js.get. by rewrite lookup_insert_eq. }
  rewrite (bool_decide_eq_false_2 (k = "imageUrl")) by done. cbn [andb].
  destruct (decide (k = "backgroundImageUrl")) as [->|Hk2].
  { rewrite bool_decide_eq_true_2 by done. cbn [andb].
    unfold CharacterController.assign_if at 1.
    destruct (Js.truthy (Js.get char "backgroundImageUrl")) eqn:Hi; cbn [negb Js.truthy].
    - exact Hbg.
    - rewrite Hu2, Hc2. unfold Js.get. by rewrite lookup_insert_eq. }
  rewrite (bool_decide_eq_false_2 (k = "backgroundImageUrl")) by done. cbn [andb].
  subst p1. rewrite !get_assign_if_ne by done. by apply Hp0.
Qed.

(** The object the admin endpoints send for a character always has a
    truthy [imageUrl] and [backgroundImageUrl]: a stored URL is passed
    on, a missing one (the [null] background of a character created
    without one, say) is replaced by a URL under [/api/characters].  The
    binary fields are never sent and every other field is sent as
    stored. *)
Theorem admin_view_has_urls (base : string) (char : gmap string Js.value) :
  let sent := AdminController.json_of (AdminController.plainCharacter base char) in
  let field k := default Js.Undefined (Js.prop sent k) in
  Js.truthy (field "imageUrl") = true
  ∧ Js.truthy (field "backgroundImageUrl") = true
  ∧ field "imageData" = Js.Undefined
  ∧ field "backgroundImageData" = Js.Undefined
  ∧ ∀ k, k ∉ ["imageData"; "backgroundImageData"] →
         (k ∈ ["imageUrl"; "backgroundImageUrl"] → Js.truthy (Js.get char k) = true) →
         field k = Js.get char k.
Proof.
  intros sent field.
  assert (∀ k, field k = Js.get (AdminController.plainCharacter base char) k) as Hfield.
  { intros k. subst field sent. unfold AdminController.json_of. cbn [Js.prop default].
    apply assoc_map_to_list. }
  rewrite !Hfield. setoid_rewrite Hfield. clear Hfield. clearbody field. clear field sent.
  rewrite !plainCharacter_get. setoid_rewrite plainCharacter_get.
  split; [|split; [|split; [|split]]].
  - assert (bool_decide ("imageUrl" ∈ ["imageData"; "backgroundImageData"]) = false)
      as -> by by_vm.
    rewrite bool_decide_eq_true_2 by done. cbn [andb].
    destruct (Js.truthy (Js.get char "imageUrl")) eqn:Hi; cbn [negb]; [done|].
    apply truthy_url.
  - assert (bool_decide ("backgroundImageUrl" ∈ ["imageData"; "backgroundImageData"])
            = false) as -> by by_vm.
    rewrite (bool_decide_eq_false_2 ("backgroundImageUrl" = "imageUrl")) by done.
    rewrite bool_decide_eq_true_2 by done. cbn [andb].
    destruct (Js.truthy (Js.get char "backgroundImageUrl")) eqn:Hi; cbn [negb]; [done|].
    apply truthy_url.
  - rewrite bool_decide_eq_true_2; [done|]. apply (bool_decide_unpack _). by_vm.
  - rewrite bool_decide_eq_true_2; [done|]. apply (bool_decide_unpack _). by_vm.
  - intros k Hk Hurl. rewrite bool_decide_eq_false_2 by done.
    case_bool_decide as H1.
    { rewrite Hurl by (subst k; apply (bool_decide_unpack _); by_vm). cbn [negb andb].
      rewrite bool_decide_eq_false_2 by (subst k; done). done. }
    cbn [andb]. case_bool_decide as H2; [|done].
    rewrite Hurl by (subst k; apply (bool_decide_unpack _); by_vm). done.
Qed.

(** The stored character has an image URL, which the dashboard gets as
    it is. *)
Lemma admin_view_has_urls_witness :
  default Js.Undefined
    (Js.prop (AdminController.json_of
                (AdminController.plainCharacter "http://localhost:3000"
                   Scenario.storedCharacter)) "imageUrl")
  = Js.get Scenario.storedCharacter "imageUrl".
Proof.
  destruct (admin_view_has_urls "http://localhost:3000" Scenario.storedCharacter)
    as (_ & _ & _ & _ & H).
  apply (H "imageUrl").
  - apply (bool_decide_unpack _). by_vm.
  - intros _. by_vm.
Defined.

(** ** Admin authentication *)

Lemma env_or_nonempty x (c : Ascii.ascii) (s : string) :
  AdminController.env_or x (String c s) ≠ "".
Proof.
  unfold AdminController.env_or. destruct x as [k|]; [|done].
  destruct (String.eqb_spec k ""); done.
Qed.

Lemma is_string_true v s : Js.is_string v s = true ↔ v = Js.Str s.
Proof.
  unfold Js.is_string. destruct v; try (split; [done|congruence]).
  rewrite String.eqb_eq. split; congruence.
Qed.

Lemma truthy_str s : s ≠ "" → Js.truthy (Js.Str s) = true.
Proof. intros H. cbn. by destruct s. Qed.

(** [adminAuth] as a decision.  The check [!apiKey] never decides: the
    configured key is not empty. *)
Lemma adminAuth_run (K : option string) (q h c : Js.value) (w : World) :
  Auth.adminAuth K q h c w
  = if Js.is_string (Js.or (Js.or q h) c) (AdminController.env_or K "leome-admin-key")
    then (Val tt, w)
    else (Ret {| status := 401;
                 json := message "Unauthorized. Please provide a valid API key." |}, w).
Proof.
  unfold Auth.adminAuth.
  destruct (Js.is_string _ _) eqn:His; [|by rewrite orb_true_r].
  apply is_string_true in His. rewrite His.
  by rewrite truthy_str by apply env_or_nonempty.
Qed.

(** [adminAuth] lets a request through exactly when the first truthy
    value among the query parameter, the header and the cookie is the
    configured key; every other request is answered 401 and nothing
    changes.  A wrong key in the query string therefore shuts out a right
    one in the header. *)
Theorem adminAuth_accepts_iff (K : option string) (q h c : Js.value) (w : World) :
  let key := AdminController.env_or K "leome-admin-key" in
  (Js.or (Js.or q h) c = Js.Str key → Auth.adminAuth K q h c w = (Val tt, w))
  ∧ (Js.or (Js.or q h) c ≠ Js.Str key →
     Auth.adminAuth K q h c w
     = (Ret {| status := 401;
               json := message "Unauthorized. Please provide a valid API key." |}, w)).
Proof.
  intros key. rewrite adminAuth_run. fold key. split.
  - intros ->. unfold Js.is_string. by rewrite String.eqb_refl.
  - intros Hne. destruct (Js.is_string _ key) eqn:His; [|done].
    by apply is_string_true in His.
Qed.

(** The key handed out by a successful [login] opens [adminAuth] under
    the same configuration, sent as header or as query parameter; and
    [login] answers 200 only to the configured name and password, given
    as strings. *)
Theorem login_key_passes_adminAuth (U P K : option string) (req : Request)
    (w : World) r w' :
  AdminController.login U P K req w = (Ret r, w') →
  status r = 200 →
  Js.get (body req) "username" = Js.Str (AdminController.env_or U "admin")
  ∧ Js.get (body req) "password" = Js.Str (AdminController.env_or P "admin123")
  ∧ w' = w
  ∧ ∃ key, json r = Js.Obj [("apiKey", Js.Str key)]
      ∧ ∀ w0, Auth.adminAuth K Js.Undefined (Js.Str key) Js.Undefined w0 = (Val tt, w0)
              ∧ Auth.adminAuth K (Js.Str key) Js.Undefined Js.Undefined w0 = (Val tt, w0).
Proof.
  unfold AdminController.login. intros Hrun Hst.
  destruct (Js.is_string (Js.get (body req) "username") _) eqn:Hu; cbn [andb] in Hrun.
  2:{ injection Hrun as <- <-. done. }
  destruct (Js.is_string (Js.get (body req) "password") _) eqn:Hp.
  2:{ injection Hrun as <- <-. done. }
  injection Hrun as <- <-.
  apply is_string_true in Hu, Hp.
  split; [done|]. split; [done|]. split; [done|].
  eexists. split; [reflexivity|]. intros w0.
  pose proof (truthy_str _ (env_or_nonempty K "l" "eome-admin-key")) as Htr.
  split; rewrite adminAuth_run; unfold Js.or;
    change (Js.truthy Js.Undefined) with false; cbv iota; rewrite ?Htr;
    unfold Js.is_string; by rewrite String.eqb_refl.
Qed.

Section Validate.
Variable E : Env.

(** [validateAdmin] as a decision: 500 without a configured key, 401
    unless the header, or else the query parameter, is that key, and
    otherwise the request goes on with the admin user stamped with the
    clock. *)
Lemma validateAdmin_cases (K : option string) (q h : Js.value) (w : World) :
  AuthMiddleware.validateAdmin E K q h w
  = match K with
    | Some key =>
        if String.eqb key ""
        then (Ret {| status := 500;
                     json := Js.Obj [("status", Js.Str "error");
                                     ("message", Js.Str "Server configuration error")] |}, w)
        else if Js.is_string (Js.or h q) key
        then (Val (Js.Obj [("username", Js.Str "admin"); ("role", Js.Str "admin");
                           ("timestamp", Js.Num (clock E (now_calls w)))]), tick w)
        else (Ret {| status := 401;
                     json := Js.Obj [("status", Js.Str "error");
                                     ("message", Js.Str "Unauthorized - invalid API key")] |},
              w)
    | None =>
        (Ret {| status := 500;
                json := Js.Obj [("status", Js.Str "error");
                                ("message", Js.Str "Server configuration error")] |}, w)
    end.
Proof.
  unfold AuthMiddleware.validateAdmin, try_catch.
  destruct K as [key|]; [|reflexivity].
  destruct (String.eqb key ""); [reflexivity|].
  destruct (Js.is_string _ key); reflexivity.
Qed.

(** The two admin gates.  With a key configured and no cookie sent,
    [adminAuth] and [validateAdmin] let the same requests through as long
    as header and query parameter do not compete: one of them is falsy,
    or they are equal.  (When they compete, [adminAuth] reads the query
    parameter and [validateAdmin] the header.) *)
Theorem admin_gates_agree (key : string) (q h : Js.value) (w : World) :
  key ≠ "" →
  Js.truthy q = false ∨ Js.truthy h = false ∨ q = h →
  (Auth.adminAuth (Some key) q h Js.Undefined w = (Val tt, w)
   ↔ ∃ user, AuthMiddleware.validateAdmin E (Some key) q h w = (Val user, tick w)).
Proof.
  intros Hkey Hqh.
  rewrite validateAdmin_cases.
  assert (AdminController.env_or (Some key) "leome-admin-key" = key) as Henv.
  { unfold AdminController.env_or. by destruct (String.eqb_spec key ""). }
  destruct (String.eqb_spec key "") as [|_]; [done|].
  assert (Js.is_string (Js.or h q) key
          = Js.is_string (Js.or (Js.or q h) Js.Undefined) key) as ->.
  { unfold Js.or.
    destruct (Js.truthy q) eqn:Hq, (Js.truthy h) eqn:Hh; rewrite ?Hq, ?Hh; try done.
    - destruct Hqh as [?|[?|Heq]]; [done..|by rewrite Heq].
    - apply not_true_is_false. intros Ht. apply is_string_true in Ht as ->.
      cbn in Hq. by destruct key. }
  rewrite adminAuth_run, Henv.
  destruct (Js.is_string _ key) eqn:His.
  - split; [by eexists|done].
  - split; [done|]. by intros [user ?].
Qed.

End Validate.

(** ** Local files *)

Section LocalFiles.
Variable E : Env.
Variable dir : string.

(** What [saveFile] stores, [deleteFile] takes away: after a successful
    save the bytes are on disk under the local path of the key and the
    URL returned is [/images/] plus the key; deleting the key then
    answers [true] and leaves the disk as it was before the save, this
    path excepted; deleting once more changes nothing on disk. *)
Theorem saveFile_then_deleteFile (buf : Buffer) (key : string) (w : World) url w1 :
  LocalStorageService.saveFile E dir buf key w = (Val url, w1) →
  let file := LocalStorageService.getLocalPath dir key in
  url = "/images/" +:+ normalizedPath key
  ∧ disk w1 !! file = Some buf
  ∧ ∃ w2, LocalStorageService.deleteFile dir key w1 = (Val true, w2)
          ∧ disk w2 = delete file (disk w)
          ∧ db w2 = db w
          ∧ ∃ w3, LocalStorageService.deleteFile dir key w2 = (Val true, w3)
                  ∧ disk w3 = disk w2.
Proof.
  intros Hsave file.
  assert (∀ w0, ∃ w', LocalStorageService.deleteFile dir key w0 = (Val true, w')
                      ∧ disk w' = delete file (disk w0) ∧ db w' = db w0) as Hdel.
  { intros w0. unfold LocalStorageService.deleteFile, try_catch. cbv zeta. fold file.
    change (bind (Sys.existsSync file)
              (λ present, bind (when present (Sys.unlinkSync file)) (λ _, ret true)))
      with (bind (CharacterController.unlinkIfExists file) (λ _, ret true)).
    destruct (unlinkIfExists_gone file w0) as (w' & Hu & Hdb & Hdisk).
    exists w'. erewrite bind_val by exact Hu. done. }
  unfold LocalStorageService.saveFile, try_catch, bind, Sys.existsSync in Hsave.
  fold file in Hsave.
  assert (disk w1 = <[file := buf]> (disk w) ∧ db w1 = db w
          ∧ url = LocalStorageService.getPublicUrl key) as (Hdisk1 & Hdb1 & ->).
  { destruct (present (dirname file) w); cbn [negb when] in Hsave.
    - unfold ret, Sys.writeFile in Hsave.
      destruct (writeFileSync E file); [done|]. by injection Hsave as <- <-.
    - unfold Sys.mkdir in Hsave. destruct (mkdirSync E _); [done|].
      unfold Sys.writeFile in Hsave.
      destruct (writeFileSync E file); [done|]. by injection Hsave as <- <-. }
  split; [reflexivity|]. split; [rewrite Hdisk1; apply lookup_insert_eq|].
  destruct (Hdel w1) as (w2 & Hrun2 & Hdisk2 & Hdb2).
  exists w2. split; [done|]. split; [|split; [congruence|]].
  - rewrite Hdisk2, Hdisk1. apply delete_insert_eq.
  - destruct (Hdel w2) as (w3 & Hrun3 & Hdisk3 & _).
    exists w3. split; [done|]. rewrite Hdisk3, Hdisk2. apply delete_delete_eq.
Qed.

End LocalFiles.

(** Without [ADMIN_API_KEY] the fallback key in the header opens the
    gate; a guess in the query string closes it again. *)
Lemma adminAuth_accepts_iff_witness :
  Auth.adminAuth None Js.Undefined (Js.Str "leome-admin-key") Js.Undefined Scenario.stored
  = (Val tt, Scenario.stored)
  ∧ Auth.adminAuth None (Js.Str "guess") (Js.Str "leome-admin-key") Js.Undefined
      Scenario.stored
    = (Ret {| status := 401;
              json := message "Unauthorized. Please provide a valid API key." |},
       Scenario.stored).
Proof.
  split.
  - destruct (adminAuth_accepts_iff None Js.Undefined (Js.Str "leome-admin-key")
                Js.Undefined Scenario.stored) as [H _].
    apply H. reflexivity.
  - destruct (adminAuth_accepts_iff None (Js.Str "guess") (Js.Str "leome-admin-key")
                Js.Undefined Scenario.stored) as [_ H].
    apply H. vm_compute. discriminate.
Defined.

(** Logging in with the fallback credentials and using the key. *)
Lemma login_key_passes_adminAuth_witness :
  ∃ key,
    Auth.adminAuth None Js.Undefined (Js.Str key) Js.Undefined Scenario.stored
    = (Val tt, Scenario.stored).
Proof.
  destruct (login_key_passes_adminAuth None None None Scenario.loginRequest
              Scenario.stored
              {| status := 200; json := Js.Obj [("apiKey", Js.Str "leome-admin-key")] |}
              Scenario.stored ltac:(by_vm) eq_refl)
    as (_ & _ & _ & key & _ & H).
  exists key. apply H.
Defined.

(** The key in the header alone: both gates open. *)
Lemma admin_gates_agree_witness :
  Auth.adminAuth (Some "secret") Js.Undefined (Js.Str "secret") Js.Undefined Scenario.stored
  = (Val tt, Scenario.stored)
  ↔ ∃ user,
      AuthMiddleware.validateAdmin Scenario.healthy (Some "secret") Js.Undefined
        (Js.Str "secret") Scenario.stored
      = (Val user, tick Scenario.stored).
Proof.
  apply (admin_gates_agree Scenario.healthy "secret" Js.Undefined (Js.Str "secret")
           Scenario.stored).
  - discriminate.
  - left. reflexivity.
Defined.

(** Saving two bytes under a key puts them at the local path of the key. *)
Lemma saveFile_then_deleteFile_witness :
  disk (snd (LocalStorageService.saveFile Scenario.healthy Scenario.storageDir
               [Byte.x89; Byte.x50] "characters/1/profile-1.webp" Scenario.staged))
    !! "/app/public/images/characters/1/profile-1.webp"
  = Some [Byte.x89; Byte.x50].
Proof.
  destruct (saveFile_then_deleteFile Scenario.healthy Scenario.storageDir
              [Byte.x89; Byte.x50] "characters/1/profile-1.webp" Scenario.staged
              "/images/characters/1/profile-1.webp"
              (snd (LocalStorageService.saveFile Scenario.healthy Scenario.storageDir
                      [Byte.x89; Byte.x50] "characters/1/profile-1.webp" Scenario.staged))
              ltac:(by_vm)) as (_ & H & _).
  exact H.
Defined.

(** ** Ids and storage keys *)

Lemma pretty_N_go_upper (k : nat) (x : N) s :
  (x < 10 ^ N.of_nat k)%N →
  (String.length (pretty_N_go x s) ≤ String.length s + k)%nat.
Proof.
  revert x s. induction k as [|k IH]; intros x s Hx.
  - assert (x = 0%N) as -> by (cbn in Hx; lia). rewrite pretty_N_go_0. lia.
  - destruct (N.eq_0_gt_0_cases x) as [->|Hpos].
    + rewrite pretty_N_go_0. lia.
    + rewrite pretty_N_go_step by done.
      etrans; [apply IH|cbn; lia].
      rewrite Nat2N.inj_succ, N.pow_succ_r' in Hx.
      apply N.Div0.div_lt_upper_bound. lia.
Qed.

Lemma pretty_N_go_lower (k : nat) (x : N) s :
  (10 ^ N.of_nat k ≤ x)%N →
  (String.length s + S k ≤ String.length (pretty_N_go x s))%nat.
Proof.
  revert x s. induction k as [|k IH]; intros x s Hx.
  - rewrite pretty_N_go_step by (cbn in Hx; lia).
    etrans; [|apply pretty_N_go_length]. cbn. lia.
  - rewrite Nat2N.inj_succ, N.pow_succ_r' in Hx.
    rewrite pretty_N_go_step by lia.
    etrans; [|apply IH].
    + cbn. lia.
    + apply N.div_le_lower_bound; lia.
Qed.

(** The number of digits of a positive number between two powers of ten. *)
Lemma num_to_string_length (k : nat) (n : Z) :
  10 ^ Z.of_nat k ≤ n < 10 ^ Z.of_nat (S k) →
  String.length (Js.num_to_string n) = S k.
Proof.
  intros [Hlo Hhi].
  assert (0 < 10 ^ Z.of_nat k) by (apply Z.pow_pos_nonneg; lia).
  unfold Js.num_to_string, pretty, pretty_Z.
  destruct n as [|p|p]; [lia| |lia].
  change (String.length (pretty (N.pos p)) = S k).
  unfold pretty, pretty_N. case_decide; [done|].
  assert (10 ^ N.of_nat k ≤ N.pos p)%N as Hlo'.
  { apply N2Z.inj_le. rewrite N2Z.inj_pow, nat_N_Z. exact Hlo. }
  assert (N.pos p < 10 ^ N.of_nat (S k))%N as Hhi'.
  { apply N2Z.inj_lt. rewrite N2Z.inj_pow, nat_N_Z. exact Hhi. }
  pose proof (pretty_N_go_upper (S k) (N.pos p) "" Hhi').
  pose proof (pretty_N_go_lower k (N.pos p) "" Hlo').
  cbn [String.length] in *. lia.
Qed.

Lemma num_to_string_length_le (k : nat) (n : Z) :
  0 < n < 10 ^ Z.of_nat k →
  (1 ≤ String.length (Js.num_to_string n) ≤ k)%nat.
Proof.
  intros [Hlo Hhi].
  unfold Js.num_to_string, pretty, pretty_Z.
  destruct n as [|p|p]; [lia| |lia].
  change (1 ≤ String.length (pretty (N.pos p)) ≤ k)%nat.
  unfold pretty, pretty_N. case_decide; [done|].
  assert (N.pos p < 10 ^ N.of_nat k)%N as Hhi'.
  { apply N2Z.inj_lt. rewrite N2Z.inj_pow, nat_N_Z. exact Hhi. }
  pose proof (pretty_N_go_upper k (N.pos p) "" Hhi').
  pose proof (pretty_N_go_lower 0 (N.pos p) "" ltac:(cbn; lia)).
  cbn [String.length] in *. lia.
Qed.

Lemma string_app_inj_length s1 s2 t1 t2 :
  String.length s1 = String.length s2 → s1 +:+ t1 = s2 +:+ t2 → s1 = s2 ∧ t1 = t2.
Proof.
  revert s2. induction s1 as [|a s1 IH]; intros [|b s2] Hlen Heq; try done.
  injection Heq as -> Heq. injection Hlen as Hlen.
  destruct (IH _ Hlen Heq) as [-> ->]. done.
Qed.

(** When two generated ids coincide.  For readings of [Math.random()] in
    [0, 1), the random part [Math.floor(100000 + Math.random() * 900000)],
    computed in doubles, lies between 100000 and 999999, and two ids are
    equal exactly when their random parts are equal and the two clock
    readings agree modulo 10000: the id carries nothing else.  For a
    clock reading after the epoch an id has between seven and ten
    characters. *)
Theorem shortId_equal_iff (random now random' now' : Z) :
  0 ≤ random < 2 ^ 53 → 0 ≤ random' < 2 ^ 53 →
  100000 ≤ CharacterController.randomNum random ≤ 999999
  ∧ (CharacterController.shortId random now = CharacterController.shortId random' now'
     ↔ CharacterController.randomNum random = CharacterController.randomNum random'
       ∧ Z.rem now 10000 = Z.rem now' 10000)
  ∧ (0 ≤ now →
     (7 ≤ String.length (CharacterController.shortId random now) ≤ 10)%nat).
Proof.
  intros Hr Hr'. unfold CharacterController.shortId. cbv zeta.
  pose proof (randomNum_range _ Hr) as H1.
  pose proof (randomNum_range _ Hr') as H1'.
  pose proof (num_to_string_length 5 _ H1) as Hlen.
  pose proof (num_to_string_length 5 _ H1') as Hlen'.
  split; [lia|]. split; [split|].
  - intros Heq. apply string_app_inj_length in Heq as [Ha Hb]; [|congruence].
    apply (inj pretty) in Ha. apply (inj pretty) in Hb. done.
  - intros [-> ->]. done.
  - intros Hnow. rewrite string_length_app, Hlen.
    assert (0 ≤ Z.rem now 10000 < 10000) as Hrem by (apply Z.rem_bound_pos; lia).
    destruct (decide (Z.rem now 10000 = 0)) as [->|Hne].
    + cbn. lia.
    + pose proof (num_to_string_length_le 4 (Z.rem now 10000) ltac:(lia)). lia.
Qed.

Lemma slashless_split a a' x x' :
  after_slash a = None → after_slash a' = None →
  a +:+ String "/" x = a' +:+ String "/" x' → a = a' ∧ x = x'.
Proof.
  revert a'. induction a as [|c a IH]; intros [|c' a'] Ha Ha' Heq.
  - by injection Heq as ->.
  - injection Heq as <- _. cbn in Ha'. done.
  - injection Heq as -> _. cbn in Ha. done.
  - injection Heq as -> Heq. cbn [after_slash] in Ha, Ha'.
    destruct (Ascii.eqb c' "/"); [done|].
    destruct (IH a' Ha Ha' Heq) as [-> ->]. done.
Qed.

(** A storage key names its owner, its role and its timestamp: for
    character ids without a slash (generated ids are digits), two keys
    are equal only if they were built for the same character, the same
    role and the same clock reading.  A background upload can therefore
    never take the place of a profile image, nor an upload for one
    character that of another. *)
Theorem filePath_names_its_owner id isBg t id' isBg' t' :
  after_slash id = None → after_slash id' = None →
  filePath id isBg t = filePath id' isBg' t' →
  id = id' ∧ isBg = isBg' ∧ t = t'.
Proof.
  intros Hid Hid' Heq. unfold filePath in Heq.
  apply (inj (String.append "characters/")) in Heq.
  apply (slashless_split id id') in Heq as [-> Heq]; [|done..].
  split; [done|].
  destruct isBg, isBg'; try (cbn in Heq; discriminate); (split; [done|]);
    unfold imageType in Heq;
    do 2 apply (inj (String.append _)) in Heq;
    apply string_app_inj_r in Heq; by apply (inj pretty) in Heq.
Qed.

(** The reading [300239975158 / 2^53], where the sum rounds up to
    100030, and the reading [300239975157 / 2^53] give different ids at
    one clock reading; the first one gives the same id ten seconds
    later. *)
Lemma shortId_equal_iff_witness :
  CharacterController.randomNum 300239975158 = 100030
  ∧ CharacterController.shortId 300239975158 1700000000000
    ≠ CharacterController.shortId 300239975157 1700000000000
  ∧ CharacterController.shortId 300239975158 1700000000000
    = CharacterController.shortId 300239975158 1700000010000.
Proof.
  split; [by_vm|]. split.
  - destruct (shortId_equal_iff 300239975158 1700000000000 300239975157 1700000000000)
      as (_ & H & _); [lia..|].
    intros Heq. apply H in Heq as [Heq _]. vm_compute in Heq. discriminate Heq.
  - destruct (shortId_equal_iff 300239975158 1700000000000 300239975158 1700000010000)
      as (_ & H & _); [lia..|].
    apply H. split; reflexivity.
Defined.

(** The profile key and the background key of one character at one
    instant differ. *)
Lemma filePath_names_its_owner_witness :
  filePath "5500000" false 1700000000000 ≠ filePath "5500000" true 1700000000000.
Proof.
  intros H.
  destruct (filePath_names_its_owner "5500000" false 1700000000000
              "5500000" true 1700000000000 eq_refl eq_refl H) as (_ & Hb & _).
  discriminate Hb.
Defined.

(** ** The conversation formatter *)

(** A formatted message is left alone by the formatter. *)
Lemma formatMessage_idem (msg out : Js.value) :
  AiController.formatMessage msg = Some out →
  (∃ role, Js.prop out "role" = Some role ∧ Js.truthy role = true)
  ∧ AiController.formatMessage out = Some out.
Proof.
  unfold AiController.formatMessage.
  destruct (Js.prop msg "role") as [role|] eqn:Hrole; [|done]. cbn [mbind option_bind].
  destruct (Js.truthy role) eqn:Ht.
  - intros [= <-]. rewrite Hrole. cbn [mbind option_bind]. rewrite Ht. eauto.
  - destruct (Js.prop msg "isUser") as [isUser|]; [|done]. cbn [mbind option_bind].
    destruct (Js.prop msg "text") as [text|]; [|done]. cbn [mbind option_bind].
    destruct (Js.prop msg "content") as [content|]; [|done]. cbn [mbind option_bind].
    intros [= <-]. destruct (Js.truthy isUser); cbn; eauto.
Qed.

Lemma formatMessage_fails (msg : Js.value) :
  AiController.formatMessage msg = None ↔ msg = Js.Undefined ∨ msg = Js.Null.
Proof.
  unfold AiController.formatMessage.
  destruct msg; cbn; try (split; [done|intros [?|?]; done]); try tauto.
  destruct (Js.truthy _); cbn; split; try done; intros [?|?]; done.
Qed.

(** [formatConversationMessages] throws exactly when the conversation
    holds a [null] or [undefined] entry.  Otherwise it returns one
    message per entry, each with a truthy [role]; entries that had one are
    passed on untouched; and formatting the result again changes
    nothing. *)
Theorem formatConversationMessages_spec (conversation : list Js.value) :
  (AiController.formatConversationMessages conversation = None
   ↔ ∃ msg, msg ∈ conversation ∧ (msg = Js.Undefined ∨ msg = Js.Null))
  ∧ ∀ out, AiController.formatConversationMessages conversation = Some out →
      length out = length conversation
      ∧ (∀ i msg role, conversation !! i = Some msg →
           Js.prop msg "role" = Some role → Js.truthy role = true →
           out !! i = Some msg)
      ∧ (∀ msg, msg ∈ out →
           ∃ role, Js.prop msg "role" = Some role ∧ Js.truthy role = true)
      ∧ AiController.formatConversationMessages out = Some out.
Proof.
  unfold AiController.formatConversationMessages. split.
  - induction conversation as [|x l IH].
    + split; [done|]. by intros (msg & ?%elem_of_nil & _).
    + cbn [mapM]. destruct (AiController.formatMessage x) as [y|] eqn:Hx;
        cbn [mbind option_bind].
      * destruct (mapM AiController.formatMessage l) as [k|];
          cbn [mbind option_bind mret option_ret].
        -- split; [done|]. intros (msg & [->|Hin]%elem_of_cons & Hbad).
           ++ apply formatMessage_fails in Hbad. congruence.
           ++ assert (Some k = None) as Hn; [|done].
              apply IH. by exists msg.
        -- split; [|done]. intros _.
           destruct (proj1 IH eq_refl) as (msg & Hin & Hbad).
           exists msg. split; [by right|done].
      * split; [|done]. intros _. exists x. split; [by left|].
        by apply formatMessage_fails.
  - intros out Hout. apply mapM_Some in Hout.
    split; [symmetry; by eapply Forall2_length|]. split; [|split].
    + intros i msg role Hi Hrole Ht.
      destruct (Forall2_lookup_l _ _ _ _ _ Hout Hi) as (y & Hy & Hfmt).
      unfold AiController.formatMessage in Hfmt. rewrite Hrole in Hfmt.
      cbn [mbind option_bind] in Hfmt. rewrite Ht in Hfmt. by simplify_eq.
    + intros msg [i Hi]%list_elem_of_lookup.
      destruct (Forall2_lookup_r _ _ _ _ _ Hout Hi) as (x & Hx & Hfmt).
      by apply formatMessage_idem in Hfmt as [? _].
    + apply mapM_Some. apply Forall2_same_length_lookup. split; [done|].
      intros i x y Hx Hy. simplify_eq.
      destruct (Forall2_lookup_r _ _ _ _ _ Hout Hx) as (x0 & _ & Hfmt).
      by apply formatMessage_idem in Hfmt as [_ ?].
Qed.

(** Formatting [Scenario.conversation] keeps its two messages, and
    formatting the result again gives the result. *)
Lemma formatConversationMessages_spec_witness :
  length Scenario.formattedConversation = length Scenario.conversation
  ∧ AiController.formatConversationMessages Scenario.formattedConversation
    = Some Scenario.formattedConversation.
Proof.
  destruct (formatConversationMessages_spec Scenario.conversation) as [_ H].
  destruct (H Scenario.formattedConversation eq_refl) as (Hlen & _ & _ & Hidem).
  split; [exact Hlen|exact Hidem].
Defined.

(** ** The size of the stored images *)





Section Geometry.
Variable E : Env.
Variable cfg : BunnyConfig.
Variable dir : string.



End Geometry.







(** ** Where a stored URL points *)

Section Backed.
Variable E : Env.
Variable cfg : BunnyConfig.
Variable dir : string.

Lemma io_of_app {A} (m : M A) w l :
  trace (snd (m w)) = trace w ++ l → io_of m w = l.
Proof. unfold io_of. intros ->. by rewrite drop_app_length. Qed.

(** A URL that comes out of the storage chain is backed by stored bytes:
    either the storage zone accepted the PUT of the key behind the CDN
    URL, or the file is on the local disk under the key behind the local
    URL.  In both cases the bytes are what [sharp] made of the staged
    file. *)
Theorem uploadWithFallback_url_is_backed base image id isBg o w url :
  let run := uploadWithFallback E cfg dir base image id isBg o w in
  fst run = Val url →
  ∃ content buf key,
    disk w !! image = Some content
    ∧ sharp E content (resizeOptions isBg o) (Js.or (opt_quality o) (Js.Num 85)) = inr buf
    ∧ ((url = BunnyStorageService.getCdnUrl cfg key
        ∧ axios_put E (BunnyStorageService.getStorageUrl cfg key) buf = None
        ∧ HttpPut (BunnyStorageService.getStorageUrl cfg key) buf "image/webp"
            ∈ io_of (uploadWithFallback E cfg dir base image id isBg o) w)
       ∨ (url = base +:+ LocalStorageService.getPublicUrl key
          ∧ disk (snd run) !! LocalStorageService.getLocalPath dir key = Some buf)).
Proof.
  intros run. subst run.
  pose proof (processAndUpload_eq E cfg image id isBg o w) as Hup. cbv zeta in Hup.
  assert (∀ e w1,
            BunnyStorageService.processAndUploadCharacterImage E cfg image id isBg o w
            = (Exc e, w1) →
            uploadWithFallback E cfg dir base image id isBg o w
            = bind (LocalStorageService.processAndSaveCharacterImage E dir image id isBg o)
                (λ u, ret (base +:+ u)) w1) as Hfall.
  { intros e w1 H. unfold uploadWithFallback, try_catch. by rewrite H. }
  destruct (disk w !! image) as [content|] eqn:Hfile.
  2:{ rewrite (Hfall _ _ Hup). unfold bind. rewrite processAndSave_eq. cbv zeta.
      cbn [disk log]. rewrite Hfile. done. }
  destruct (sharp E content _ _) as [e|buf] eqn:Hsharp.
  { rewrite (Hfall _ _ Hup). unfold bind. rewrite processAndSave_eq. cbv zeta.
    cbn [disk log]. rewrite Hfile, Hsharp. done. }
  assert (∀ w1 : World, disk w1 = disk w →
            ∀ url,
              fst (bind (LocalStorageService.processAndSaveCharacterImage E dir
                           image id isBg o)
                     (λ u, ret (base +:+ u)) w1) = Val url →
              ∃ key, url = base +:+ LocalStorageService.getPublicUrl key
                ∧ disk (snd (bind (LocalStorageService.processAndSaveCharacterImage E dir
                                     image id isBg o)
                               (λ u, ret (base +:+ u)) w1))
                  !! LocalStorageService.getLocalPath dir key = Some buf) as Hlocal.
  { intros w1 Hdisk url'. unfold bind. rewrite processAndSave_eq. cbv zeta.
    rewrite Hdisk, Hfile, Hsharp.
    destruct (present _ w1).
    - destruct (writeFileSync E _); [done|]. cbn [fst snd ret].
      intros [= <-]. eexists. split; [reflexivity|].
      cbn [disk set_disk]. apply lookup_insert_eq.
    - destruct (mkdirSync E _); [done|].
      destruct (writeFileSync E _); [done|]. cbn [fst snd ret].
      intros [= <-]. eexists. split; [reflexivity|].
      cbn [disk set_disk]. apply lookup_insert_eq. }
  destruct (storageAccessKey cfg) as [k|] eqn:Hkey.
  2:{ rewrite (Hfall _ _ Hup). intros Hval.
      apply Hlocal in Hval as (key & -> & Hdisk); [|reflexivity].
      exists content, buf, key. split; [done|]. split; [done|]. right. done. }
  destruct (axios_put E _ buf) as [e|] eqn:Hput.
  { rewrite (Hfall _ _ Hup). intros Hval.
    apply Hlocal in Hval as (key & -> & Hdisk); [|reflexivity].
    exists content, buf, key. split; [done|]. split; [done|]. right. done. }
  assert (uploadWithFallback E cfg dir base image id isBg o w
          = (Val (BunnyStorageService.getCdnUrl cfg
                    (filePath id isBg (clock E (now_calls w)))),
             log (HttpPut (BunnyStorageService.getStorageUrl cfg
                             (filePath id isBg (clock E (now_calls w)))) buf "image/webp")
               (tick (log (SharpRead image) w)))) as Hrun.
  { unfold uploadWithFallback, try_catch. by rewrite Hup. }
  rewrite Hrun. cbn [fst]. intros [= <-].
  exists content, buf, (filePath id isBg (clock E (now_calls w))).
  split; [done|]. split; [done|]. left. split; [done|]. split; [done|].
  erewrite io_of_app.
  2:{ rewrite Hrun. cbn [snd trace log tick]. rewrite <- app_assoc. reflexivity. }
  cbn [app]. apply elem_of_cons. right. apply elem_of_cons. by left.
Qed.

(** Without a storage access key the remote service fails before any
    request leaves: the chain makes no PUT at all, and a URL it returns
    is a local one. *)
Theorem missing_access_key_goes_local base image id isBg o w :
  storageAccessKey cfg = None →
  let run := uploadWithFallback E cfg dir base image id isBg o w in
  (∀ url data ct,
     HttpPut url data ct ∉ io_of (uploadWithFallback E cfg dir base image id isBg o) w)
  ∧ (∀ url, fst run = Val url →
       url = base +:+ "/images/"
               +:+ filePath id isBg (clock E (S (now_calls w)))).
Proof.
  intros Hkey run. subst run.
  assert (∀ ev, ev ∈ io_of (uploadWithFallback E cfg dir base image id isBg o) w →
                ∀ url data ct, ev ≠ HttpPut url data ct) as Hio.
  { intros ev. unfold io_of, uploadWithFallback, try_catch.
    rewrite processAndUpload_eq. cbv zeta. rewrite Hkey.
    destruct (disk w !! image) as [content|] eqn:Hfile.
    2:{ unfold bind. rewrite processAndSave_eq. cbv zeta. cbn [disk log].
        rewrite Hfile. cbn [snd trace log]. rewrite <- app_assoc, drop_app_length.
        intros Hev. repeat (apply elem_of_cons in Hev as [->|Hev]); [done..|].
        by apply elem_of_nil in Hev. }
    destruct (sharp E content _ _) as [e|buf] eqn:Hsharp.
    { unfold bind. rewrite processAndSave_eq. cbv zeta. cbn [disk log].
      rewrite Hfile, Hsharp. cbn [snd trace log]. rewrite <- app_assoc, drop_app_length.
      intros Hev. repeat (apply elem_of_cons in Hev as [->|Hev]); [done..|].
      by apply elem_of_nil in Hev. }
    unfold bind. rewrite processAndSave_eq. cbv zeta. cbn [disk log tick].
    rewrite Hfile, Hsharp.
    destruct (present _ _); [|destruct (mkdirSync E _)];
      try destruct (writeFileSync E _);
      cbn [snd trace log tick set_disk set_dirs ret];
      rewrite <- ?app_assoc, drop_app_length; cbn [app];
      intros Hev; repeat (apply elem_of_cons in Hev as [->|Hev]); try done;
      by apply elem_of_nil in Hev. }
  split.
  - intros url data ct Hin. by eapply Hio.
  - unfold uploadWithFallback, try_catch.
    rewrite processAndUpload_eq. cbv zeta. rewrite Hkey.
    destruct (disk w !! image) as [content|] eqn:Hfile.
    2:{ unfold bind. rewrite processAndSave_eq. cbv zeta. cbn [disk log].
        by rewrite Hfile. }
    destruct (sharp E content _ _) as [e|buf] eqn:Hsharp.
    { unfold bind. rewrite processAndSave_eq. cbv zeta. cbn [disk log].
      by rewrite Hfile, Hsharp. }
    unfold bind. rewrite processAndSave_eq. cbv zeta. cbn [disk log tick now_calls].
    rewrite Hfile, Hsharp.
    intros url.
    destruct (present _ _); [|destruct (mkdirSync E _)];
      try destruct (writeFileSync E _); cbn [fst ret]; try done; by intros [= <-].
Qed.

(** The two listing endpoints only read: each makes one GET to the
    storage zone and leaves disk and collection alone; it answers 500
    when that request fails and 200 otherwise, with one URL per entry at
    most. *)
Theorem listings_only_read w :
  let videos := MediaController.listVideos E cfg w in
  let images := CarasoulController.listImages E cfg w in
  let zone p := storageBaseUrl cfg +:+ "/" +:+ storageZoneName cfg +:+ "/" +:+ p in
  (snd videos = log (HttpGet (zone "videos/")) w
   ∧ match axios_get E (zone "videos/") with
     | inl e => answered (fst videos) = Some 500
     | inr entries =>
         ∃ urls, fst videos = Ret {| status := 200; json := Js.Arr (Js.Str <$> urls) |}
                 ∧ (length urls ≤ length entries)%nat
     end)
  ∧ (snd images = log (HttpGet (zone "carasouls/")) w
     ∧ match axios_get E (zone "carasouls/") with
       | inl e => answered (fst images) = Some 500
       | inr entries =>
           ∃ urls, fst images = Ret {| status := 200; json := Js.Arr (Js.Str <$> urls) |}
                   ∧ (length urls ≤ length entries)%nat
       end).
Proof.
  cbv zeta. split.
  - unfold MediaController.listVideos, BunnyStorageService.listFiles, try_catch, bind,
      Sys.get.
    change (normalizedPath MediaController.videoPath) with "videos/".
    destruct (axios_get E _) as [e|entries]; cbn [fst snd]; [done|].
    split; [done|]. eexists. split; [reflexivity|].
    unfold MediaController.videoUrls. rewrite length_fmap. apply List.filter_length_le.
  - unfold CarasoulController.listImages, BunnyStorageService.listFiles, try_catch, bind,
      Sys.get.
    change (normalizedPath CarasoulController.imagePath) with "carasouls/".
    destruct (axios_get E _) as [e|entries]; cbn [fst snd]; [done|].
    split; [done|]. eexists. split; [reflexivity|].
    unfold CarasoulController.imageUrls. rewrite length_fmap. apply List.filter_length_le.
Qed.

End Backed.

(** With everything working, the URL of the profile image of
    [Scenario.createRequest] stands for the bytes [sharp] made of the
    staged file. *)
Lemma uploadWithFallback_url_is_backed_witness :
  ∃ content buf,
    disk Scenario.staged !! path Scenario.profileFile = Some content
    ∧ sharp Scenario.healthy content
        (resizeOptions false CharacterController.profileOptions)
        (Js.or (opt_quality CharacterController.profileOptions) (Js.Num 85))
      = inr buf.
Proof.
  destruct (uploadWithFallback_url_is_backed Scenario.healthy Scenario.bunnyConfig
              Scenario.storageDir "http://localhost:3000" (path Scenario.profileFile)
              "5500000" false CharacterController.profileOptions Scenario.staged
              "https://cdn.example/characters/5500000/profile-1700000000000.webp"
              ltac:(by_vm)) as (content & buf & _ & Hfile & Hsharp & _).
  exists content, buf. split; [exact Hfile|exact Hsharp].
Defined.

(** Under [Scenario.keyless] the upload of the staged profile image
    comes back with the local URL of the second key. *)
Lemma missing_access_key_goes_local_witness :
  "http://localhost:3000/images/characters/5500000/profile-1700000000001.webp"
  = "http://localhost:3000" +:+ "/images/"
      +:+ filePath "5500000" false (clock Scenario.healthy 1).
Proof.
  destruct (missing_access_key_goes_local Scenario.healthy Scenario.keyless
              Scenario.storageDir "http://localhost:3000" (path Scenario.profileFile)
              "5500000" false CharacterController.profileOptions Scenario.staged eq_refl)
    as [_ H].
  exact (H _ ltac:(by_vm)).
Defined.
